(** * Codebase-Parser: a shallow embedding of [main.py] and its properties

    The development has three parts.
    - The program: Python strings, [sorted] and the [pathlib] operations the
      script uses; [CodebaseParser] with the ignore rules, the scan, the
      report formatter and [parse_and_output]; [AdvancedCodebaseParser] with
      the regular-expression line analyzer and the enhanced report; the
      command line ([main] and the [__main__] block).
    - The notions that the statements use, and example trees.
    - The properties, one section per subject.

    Python [str] values are modelled by [string]; a character stands for the
    code point of the same number (U+0000 to U+00FF).  Python [int] values are
    modelled by [Z].  A [dict] is an association list in insertion order, the
    order in which Python iterates over it.  Paths are POSIX paths. *)

From Stdlib Require Import List Bool Arith ZArith Lia.
From Stdlib Require Import Ascii String.
From Stdlib Require Import Permutation Sorted.
From Stdlib Require DecimalString.
Import ListNotations.

Open Scope string_scope.
Open Scope list_scope.

Infix "+++" := String.append (right associativity, at level 60) : string_scope.

(* ================================================================== *)
(** ** Python strings *)
(* ================================================================== *)

Module Str.

(** The line feed, ["\n"]. *)
Definition nl : string := String (ascii_of_nat 10) "".

(** [sep.join(parts)]. *)
Definition join (sep : string) (parts : list string) : string :=
  String.concat sep parts.

(** [s * n]. *)
Fixpoint repeat_str (s : string) (n : nat) : string :=
  match n with
  | O => ""
  | S k => s +++ repeat_str s k
  end.

(** [c in s] for a one-character [c]. *)
Fixpoint contains_char (c : ascii) (s : string) : bool :=
  match s with
  | EmptyString => false
  | String a r => Ascii.eqb a c || contains_char c r
  end.

(** [s[1:]]. *)
Definition drop_first (s : string) : string :=
  match s with
  | EmptyString => ""
  | String _ r => r
  end.

(** [s.startswith(p)]. *)
Definition startswith (s p : string) : bool := String.prefix p s.

(** [s.endswith(suffix)]: [suffix] is the last [len(suffix)] characters. *)
Definition endswith (s suffix : string) : bool :=
  let n := String.length s in
  let k := String.length suffix in
  (k <=? n)%nat && String.eqb (String.substring (n - k) k s) suffix.

(** [s.split(sep)] for a one-character separator. *)
Fixpoint split_char (sep : ascii) (s : string) : list string :=
  match s with
  | EmptyString => [""]
  | String a r =>
      if Ascii.eqb a sep then "" :: split_char sep r
      else match split_char sep r with
           | [] => [String a ""]
           | w :: ws => String a w :: ws
           end
  end.

(** [s.rfind('.')], as the position counted from the left; [None] is
    Python's [-1]. *)
Fixpoint rfind_char (c : ascii) (s : string) : option nat :=
  match s with
  | EmptyString => None
  | String a r =>
      match rfind_char c r with
      | Some i => Some (S i)
      | None => if Ascii.eqb a c then Some O else None
      end
  end.

Definition in_range (lo hi : nat) (a : ascii) : bool :=
  let n := nat_of_ascii a in (lo <=? n)%nat && (n <=? hi)%nat.

(** [c.lower()]: A-Z and the capital letters of U+00C0..U+00DE (all but
    the multiplication sign U+00D7) move up by 32. *)
Definition lower_char (a : ascii) : ascii :=
  let n := nat_of_ascii a in
  if in_range 65 90 a || (in_range 192 222 a && negb (n =? 215)%nat)
  then ascii_of_nat (n + 32) else a.

(** [c.upper()], a string: a-z and the small letters of U+00E0..U+00FE (all
    but the division sign U+00F7) move down by 32, and the sharp s, U+00DF,
    becomes ["SS"].  The upper case of U+00B5 and of U+00FF is a character
    beyond U+00FF (U+039C, U+0178), which a [string] cannot hold: no value
    is fixed for it here, [beyond] stands for it.  Every other character is
    its own upper case. *)
Definition upper_char (beyond : ascii -> string) (a : ascii) : string :=
  let n := nat_of_ascii a in
  if (n =? 223)%nat then "SS"
  else if (n =? 181)%nat || (n =? 255)%nat then beyond a
  else if in_range 97 122 a || (in_range 224 254 a && negb (n =? 247)%nat)
       then String (ascii_of_nat (n - 32)) ""
       else String a "".

Fixpoint map_chars (f : ascii -> ascii) (s : string) : string :=
  match s with
  | EmptyString => ""
  | String a r => String (f a) (map_chars f r)
  end.

(** [s.lower()]. *)
Definition lower (s : string) : string := map_chars lower_char s.

(** [s.upper()]. *)
Fixpoint upper (beyond : ascii -> string) (s : string) : string :=
  match s with
  | EmptyString => ""
  | String a r => upper_char beyond a +++ upper beyond r
  end.

(** [c.isspace()], which is also what [\s] matches in a [str] pattern. *)
Definition isspace (a : ascii) : bool :=
  let n := nat_of_ascii a in
  in_range 9 13 a || in_range 28 32 a || (n =? 133)%nat || (n =? 160)%nat.

(** What [\w] matches in a [str] pattern: alphanumerics and underscore. *)
Definition isword (a : ascii) : bool :=
  let n := nat_of_ascii a in
  in_range 48 57 a || in_range 65 90 a || (n =? 95)%nat || in_range 97 122 a
  || (n =? 170)%nat || in_range 178 179 a || (n =? 181)%nat
  || in_range 185 186 a || in_range 188 190 a
  || in_range 192 214 a || in_range 216 246 a || in_range 248 255 a.

Fixpoint lstrip (s : string) : string :=
  match s with
  | EmptyString => ""
  | String a r => if isspace a then lstrip r else s
  end.

Fixpoint rstrip (s : string) : string :=
  match s with
  | EmptyString => ""
  | String a r =>
      match rstrip r with
      | EmptyString => if isspace a then "" else String a ""
      | r' => String a r'
      end
  end.

(** [s.strip()]. *)
Definition strip (s : string) : string := rstrip (lstrip s).

(** The characters at which [splitlines] ends a line: LF, VT, FF, CR,
    FS, GS, RS and NEL. *)
Definition is_linebreak (a : ascii) : bool :=
  let n := nat_of_ascii a in
  in_range 10 13 a || in_range 28 30 a || (n =? 133)%nat.

Definition is_cr (a : ascii) : bool := (nat_of_ascii a =? 13)%nat.
Definition is_lf (a : ascii) : bool := (nat_of_ascii a =? 10)%nat.

(** [splitlines_from cur s]: the lines of [s], where [cur] holds, in
    reverse, the characters of the line being read.  CR LF is one
    terminator; a last line without terminator is kept when not empty. *)
Fixpoint splitlines_from (cur : list ascii) (s : string) : list string :=
  match s with
  | EmptyString =>
      match cur with
      | [] => []
      | _ => [string_of_list_ascii (rev cur)]
      end
  | String a r =>
      if is_linebreak a then
        string_of_list_ascii (rev cur) ::
          match r with
          | String b r' =>
              if is_cr a && is_lf b then splitlines_from [] r'
              else splitlines_from [] r
          | EmptyString => []
          end
      else splitlines_from (a :: cur) r
  end.

(** [s.splitlines()]. *)
Definition splitlines (s : string) : list string := splitlines_from [] s.

(** [str(n)] for an [int]. *)
Definition of_int (n : Z) : string :=
  DecimalString.NilZero.string_of_int (Z.to_int n).

(** [len(s.encode('utf-8'))]: one byte below U+0080, two up to U+00FF. *)
Fixpoint utf8_length (s : string) : Z :=
  match s with
  | EmptyString => 0
  | String a r =>
      ((if (nat_of_ascii a <? 128)%nat then 1 else 2) + utf8_length r)%Z
  end.

(** The order of [str] comparison: by code point, a proper prefix first. *)
Definition le (s t : string) : Prop := String.leb s t = true.

End Str.

(* ================================================================== *)
(** ** [sorted], sets and dictionaries *)
(* ================================================================== *)

Section PySorted.
Context {A : Type}.
Variable key : A -> string.

(** [x] goes in front of the first element whose key is not smaller. *)
Fixpoint insert_sorted (x : A) (l : list A) : list A :=
  match l with
  | [] => [x]
  | y :: r =>
      if String.leb (key x) (key y) then x :: y :: r
      else y :: insert_sorted x r
  end.

(** [sorted(l, key=key)].  Python's sort is stable, and a stable sort has
    one possible result; this insertion sort is stable. *)
Fixpoint py_sorted (l : list A) : list A :=
  match l with
  | [] => []
  | x :: r => insert_sorted x (py_sorted r)
  end.
End PySorted.

(** [x in s] for a set of strings. *)
Definition mem (x : string) (s : list string) : bool :=
  existsb (String.eqb x) s.

(** A [dict] with [str] keys, in insertion order. *)
Definition dict (V : Type) : Type := list (string * V).

Section Dict.
Context {V : Type}.

Definition dict_keys (d : dict V) : list string := map fst d.

(** [d.get(k)]. *)
Fixpoint dict_get (d : dict V) (k : string) : option V :=
  match d with
  | [] => None
  | (k', v) :: r => if String.eqb k k' then Some v else dict_get r k
  end.

(** [d.get(k, default)]. *)
Definition dict_get_default (d : dict V) (k : string) (default : V) : V :=
  match dict_get d k with
  | Some v => v
  | None => default
  end.

(** [d[k] = v]: an existing key keeps its place, a new key goes last. *)
Fixpoint dict_set (d : dict V) (k : string) (v : V) : dict V :=
  match d with
  | [] => [(k, v)]
  | (k', v') :: r =>
      if String.eqb k k' then (k', v) :: r else (k', v') :: dict_set r k v
  end.
End Dict.

(* ================================================================== *)
(** ** [pathlib] *)
(* ================================================================== *)

Module PathLib.

(** A path is the list of its components.  An absolute path lists the
    components below [/]; a relative path with no component is [Path('.')]. *)
Definition Path : Type := list string.

(** [p.name]: the last component, [''] when there is none. *)
Definition name (p : Path) : string := last p "".

(** [p.parent]. *)
Definition parent (p : Path) : Path := removelast p.

(** [p.parents] of an absolute path: the proper prefixes, longest first,
    down to [/]. *)
Definition parents (p : Path) : list Path :=
  map (fun k => firstn k p) (rev (seq 0 (List.length p))).

(** [p.suffix]: from the last dot of the name, unless that dot is the
    first or the last character of the name. *)
Definition suffix (p : Path) : string :=
  let n := name p in
  match Str.rfind_char "." n with
  | Some i =>
      if (0 <? i)%nat && (i <? String.length n - 1)%nat
      then String.substring i (String.length n - i) n
      else ""
  | None => ""
  end.

(** [p.stem]: the name without its suffix. *)
Definition stem (p : Path) : string :=
  let n := name p in
  match Str.rfind_char "." n with
  | Some i =>
      if (0 <? i)%nat && (i <? String.length n - 1)%nat
      then String.substring 0 i n
      else n
  | None => n
  end.

(** [str(p)] for a relative path. *)
Definition str_rel (p : Path) : string :=
  match p with
  | [] => "."
  | _ => Str.join "/" p
  end.

(** [str(p)] for an absolute path. *)
Definition str_abs (p : Path) : string := "/" +++ Str.join "/" p.

End PathLib.
Import PathLib.

(* ================================================================== *)
(** ** The file system as the script sees it *)
(* ================================================================== *)

Inductive Kind : Type := File | Dir | Other.

Definition is_file (k : Kind) : bool :=
  match k with File => true | _ => false end.
Definition is_dir (k : Kind) : bool :=
  match k with Dir => true | _ => false end.

(** An entry yielded by [root.rglob('*')]: the path [root / rel], kept as
    [rel], and what [is_file()] and [is_dir()] answer for it when they do
    not raise. *)
Record Item : Type := mkItem { rel : Path; kind : Kind }.

Inductive Encoding : Type := UTF8 | Latin1.

(** The outcome of [open(path, 'r', encoding=...)] followed by [f.read()]. *)
Inductive ReadResult : Type :=
| Text (content : string)
| UnicodeDecodeError (e : string)
| OtherError (e : string).

(** An exception that ends the loop of [scan_directory]: a
    [PermissionError], or any other [Exception]. *)
Inductive ScanError : Type :=
| PermissionError (e : string)
| ScanException (e : string).

(** Where the [try] block of [parse_and_output] can raise once the output
    file is open: in one of the three [f.write] calls, or when the [with]
    block closes the file. *)
Inductive WritePoint : Type :=
| AtSummary
| AtSeparator
| AtDetail
| AtClose.

(** An exception raised there: what the file is left holding, and the
    message of the exception. *)
Record WriteFault : Type := mkWriteFault {
  fault_point : WritePoint;
  fault_left : string;
  fault_message : string
}.

(** [parser.parse_args()]: the parsed arguments, or the exit that argparse
    itself performs (usage error, [--help]). *)
Record Args : Type := mkArgs {
  arg_path : string;
  arg_output : string;
  arg_preview : bool;
  arg_extensions : option string
}.

Inductive ArgparseResult : Type :=
| Parsed (a : Args)
| ArgparseExit (status : Z).

(** What the script asks of its environment.
    - [rglob] lists the entries below the scan root in the order the file
      system enumerates them, up to the point where the enumeration itself
      raises, and [rglob_error] is that exception.
    - [stat_error] is the exception that [is_dir()] and [is_file()] raise
      for a path, for instance a [PermissionError] below a directory that
      cannot be searched.
    - [open_read] is what reading a file gives before the output file is
      opened, and [open_read_during_write] what it gives while the output
      file is open for writing: the two differ when the output file is one
      of the files read, since opening it has emptied it.
    - [open_write] is the message of the exception when opening the output
      file fails; [write_fault] is the exception raised after that by a
      write or by closing the file, and [getsize_error] the message of the
      exception that [os.path.getsize] raises.
    - [upper_beyond] stands for the upper case of the two characters for
      which it lies beyond U+00FF; see [Str.upper_char]. *)
Record Env : Type := mkEnv {
  resolve : string -> Path;
  path_exists : Path -> bool;
  rglob : Path -> list Item;
  rglob_error : Path -> option ScanError;
  stat_error : Path -> option ScanError;
  open_read : Encoding -> Path -> ReadResult;
  open_read_during_write : Encoding -> Path -> ReadResult;
  open_write : string -> option string;
  write_fault : string -> option WriteFault;
  getsize_error : string -> option string;
  upper_beyond : ascii -> string;
  parse_args : list string -> ArgparseResult
}.

(** The environment as the body of the [with open(...)] block sees it. *)
Definition during_write (env : Env) : Env :=
  {| resolve := resolve env;
     path_exists := path_exists env;
     rglob := rglob env;
     rglob_error := rglob_error env;
     stat_error := stat_error env;
     open_read := open_read_during_write env;
     open_read_during_write := open_read_during_write env;
     open_write := open_write env;
     write_fault := write_fault env;
     getsize_error := getsize_error env;
     upper_beyond := upper_beyond env;
     parse_args := parse_args env |}.

(** What a run changes: the lines printed and the files written, by name. *)
Record World : Type := mkWorld {
  stdout : list string;
  written : string -> option string
}.

Definition print (line : string) (w : World) : World :=
  {| stdout := stdout w ++ [line]; written := written w |}.

Definition write_file (file content : string) (w : World) : World :=
  {| stdout := stdout w;
     written := fun f => if String.eqb f file then Some content
                         else written w f |}.

(* ================================================================== *)
(** ** class CodebaseParser *)
(* ================================================================== *)

(** The attributes of a parser object.  [root_path] is the resolved root. *)
Record CodebaseParser : Type := mkParser {
  root_path : Path;
  output_file : string;
  code_extensions : list string;
  ignore_dirs : list string;
  ignore_files : list string
}.

Definition default_code_extensions : list string :=
  [".py"; ".js"; ".ts"; ".tsx"; ".jsx"; ".java"; ".cpp"; ".cc"; ".cxx";
   ".c"; ".h"; ".hpp"; ".cs"; ".php"; ".rb"; ".go"; ".rs"; ".kt";
   ".swift"; ".m"; ".mm"; ".scala"; ".clj"; ".hs"; ".ml"; ".fs";
   ".dart"; ".lua"; ".r"; ".pl"; ".sh"; ".bash"; ".zsh"; ".fish";
   ".sql"; ".json"; ".xml"; ".yaml"; ".yml"; ".toml"; ".ini"; ".cfg"].

Definition default_ignore_dirs : list string :=
  ["node_modules"; "__pycache__"; ".git"; ".svn"; ".hg"; "build";
   "dist"; "target"; "bin"; "obj"; ".gradle"; ".idea"; ".vscode";
   "vendor"; "coverage"; ".nyc_output"; "logs"; "tmp"; "temp";
   ".next"; ".nuxt"; "out"; "public/build"; "venv"; "env"; ".env"].

Definition default_ignore_files : list string :=
  [".gitignore"; ".dockerignore"; "package-lock.json"; "yarn.lock";
   "Pipfile.lock"; "poetry.lock"; ".DS_Store"; "Thumbs.db";
   "desktop.ini"; "*.log"; "*.tmp"; "*.temp"].

(** [CodebaseParser.__init__]. *)
Definition init (env : Env) (root output : string) : CodebaseParser :=
  {| root_path := resolve env root;
     output_file := output;
     code_extensions := default_code_extensions;
     ignore_dirs := default_ignore_dirs;
     ignore_files := default_ignore_files |}.

(** The absolute path of an entry of the scan. *)
Definition abs_path (self : CodebaseParser) (r : Path) : Path :=
  root_path self ++ r.

(** [should_ignore_path], for an absolute path of the given kind. *)
Definition should_ignore_path (self : CodebaseParser) (path : Path)
    (k : Kind) : bool :=
  existsb (fun p => mem (name p) (ignore_dirs self)) (parents path)
  || (is_dir k && mem (name path) (ignore_dirs self))
  || (is_file k
      && (mem (name path) (ignore_files self)
          || existsb (fun ignore_pattern =>
                        Str.contains_char "*" ignore_pattern
                        && Str.endswith (name path)
                             (Str.drop_first ignore_pattern))
               (ignore_files self))).

(** [is_code_file]. *)
Definition is_code_file (self : CodebaseParser) (file_path : Path) : bool :=
  mem (Str.lower (suffix file_path)) (code_extensions self).

Definition lang_map : dict string :=
  [(".py", "Python"); (".js", "JavaScript"); (".ts", "TypeScript");
   (".tsx", "TypeScript React"); (".jsx", "JavaScript React");
   (".java", "Java"); (".cpp", "C++"); (".cc", "C++"); (".cxx", "C++");
   (".c", "C"); (".h", "C/C++ Header"); (".hpp", "C++ Header");
   (".cs", "C#"); (".php", "PHP"); (".rb", "Ruby"); (".go", "Go");
   (".rs", "Rust"); (".kt", "Kotlin"); (".swift", "Swift");
   (".m", "Objective-C"); (".mm", "Objective-C++"); (".scala", "Scala");
   (".clj", "Clojure"); (".hs", "Haskell"); (".ml", "OCaml"); (".fs", "F#");
   (".dart", "Dart"); (".lua", "Lua"); (".r", "R"); (".pl", "Perl");
   (".sh", "Shell"); (".bash", "Bash"); (".zsh", "Zsh"); (".fish", "Fish");
   (".sql", "SQL"); (".json", "JSON"); (".xml", "XML"); (".yaml", "YAML");
   (".yml", "YAML"); (".toml", "TOML"); (".ini", "INI"); (".cfg", "Config")].

(** [get_language_from_extension]. *)
Definition get_language_from_extension (extension : string) : string :=
  dict_get_default lang_map (Str.lower extension) "Unknown".

(** The scan result: directory key to the files found, as relative paths. *)
Definition Structure : Type := dict (list Path).

(** The key of a file: [str(rel_path.parent)], or ['root'] when the name of
    that parent is ['.'].  The name of [Path('.')] is the empty string. *)
Definition parent_dir (rel_path : Path) : string :=
  if negb (String.eqb (name (parent rel_path)) ".")
  then str_rel (parent rel_path)
  else "root".

(** [structure[parent_dir].append(item)], after creating the list when the
    key is new. *)
Definition structure_add (structure : Structure) (key : string)
    (item : Path) : Structure :=
  match dict_get structure key with
  | None => dict_set structure key [item]
  | Some files => dict_set structure key (files ++ [item])
  end.

(** One round of the loop of [scan_directory]. *)
Definition scan_step (self : CodebaseParser) (structure : Structure)
    (item : Item) : Structure :=
  if should_ignore_path self (abs_path self (rel item)) (kind item)
  then structure
  else if is_file (kind item) && is_code_file self (abs_path self (rel item))
       then structure_add structure (parent_dir (rel item)) (rel item)
       else structure.

(** The loop of [scan_directory], over the entries that it goes through. *)
Definition scan_directory (self : CodebaseParser) (items : list Item)
    : Structure :=
  fold_left (scan_step self) items [].

(** [structure[directory]], read only at keys of [structure]. *)
Definition files_of (structure : Structure) (directory : string)
    : list Path :=
  dict_get_default structure directory [].

(** [read_file_content]: UTF-8 first, Latin-1 when the bytes are not UTF-8,
    and the error message as the content when reading fails. *)
Definition read_file_content (env : Env) (file_path : Path) : string :=
  match open_read env UTF8 file_path with
  | Text content => content
  | UnicodeDecodeError _ =>
      match open_read env Latin1 file_path with
      | Text content => content
      | UnicodeDecodeError e => "Error reading file: " +++ e
      | OtherError e => "Error reading file: " +++ e
      end
  | OtherError e => "Error reading file: " +++ e
  end.

(** [generate_separator] with its default [char] and [length]. *)
Definition generate_separator (text : string) : string :=
  Str.repeat_str "-" 43 +++ text +++ Str.repeat_str "-" 43.

(** [bool(content)] for a string. *)
Definition truthy (content : string) : bool :=
  negb (String.eqb content "").

(** The lines [f"{indent}{part}"] of [for i, part in enumerate(parts)],
    from index [i] on. *)
Fixpoint part_lines (i : nat) (parts : list string) : list string :=
  match parts with
  | [] => []
  | part :: r => (Str.repeat_str "  " i +++ part) :: part_lines (S i) r
  end.

(** The lines appended for the directory itself; [os.sep] is ["/"]. *)
Definition directory_lines (directory : string) : list string :=
  if String.eqb directory "root" then ["."]
  else part_lines 0 (Str.split_char "/" directory).

(** The line appended for a file: its name under
    [depth + 1 = len(rel_path.parts)] indents. *)
Definition file_line (self : CodebaseParser) (file_path : Path) : string :=
  let depth := (Z.of_nat (List.length file_path) - 1)%Z in
  Str.repeat_str "  " (Z.to_nat (depth + 1))
  +++ name (abs_path self file_path).

(** [sorted(structure.keys())]. *)
Definition sorted_dirs (structure : Structure) : list string :=
  py_sorted (fun k => k) (dict_keys structure).

(** [sorted(structure[directory], key=lambda x: x.name)]. *)
Definition sorted_files (self : CodebaseParser) (structure : Structure)
    (directory : string) : list Path :=
  py_sorted (fun x => name (abs_path self x)) (files_of structure directory).

(** The [result] list of [format_directory_structure] when the loop ends. *)
Definition tree_lines (self : CodebaseParser) (structure : Structure)
    : list string :=
  fold_left
    (fun result directory =>
       let result := result ++ directory_lines directory in
       fold_left (fun result file_path => result ++ [file_line self file_path])
         (sorted_files self structure directory) result)
    (sorted_dirs structure)
    ["Code Structure:"].

(** [format_directory_structure]. *)
Definition format_directory_structure (self : CodebaseParser)
    (structure : Structure) : string :=
  Str.join Str.nl (tree_lines self structure).

(** The block of 100 [=] between two line feeds. *)
Definition rule_block : string :=
  Str.nl +++ Str.repeat_str "=" 100 +++ Str.nl.

(** What one round of the inner loop of [generate_code_output] appends. *)
Definition code_section (env : Env) (self : CodebaseParser)
    (directory : string) (file_path : Path) : list string :=
  let file_name := stem (abs_path self file_path) in
  let section_header :=
    if String.eqb directory "root" then file_name
    else directory +++ "/" +++ file_name in
  let content := read_file_content env (abs_path self file_path) in
  [generate_separator section_header;
   "File: " +++ str_rel file_path;
   Str.repeat_str "-" 100;
   if truthy content then content else "// Unable to read file content";
   rule_block].

(** The [result] list of [generate_code_output] when the loops end. *)
Definition code_output_lines (env : Env) (self : CodebaseParser)
    (structure : Structure) : list string :=
  fold_left
    (fun result directory =>
       fold_left
         (fun result file_path =>
            result ++ code_section env self directory file_path)
         (sorted_files self structure directory) result)
    (sorted_dirs structure)
    [format_directory_structure self structure; rule_block].

(** [generate_code_output]. *)
Definition generate_code_output (env : Env) (self : CodebaseParser)
    (structure : Structure) : string :=
  Str.join Str.nl (code_output_lines env self structure).

(** The dictionary built by [get_project_stats]. *)
Record ProjectStats : Type := mkStats {
  total_files : Z;
  total_directories : Z;
  total_lines : Z;
  languages : dict Z
}.

(** One round of the inner loop of [get_project_stats]. *)
Definition stats_file_step (env : Env) (self : CodebaseParser)
    (stats : ProjectStats) (file_path : Path) : ProjectStats :=
  let content := read_file_content env (abs_path self file_path) in
  let lines :=
    if truthy content
    then (total_lines stats
          + Z.of_nat (List.length (Str.splitlines content)))%Z
    else total_lines stats in
  let language :=
    get_language_from_extension (suffix (abs_path self file_path)) in
  {| total_files := total_files stats;
     total_directories := total_directories stats;
     total_lines := lines;
     languages :=
       dict_set (languages stats) language
         (dict_get_default (languages stats) language 0 + 1)%Z |}.

(** One round of the outer loop, over [structure.items()]. *)
Definition stats_dir_step (env : Env) (self : CodebaseParser)
    (stats : ProjectStats) (entry : string * list Path) : ProjectStats :=
  let files := snd entry in
  let stats :=
    {| total_files := (total_files stats + Z.of_nat (List.length files))%Z;
       total_directories := total_directories stats;
       total_lines := total_lines stats;
       languages := languages stats |} in
  fold_left (stats_file_step env self) files stats.

(** [get_project_stats]. *)
Definition get_project_stats (env : Env) (self : CodebaseParser)
    (structure : Structure) : ProjectStats :=
  fold_left (stats_dir_step env self) structure
    {| total_files := 0;
       total_directories := Z.of_nat (List.length structure);
       total_lines := 0;
       languages := [] |}.

(** The rows of the language table; the keys of a dictionary differ, so
    the order of the pairs is the order of their first components. *)
Definition language_rows (stats : ProjectStats) : list string :=
  map (fun entry =>
         "  " +++ fst entry +++ ": " +++ Str.of_int (snd entry) +++ " files")
    (py_sorted fst (languages stats)).

(** The rows of the directory table. *)
Definition directory_rows (structure : Structure) : list string :=
  map (fun directory =>
         "  " +++ directory +++ ": "
         +++ Str.of_int (Z.of_nat (List.length (files_of structure directory)))
         +++ " files")
    (sorted_dirs structure).

(** The [summary] list of [generate_summary]. *)
Definition summary_lines (self : CodebaseParser) (structure : Structure)
    (stats : ProjectStats) : list string :=
  [Str.repeat_str "=" 100;
   "CODEBASE SUMMARY";
   Str.repeat_str "=" 100;
   "Total Files: " +++ Str.of_int (total_files stats);
   "Total Directories: " +++ Str.of_int (total_directories stats);
   "Total Lines of Code: " +++ Str.of_int (total_lines stats);
   "Root Directory: " +++ str_abs (root_path self);
   "";
   "Languages Found:"]
  ++ language_rows stats
  ++ [""; "Directory Overview:"]
  ++ directory_rows structure
  ++ [Str.repeat_str "=" 100].

(** [generate_summary]. *)
Definition generate_summary (self : CodebaseParser) (structure : Structure)
    (stats : ProjectStats) : string :=
  Str.join Str.nl (summary_lines self structure stats).

(** The exception that an entry raises in the loop of [scan_directory], if
    any.  [should_ignore_path] returns before it calls [is_dir()] when a
    parent is ignored; otherwise [is_dir()] raises what [stat_error] says. *)
Definition stat_raises (env : Env) (self : CodebaseParser) (item : Item)
    : option ScanError :=
  if existsb (fun p => mem (name p) (ignore_dirs self))
       (parents (abs_path self (rel item)))
  then None
  else stat_error env (abs_path self (rel item)).

(** The entries that the loop of [scan_directory] goes through, and the
    exception that ends it: the [try] block holds the whole loop, so the
    first entry that raises is the last one looked at. *)
Fixpoint processed (env : Env) (self : CodebaseParser) (items : list Item)
    : list Item * option ScanError :=
  match items with
  | [] => ([], rglob_error env (root_path self))
  | item :: rest =>
      match stat_raises env self item with
      | Some e => ([], Some e)
      | None =>
          let (done, e) := processed env self rest in (item :: done, e)
      end
  end.

(** The entries that a scan of the root goes through. *)
Definition scanned (env : Env) (self : CodebaseParser) : list Item :=
  fst (processed env self (rglob env (root_path self))).

(** [scan_directory] with its diagnostics: the structure built from the
    entries gone through before the exception, if any, and the exception
    printed. *)
Definition scan_directory_io (env : Env) (self : CodebaseParser) (w : World)
    : Structure * World :=
  let (items, e) := processed env self (rglob env (root_path self)) in
  (scan_directory self items,
   match e with
   | None => w
   | Some (PermissionError e) =>
       print ("Permission denied accessing: " +++ e) w
   | Some (ScanException e) => print ("Error scanning directory: " +++ e) w
   end).

(** [bool(structure)]. *)
Definition nonempty {V : Type} (d : dict V) : bool :=
  match d with [] => false | _ => true end.

(** The two lines every [parse_and_output] starts with. *)
Definition print_banner (self : CodebaseParser) (w : World) : World :=
  print ("Output file: " +++ output_file self)
    (print ("Parsing codebase in: " +++ str_abs (root_path self)) w).

Definition print_found (stats : ProjectStats) (w : World) : World :=
  print ("Found " +++ Str.of_int (total_files stats) +++ " code files in "
         +++ Str.of_int (total_directories stats) +++ " directories") w.

(** The [try] block from the moment the output file is open.  When a write
    or the closing of the file raises, the file is left as the exception
    found it, and the handler prints the message and returns [False].
    Otherwise the file holds the summary, a blank line and the detailed
    output; [os.path.getsize] can still raise, into the same handler. *)
Definition write_report (env : Env) (self : CodebaseParser)
    (summary detail : string) (w : World) : bool * World :=
  match write_fault env (output_file self) with
  | Some fault =>
      let w := write_file (output_file self) (fault_left fault) w in
      (false, print ("Error writing output file: " +++ fault_message fault) w)
  | None =>
      let text := summary +++ Str.nl +++ Str.nl +++ detail in
      let w := write_file (output_file self) text w in
      let w := print ("Successfully generated: " +++ output_file self) w in
      match getsize_error env (output_file self) with
      | Some e => (false, print ("Error writing output file: " +++ e) w)
      | None =>
          (true,
           print ("File size: " +++ Str.of_int (Str.utf8_length text)
                  +++ " bytes") w)
      end
  end.

(** [CodebaseParser.parse_and_output]. *)
Definition parse_and_output (env : Env) (self : CodebaseParser) (w : World)
    : bool * World :=
  let w := print_banner self w in
  if negb (path_exists env (root_path self)) then
    (false,
     print ("Error: Directory " +++ str_abs (root_path self)
            +++ " does not exist") w)
  else
    let w := print "Scanning directory structure..." w in
    let (structure, w) := scan_directory_io env self w in
    if negb (nonempty structure) then
      (false, print "No code files found in the specified directory" w)
    else
      let stats := get_project_stats env self structure in
      let w := print_found stats w in
      let w := print "Generating formatted output..." w in
      match open_write env (output_file self) with
      | Some e => (false, print ("Error writing output file: " +++ e) w)
      | None =>
          write_report env self (generate_summary self structure stats)
            (generate_code_output (during_write env) self structure) w
      end.

(** [sum(len(files) for files in structure.values())]. *)
Definition count_files (structure : Structure) : Z :=
  fold_left (fun n entry => (n + Z.of_nat (List.length (snd entry)))%Z)
    structure 0%Z.

(** [preview_structure]. *)
Definition preview_structure (env : Env) (self : CodebaseParser) (w : World)
    : World :=
  let w :=
    print ("Previewing structure for: " +++ str_abs (root_path self)
           +++ Str.nl) w in
  let (structure, w) := scan_directory_io env self w in
  if negb (nonempty structure) then print "No code files found" w
  else
    let w := print (format_directory_structure self structure) w in
    print (Str.nl +++ "Found " +++ Str.of_int (count_files structure)
           +++ " code files") w.

(* ================================================================== *)
(** ** Regular expressions, as far as the pattern tables use them *)
(* ================================================================== *)

Module Re.

(** A set of characters: [\s], [\w], a range [[lo-hi]], or [.] (any
    character but the line feed). *)
Inductive cclass : Type :=
| Space
| Word
| Range (lo hi : ascii)
| Dot.

Definition in_class (k : cclass) (a : ascii) : bool :=
  match k with
  | Space => Str.isspace a
  | Word => Str.isword a
  | Range lo hi => Str.in_range (nat_of_ascii lo) (nat_of_ascii hi) a
  | Dot => negb (Str.is_lf a)
  end.

Inductive regex : Type :=
| Void                      (* matches nothing *)
| Eps                       (* the empty string; also [^] under [match] *)
| Lit (c : ascii)
| Class (k : cclass)
| Seq (r s : regex)
| Alt (r s : regex)         (* [r|s] *)
| Star (r : regex).         (* [r*] *)

Definition plus (r : regex) : regex := Seq r (Star r).     (* [r+] *)
Definition opt (r : regex) : regex := Alt r Eps.           (* [r?] *)

(** The characters of [s] one after the other. *)
Fixpoint word (s : string) : regex :=
  match s with
  | EmptyString => Eps
  | String a r => Seq (Lit a) (word r)
  end.

Definition seqs (rs : list regex) : regex := fold_right Seq Eps rs.

(** [r] matches the empty string. *)
Fixpoint nullable (r : regex) : bool :=
  match r with
  | Void => false
  | Eps => true
  | Lit _ => false
  | Class _ => false
  | Seq r s => nullable r && nullable s
  | Alt r s => nullable r || nullable s
  | Star _ => true
  end.

(** [Seq] and [Alt] that drop a [Void] or [Eps] operand. *)
Definition seq' (r s : regex) : regex :=
  match r, s with
  | Void, _ => Void
  | _, Void => Void
  | Eps, _ => s
  | _, _ => Seq r s
  end.

Definition alt' (r s : regex) : regex :=
  match r, s with
  | Void, _ => s
  | _, Void => r
  | _, _ => Alt r s
  end.

(** The derivative: what is left of [r] to match once [a] is read. *)
Fixpoint deriv (a : ascii) (r : regex) : regex :=
  match r with
  | Void => Void
  | Eps => Void
  | Lit c => if Ascii.eqb a c then Eps else Void
  | Class k => if in_class k a then Eps else Void
  | Seq r s =>
      alt' (seq' (deriv a r) s) (if nullable r then deriv a s else Void)
  | Alt r s => alt' (deriv a r) (deriv a s)
  | Star r => seq' (deriv a r) (Star r)
  end.

(** [re.compile(pattern).match(line) is not None]: some prefix of [line]
    is matched by [r]. *)
Fixpoint matches (r : regex) (line : string) : bool :=
  nullable r
  || match line with
     | EmptyString => false
     | String a rest => matches (deriv a r) rest
     end.

(** [any(regex.match(line) for regex in regexes)]. *)
Definition any_match (regexes : list regex) (line : string) : bool :=
  existsb (fun r => matches r line) regexes.

End Re.
Import Re.

(* ================================================================== *)
(** ** class AdvancedCodebaseParser *)
(* ================================================================== *)

(** The dictionary that [analyze_file_complexity] fills. *)
Record FileStats : Type := mkFileStats {
  lines_total : Z;
  lines_code : Z;
  lines_comment : Z;
  lines_blank : Z;
  functions : Z;
  classes : Z
}.

Definition ws : regex := Class Space.
Definition wd : regex := Class Word.
Definition dquote : ascii := ascii_of_nat 34.

(** The patterns, each under the text it has in the source. *)

(* ^\s*#   ^\s*QQQ   ^\s*'''        (Q: the double quote) *)
Definition py_comments : list regex :=
  [seqs [Star ws; Lit "#"];
   seqs [Star ws; Lit dquote; Lit dquote; Lit dquote];
   seqs [Star ws; word "'''"]].

(* ^\s*//   ^\s*/\*   ^\s*\* *)
Definition c_comments : list regex :=
  [seqs [Star ws; word "//"];
   seqs [Star ws; word "/*"];
   seqs [Star ws; Lit "*"]].

Definition comment_patterns : dict (list regex) :=
  [(".py", py_comments); (".js", c_comments); (".ts", c_comments);
   (".java", c_comments); (".cpp", c_comments); (".c", c_comments)].

(* ^\s*function\s+\w+ *)
Definition re_function : regex :=
  seqs [Star ws; word "function"; plus ws; plus wd].
(* ^\s*const\s+\w+\s*=.*=> *)
Definition re_arrow : regex :=
  seqs [Star ws; word "const"; plus ws; plus wd; Star ws; Lit "=";
        Star (Class Dot); word "=>"].
(* ^\s*\w+\s+\w+\s*\( *)
Definition re_c_function : regex :=
  seqs [Star ws; plus wd; plus ws; plus wd; Star ws; Lit "("].

Definition function_patterns : dict (list regex) :=
  [(".py",
    (* ^\s*def\s+\w+   ^\s*async\s+def\s+\w+ *)
    [seqs [Star ws; word "def"; plus ws; plus wd];
     seqs [Star ws; word "async"; plus ws; word "def"; plus ws; plus wd]]);
   (".js",
    (* ...   ...   ^\s*\w+\s*:\s*function *)
    [re_function; re_arrow;
     seqs [Star ws; plus wd; Star ws; Lit ":"; Star ws; word "function"]]);
   (".ts",
    (* ...   ...   ^\s*\w+\s*\(.*\)\s*:\s*\w+\s*{ *)
    [re_function; re_arrow;
     seqs [Star ws; plus wd; Star ws; Lit "("; Star (Class Dot); Lit ")";
           Star ws; Lit ":"; Star ws; plus wd; Star ws; Lit "{"]]);
   (".java",
    (* ^\s*(public|private|protected)?\s*(static)?\s*\w+\s+\w+\s*\( *)
    [seqs [Star ws;
           opt (Alt (word "public") (Alt (word "private") (word "protected")));
           Star ws; opt (word "static"); Star ws;
           plus wd; plus ws; plus wd; Star ws; Lit "("]]);
   (".cpp",
    (* ...   ^\s*(public|private|protected):\s*\w+ *)
    [re_c_function;
     seqs [Star ws;
           Alt (word "public") (Alt (word "private") (word "protected"));
           Lit ":"; Star ws; plus wd]]);
   (".c", [re_c_function])].

(* ^\s*class\s+\w+ *)
Definition re_class : regex :=
  seqs [Star ws; word "class"; plus ws; plus wd].
(* ^\s*interface\s+\w+ *)
Definition re_interface : regex :=
  seqs [Star ws; word "interface"; plus ws; plus wd].
(* ^\s*struct\s+\w+ *)
Definition re_struct : regex :=
  seqs [Star ws; word "struct"; plus ws; plus wd].

Definition class_patterns : dict (list regex) :=
  [(".py", [re_class]);
   (".js",
    (* ...   ^\s*function\s+[A-Z]\w+ *)
    [re_class;
     seqs [Star ws; word "function"; plus ws; Class (Range "A" "Z"); plus wd]]);
   (".ts",
    (* ...   ...   ^\s*type\s+\w+ *)
    [re_class; re_interface; seqs [Star ws; word "type"; plus ws; plus wd]]);
   (".java",
    (* ^\s*(public|private)?\s*class\s+\w+   ... *)
    [seqs [Star ws; opt (Alt (word "public") (word "private")); Star ws;
           word "class"; plus ws; plus wd];
     re_interface]);
   (".cpp", [re_class; re_struct]);
   (".c",
    (* ...   ^\s*typedef\s+struct *)
    [re_struct; seqs [Star ws; word "typedef"; plus ws; word "struct"]])].

(** [stats[field] += 1], field by field. *)
Definition incr_blank (st : FileStats) : FileStats :=
  {| lines_total := lines_total st; lines_code := lines_code st;
     lines_comment := lines_comment st; lines_blank := lines_blank st + 1;
     functions := functions st; classes := classes st |}.
Definition incr_comment (st : FileStats) : FileStats :=
  {| lines_total := lines_total st; lines_code := lines_code st;
     lines_comment := lines_comment st + 1; lines_blank := lines_blank st;
     functions := functions st; classes := classes st |}.
Definition incr_code (st : FileStats) : FileStats :=
  {| lines_total := lines_total st; lines_code := lines_code st + 1;
     lines_comment := lines_comment st; lines_blank := lines_blank st;
     functions := functions st; classes := classes st |}.
Definition incr_functions (st : FileStats) : FileStats :=
  {| lines_total := lines_total st; lines_code := lines_code st;
     lines_comment := lines_comment st; lines_blank := lines_blank st;
     functions := functions st + 1; classes := classes st |}.
Definition incr_classes (st : FileStats) : FileStats :=
  {| lines_total := lines_total st; lines_code := lines_code st;
     lines_comment := lines_comment st; lines_blank := lines_blank st;
     functions := functions st; classes := classes st + 1 |}.

(** The three lists of compiled patterns for an extension;
    [patterns.get(ext, [])]. *)
Definition comment_regexes (ext : string) : list regex :=
  dict_get_default comment_patterns ext [].
Definition function_regexes (ext : string) : list regex :=
  dict_get_default function_patterns ext [].
Definition class_regexes (ext : string) : list regex :=
  dict_get_default class_patterns ext [].

(** One round of the loop of [analyze_file_complexity]. *)
Definition analyze_line (ext : string) (stats : FileStats) (line : string)
    : FileStats :=
  let line_stripped := Str.strip line in
  if negb (truthy line_stripped) then incr_blank stats
  else if any_match (comment_regexes ext) line then incr_comment stats
  else
    let stats := incr_code stats in
    let stats :=
      if any_match (function_regexes ext) line then incr_functions stats
      else stats in
    if any_match (class_regexes ext) line then incr_classes stats
    else stats.

(** [analyze_file_complexity]; [None] is the empty dictionary returned for
    an empty content. *)
Definition analyze_file_complexity (content : string) (file_path : Path)
    : option FileStats :=
  if negb (truthy content) then None
  else
    let lines := Str.splitlines content in
    let stats :=
      {| lines_total := Z.of_nat (List.length lines);
         lines_code := 0; lines_comment := 0; lines_blank := 0;
         functions := 0; classes := 0 |} in
    let ext := Str.lower (suffix file_path) in
    Some (fold_left (analyze_line ext) lines stats).

(** [str(rel_path)] to the analysis of the file, in insertion order. *)
Definition FileStatsTable : Type := dict (option FileStats).

(** An [AdvancedCodebaseParser]: the attributes of the base class and
    [file_stats]. *)
Record AdvancedCodebaseParser : Type := mkAdvanced {
  base : CodebaseParser;
  file_stats : FileStatsTable
}.

(** [AdvancedCodebaseParser.__init__]. *)
Definition advanced_init (env : Env) (root output : string)
    : AdvancedCodebaseParser :=
  {| base := init env root output; file_stats := [] |}.

(** The [Lines:], [Functions:] and [Classes:] lines of a file. *)
Definition stats_lines (st : FileStats) : list string :=
  ["Lines: " +++ Str.of_int (lines_total st)
   +++ " (Code: " +++ Str.of_int (lines_code st)
   +++ ", Comments: " +++ Str.of_int (lines_comment st)
   +++ ", Blank: " +++ Str.of_int (lines_blank st) +++ ")"]
  ++ (if (functions st >? 0)%Z
      then ["Functions: " +++ Str.of_int (functions st)] else [])
  ++ (if (classes st >? 0)%Z
      then ["Classes: " +++ Str.of_int (classes st)] else []).

(** One round of the inner loop of [generate_enhanced_output]: the lines
    appended and the new [self.file_stats]. *)
Definition enhanced_section (env : Env) (self : CodebaseParser)
    (table : FileStatsTable) (file_path : Path)
    : list string * FileStatsTable :=
  let file_name := stem (abs_path self file_path) in
  let language :=
    get_language_from_extension (suffix (abs_path self file_path)) in
  let content := read_file_content env (abs_path self file_path) in
  let header :=
    [generate_separator file_name;
     "File: " +++ str_rel file_path;
     "Language: " +++ language] in
  let analysis := analyze_file_complexity content (abs_path self file_path) in
  let table' :=
    if truthy content then dict_set table (str_rel file_path) analysis
    else table in
  let lines :=
    if truthy content
    then match analysis with
         | Some st => stats_lines st
         | None => []
         end
    else [] in
  (header ++ lines
   ++ [Str.repeat_str "-" 100;
       if truthy content then content else "// Unable to read file content";
       rule_block],
   table').

(** The loops of [generate_enhanced_output], threading [result] and
    [self.file_stats]. *)
Definition enhanced_output_lines (env : Env) (self : AdvancedCodebaseParser)
    (structure : Structure) : list string * FileStatsTable :=
  fold_left
    (fun state directory =>
       let result :=
         fst state
         ++ [generate_separator (Str.upper (upper_beyond env) directory);
             ""] in
       fold_left
         (fun state file_path =>
            let (lines, table) :=
              enhanced_section env (base self) (snd state) file_path in
            (fst state ++ lines, table))
         (sorted_files (base self) structure directory)
         (result, snd state))
    (sorted_dirs structure)
    ([format_directory_structure (base self) structure; rule_block],
     file_stats self).

(** [generate_enhanced_output]: the text and the parser it leaves. *)
Definition generate_enhanced_output (env : Env)
    (self : AdvancedCodebaseParser) (structure : Structure)
    : string * AdvancedCodebaseParser :=
  let (result, table) := enhanced_output_lines env self structure in
  (Str.join Str.nl result, {| base := base self; file_stats := table |}).

(** [sum(stats.get(field, 0) for stats in self.file_stats.values())]. *)
Definition sum_field (field : FileStats -> Z) (table : FileStatsTable) : Z :=
  fold_left
    (fun n entry =>
       match snd entry with
       | Some st => (n + field st)%Z
       | None => n
       end)
    table 0%Z.

(** Whether [generate_enhanced_output] had run when the [try] block was
    left through its handler: it runs after the first two writes. *)
Definition detail_generated (env : Env) (file : string) : bool :=
  match write_fault env file with
  | Some fault =>
      match fault_point fault with
      | AtSummary | AtSeparator => false
      | AtDetail | AtClose => true
      end
  | None => true
  end.

(** [AdvancedCodebaseParser.parse_and_output]: the result, the parser it
    leaves and the world. *)
Definition advanced_parse_and_output (env : Env)
    (self : AdvancedCodebaseParser) (w : World)
    : bool * AdvancedCodebaseParser * World :=
  let w := print_banner (base self) w in
  if negb (path_exists env (root_path (base self))) then
    (false, self,
     print ("Error: Directory " +++ str_abs (root_path (base self))
            +++ " does not exist") w)
  else
    let w := print "Scanning directory structure..." w in
    let (structure, w) := scan_directory_io env (base self) w in
    if negb (nonempty structure) then
      (false, self,
       print "No code files found in the specified directory" w)
    else
      let stats := get_project_stats env (base self) structure in
      let w := print_found stats w in
      let w := print "Analyzing code and generating output..." w in
      match open_write env (output_file (base self)) with
      | Some e =>
          (false, self, print ("Error writing output file: " +++ e) w)
      | None =>
          let (detail, analyzed) :=
            generate_enhanced_output (during_write env) self structure in
          let (written_out, w) :=
            write_report env (base self)
              (generate_summary (base self) structure stats) detail w in
          if written_out then
            let w :=
              if nonempty (file_stats analyzed) then
                print ("Code Analysis: "
                       +++ Str.of_int
                             (sum_field functions (file_stats analyzed))
                       +++ " functions, "
                       +++ Str.of_int (sum_field classes (file_stats analyzed))
                       +++ " classes found") w
              else w in
            (true, analyzed, w)
          else
            (false,
             if detail_generated env (output_file (base self)) then analyzed
             else self,
             w)
      end.

(* ================================================================== *)
(** ** The command line *)
(* ================================================================== *)

Definition hex_digit (n : nat) : ascii :=
  if (n <? 10)%nat then ascii_of_nat (48 + n) else ascii_of_nat (87 + n).

(** One character of [repr(s)] for the quote in use. *)
Definition repr_char (quote a : ascii) : string :=
  let n := nat_of_ascii a in
  if Ascii.eqb a quote || Ascii.eqb a "\" then String "\" (String a "")
  else if (n =? 9)%nat then "\t"
  else if (n =? 10)%nat then "\n"
  else if (n =? 13)%nat then "\r"
  else if (n <? 32)%nat || (n =? 127)%nat || Str.in_range 128 160 a
          || (n =? 173)%nat
       then String "\" (String "x"
              (String (hex_digit (n / 16)) (String (hex_digit (n mod 16)) "")))
       else String a "".

Fixpoint repr_chars (quote : ascii) (s : string) : string :=
  match s with
  | EmptyString => ""
  | String a r => repr_char quote a +++ repr_chars quote r
  end.

(** [repr(s)]: single quotes, unless [s] holds a single quote and no
    double quote. *)
Definition repr (s : string) : string :=
  let quote :=
    if Str.contains_char "'" s && negb (Str.contains_char dquote s)
    then dquote else "'"%char in
  String quote (repr_chars quote s) +++ String quote "".

(** [repr] of a list of strings, as an f-string prints it. *)
Definition repr_list (l : list string) : string :=
  "[" +++ Str.join ", " (map repr l) +++ "]".

(** [codebase_parser.code_extensions.add(ext)]. *)
Definition add_extension (self : CodebaseParser) (ext : string)
    : CodebaseParser :=
  {| root_path := root_path self;
     output_file := output_file self;
     code_extensions :=
       if mem ext (code_extensions self) then code_extensions self
       else code_extensions self ++ [ext];
     ignore_dirs := ignore_dirs self;
     ignore_files := ignore_files self |}.

(** The [if args.extensions:] block of [main]. *)
Definition add_custom_extensions (self : CodebaseParser)
    (extensions : option string) (w : World) : CodebaseParser * World :=
  match extensions with
  | None => (self, w)
  | Some text =>
      if negb (truthy text) then (self, w)
      else
        let custom_exts := map Str.strip (Str.split_char "," text) in
        let self :=
          fold_left
            (fun self ext =>
               let ext := if negb (Str.startswith ext ".") then "." +++ ext
                          else ext in
               add_extension self (Str.lower ext))
            custom_exts self in
        (self, print ("Added custom extensions: " +++ repr_list custom_exts) w)
  end.

(** [main]: the exit status and the world it leaves.  What argparse itself
    prints is not recorded. *)
Definition main (env : Env) (argv : list string) (w : World) : Z * World :=
  match parse_args env (tl argv) with
  | ArgparseExit status => (status, w)
  | Parsed args =>
      let codebase_parser := init env (arg_path args) (arg_output args) in
      let (codebase_parser, w) :=
        add_custom_extensions codebase_parser (arg_extensions args) w in
      if arg_preview args then
        (0%Z, preview_structure env codebase_parser w)
      else
        let (success, w) := parse_and_output env codebase_parser w in
        if negb success then (1%Z, w) else (0%Z, w)
  end.

(** The text printed by [create_example_usage]. *)
Definition examples : string :=
  Str.join Str.nl
    [""; "USAGE EXAMPLES:"; "";
     "1. Parse current directory:";
     "   python codebase_parser.py"; "";
     "2. Parse specific directory:";
     "   python codebase_parser.py /path/to/project"; "";
     "3. Preview structure only:";
     "   python codebase_parser.py --preview"; "";
     "4. Custom output file:";
     "   python codebase_parser.py -o my_code_analysis.txt"; "";
     "5. Add custom file extensions:";
     "   python codebase_parser.py --extensions "
       +++ String dquote ("vue,svelte,elm" +++ String dquote ""); "";
     "6. Parse and analyze with enhanced features:";
     "   python codebase_parser.py --enhanced"; "";
     "The script will create a code.txt file with:";
     "- Project structure overview";
     "- Detailed code content for each file";
     "- Code analysis metrics (lines, functions, classes)";
     "- Language breakdown"; ""].

(** [sys.argv.remove(x)]: the first occurrence goes. *)
Fixpoint list_remove (x : string) (l : list string) : list string :=
  match l with
  | [] => []
  | y :: r => if String.eqb y x then r else y :: list_remove x r
  end.

(** The [if __name__ == "__main__":] block: the exit status of the process
    and the world it leaves, for the given [sys.argv]. *)
Definition script (env : Env) (argv : list string) (w : World) : Z * World :=
  if (1 <? List.length argv)%nat
     && mem (nth 1 argv "") ["--help"; "-h"; "help"]
  then (0%Z, print examples w)
  else if mem "--enhanced" argv then
    let argv := list_remove "--enhanced" argv in
    let parser :=
      if (1 <? List.length argv)%nat
      then advanced_init env (nth 1 argv "") "code.txt"
      else advanced_init env "." "code.txt" in
    let '(_, _, w) := advanced_parse_and_output env parser w in
    (0%Z, w)
  else main env argv w.

(* ================================================================== *)
(** * Notions used in the statements *)
(* ================================================================== *)

(** ** What a pattern denotes *)

(** [lang r u]: the pattern [r] matches the string [u] from its first to
    its last character. *)
Inductive lang : regex -> string -> Prop :=
| lang_eps : lang Eps ""
| lang_lit (c : ascii) : lang (Lit c) (String c "")
| lang_class (k : cclass) (a : ascii) :
    in_class k a = true -> lang (Class k) (String a "")
| lang_seq (r s : regex) (u v : string) :
    lang r u -> lang s v -> lang (Seq r s) (u +++ v)
| lang_alt_l (r s : regex) (u : string) : lang r u -> lang (Alt r s) u
| lang_alt_r (r s : regex) (u : string) : lang s u -> lang (Alt r s) u
| lang_star_nil (r : regex) : lang (Star r) ""
| lang_star_cons (r : regex) (u v : string) :
    lang r u -> lang (Star r) v -> lang (Star r) (u +++ v).

(** ** The order of [sorted] *)

(** The order that [sorted(..., key=key)] establishes. *)
Definition key_le {A : Type} (key : A -> string) (x y : A) : Prop :=
  Str.le (key x) (key y).

(** ** The scan *)

(** The entries that the loop of [scan_directory] files. *)
Definition kept (self : CodebaseParser) (item : Item) : bool :=
  negb (should_ignore_path self (abs_path self (rel item)) (kind item))
  && is_file (kind item)
  && is_code_file self (abs_path self (rel item)).

(** The entries that it files under [key]. *)
Definition kept_under (self : CodebaseParser) (key : string) (item : Item)
    : bool :=
  kept self item && String.eqb (parent_dir (rel item)) key.

(** A structure as the scan builds it: no key twice, no empty list. *)
Definition well_grouped (s : Structure) : Prop :=
  NoDup (dict_keys s)
  /\ forall k, In k (dict_keys s) <-> files_of s k <> [].

(** The files of a structure, key after key. *)
Definition all_files (s : Structure) : list Path := flat_map snd s.

(** A component of a path holds no separator and is not ["."]; [pathlib]
    never builds any other. *)
Definition component_ok (c : string) : Prop :=
  c <> "." /\ Str.contains_char "/" c = false.

(** An entry of the enumeration lies below the root: its relative path has
    a component. *)
Definition entry_ok (r : Path) : Prop := r <> [] /\ Forall component_ok r.

(** The [try] block that writes the report is left without an exception. *)
Definition writes_ok (env : Env) (file : string) : bool :=
  match open_write env file, write_fault env file, getsize_error env file with
  | None, None, None => true
  | _, _, _ => false
  end.

(** The environment [env] with another enumeration of the tree. *)
Definition with_rglob (env : Env) (items : list Item) : Env :=
  {| resolve := resolve env;
     path_exists := path_exists env;
     rglob := fun _ => items;
     rglob_error := rglob_error env;
     stat_error := stat_error env;
     open_read := open_read env;
     open_read_during_write := open_read_during_write env;
     open_write := open_write env;
     write_fault := write_fault env;
     getsize_error := getsize_error env;
     upper_beyond := upper_beyond env;
     parse_args := parse_args env |}.

(** ** The listings *)

(** The lines of the tree for one directory key: the directory, then its
    files. *)
Definition tree_block (self : CodebaseParser) (structure : Structure)
    (directory : string) : list string :=
  directory_lines directory
  ++ map (file_line self) (sorted_files self structure directory).

(** The key that the scan gives to a file directly under the root: the
    parent of its relative path is [Path('.')], whose name is empty. *)
Definition root_key : string := parent_dir ["main.py"].

(** The first sentence of C1 as the specification has it: in the order in
    which the tree and the directory table list them, the keys ascend and
    the key of the root, when there is one, comes first. *)
Definition root_listed_first (structure : Structure) : Prop :=
  StronglySorted Str.le (sorted_dirs structure)
  /\ (In root_key (dict_keys structure) ->
      hd_error (sorted_dirs structure) = Some root_key).

(** ** The statistics of the project *)

(** What a file adds to [total_lines]. *)
Definition line_count (env : Env) (self : CodebaseParser) (f : Path) : Z :=
  let content := read_file_content env (abs_path self f) in
  if truthy content then Z.of_nat (List.length (Str.splitlines content))
  else 0%Z.

(** The language that a file counts for. *)
Definition language_of (self : CodebaseParser) (f : Path) : string :=
  get_language_from_extension (suffix (abs_path self f)).

(** [languages[language] = languages.get(language, 0) + 1]. *)
Definition bump (d : dict Z) (language : string) : dict Z :=
  dict_set d language (dict_get_default d language 0 + 1)%Z.

Definition Zsum (l : list Z) : Z := fold_right Z.add 0%Z l.

(** How many times [k] occurs in [l]. *)
Fixpoint occurrences (k : string) (l : list string) : Z :=
  match l with
  | [] => 0
  | x :: r => ((if String.eqb k x then 1 else 0) + occurrences k r)%Z
  end.

(** ** The classes of a line *)

(** The three classes of a line, as the specification words them. *)
Inductive LineClass : Type := Blank | Comment | Code.

Definition LineClass_eqb (a b : LineClass) : bool :=
  match a, b with
  | Blank, Blank | Comment, Comment | Code, Code => true
  | _, _ => false
  end.

(** The class of a line, in the order of priority of the specification:
    blank when nothing is left after trimming, else comment when a comment
    pattern of the extension matches at the start of the line, else code. *)
Definition classify (ext line : string) : LineClass :=
  if String.eqb (Str.strip line) "" then Blank
  else if any_match (comment_regexes ext) line then Comment
  else Code.

Definition in_class_of (ext : string) (c : LineClass) (line : string) : bool :=
  LineClass_eqb (classify ext line) c.

(** How many of the [lines] satisfy [p]. *)
Definition count (p : string -> bool) (lines : list string) : Z :=
  Z.of_nat (List.length (filter p lines)).

(** An extension for which none of the three tables has an entry. *)
Definition unregistered (ext : string) : Prop :=
  dict_get comment_patterns ext = None
  /\ dict_get function_patterns ext = None
  /\ dict_get class_patterns ext = None.

(** ** The outcome of a read *)

(** The decoded content of the file is the empty string. *)
Definition reads_empty (env : Env) (p : Path) : Prop :=
  open_read env UTF8 p = Text ""
  \/ ((exists e0, open_read env UTF8 p = UnicodeDecodeError e0)
      /\ open_read env Latin1 p = Text "").

(** Reading the file fails with the error [e]. *)
Definition read_fails (env : Env) (p : Path) (e : string) : Prop :=
  open_read env UTF8 p = OtherError e
  \/ ((exists e0, open_read env UTF8 p = UnicodeDecodeError e0)
      /\ (open_read env Latin1 p = OtherError e
          \/ open_read env Latin1 p = UnicodeDecodeError e)).

(** ** Example trees and environments *)

(** A parser as [__init__] builds it, for a root that is already resolved. *)
Definition parser_at (root : Path) (output : string) : CodebaseParser :=
  {| root_path := root;
     output_file := output;
     code_extensions := default_code_extensions;
     ignore_dirs := default_ignore_dirs;
     ignore_files := default_ignore_files |}.

Definition file (r : Path) : Item := {| rel := r; kind := File |}.
Definition directory (r : Path) : Item := {| rel := r; kind := Dir |}.

Definition empty_world : World :=
  {| stdout := []; written := fun _ => None |}.

(** The tree of the scenario of the specification, with a [node_modules]
    directory and a log file beside it. *)
Definition demo_items : list Item :=
  [file ["root.py"]; directory ["sub"]; file ["sub"; "b.js"];
   directory ["node_modules"]; file ["node_modules"; "dep.js"];
   file ["debug.log"]; file ["notes.txt"]].

Definition demo_parser : CodebaseParser :=
  parser_at ["home"; "proj"] "code.txt".

(** The scenario of the specification: [root.py] with five lines and an
    empty [sub/b.js]. *)
Definition demo_read (encoding : Encoding) (p : Path) : ReadResult :=
  if String.eqb (name p) "root.py"
  then Text (Str.join Str.nl
               ["# hi"; "def f():"; "    x = 1"; ""; "    return x"; ""])
  else Text "".

Definition demo_env : Env :=
  {| resolve := fun _ => ["home"; "proj"];
     path_exists := fun _ => true;
     rglob := fun _ => demo_items;
     rglob_error := fun _ => None;
     stat_error := fun _ => None;
     open_read := demo_read;
     open_read_during_write := demo_read;
     open_write := fun _ => None;
     write_fault := fun _ => None;
     getsize_error := fun _ => None;
     upper_beyond := fun c => String c "";
     parse_args := fun _ => ArgparseExit 2 |}.

(** The exception of a write to a device that has no space left; nothing
    has reached the file. *)
Definition no_space : WriteFault :=
  {| fault_point := AtClose;
     fault_left := "";
     fault_message := "[Errno 28] No space left on device" |}.

(** The scenario again, started as [main.py] without arguments, with the
    given fate of the writes. *)
Definition demo_cli (fault : option WriteFault) : Env :=
  {| resolve := fun _ => ["home"; "proj"];
     path_exists := fun _ => true;
     rglob := fun _ => demo_items;
     rglob_error := fun _ => None;
     stat_error := fun _ => None;
     open_read := demo_read;
     open_read_during_write := demo_read;
     open_write := fun _ => None;
     write_fault := fun _ => fault;
     getsize_error := fun _ => None;
     upper_beyond := fun c => String c "";
     parse_args := fun _ =>
       Parsed {| arg_path := "."; arg_output := "code.txt";
                 arg_preview := false; arg_extensions := None |} |}.

(** A root with the directories [app] and [vault]; [vault] can be listed
    but not searched, so that [is_dir()] raises for the file in it.  The two
    lists are the two orders in which the file system can enumerate the
    tree: the entries of the root, then those of its directories in the
    same order. *)
Definition vault_last : list Item :=
  [directory ["app"]; directory ["vault"];
   file ["app"; "main.py"]; file ["vault"; "key.py"]].

Definition vault_first : list Item :=
  [directory ["vault"]; directory ["app"];
   file ["vault"; "key.py"]; file ["app"; "main.py"]].

Definition env_vault : Env :=
  {| resolve := fun _ => ["home"; "proj"];
     path_exists := fun _ => true;
     rglob := fun _ => vault_last;
     rglob_error := fun _ => None;
     stat_error := fun p =>
       if String.eqb (name p) "key.py"
       then Some (PermissionError
                    "[Errno 13] Permission denied: '/home/proj/vault/key.py'")
       else None;
     open_read := fun _ _ => Text "x = 1";
     open_read_during_write := fun _ _ => Text "x = 1";
     open_write := fun _ => None;
     write_fault := fun _ => None;
     getsize_error := fun _ => None;
     upper_beyond := fun c => String c "";
     parse_args := fun _ => ArgparseExit 2 |}.

(** A root with [main.py] and a directory [(legacy)]. *)
Definition legacy_items : list Item :=
  [file ["main.py"]; directory ["(legacy)"]; file ["(legacy)"; "old.py"]].

(** A project checked out below a directory named [env]. *)
Definition env_below_ignored : Env :=
  {| resolve := fun _ => ["home"; "env"; "proj"];
     path_exists := fun _ => true;
     rglob := fun _ => [file ["main.py"]; directory ["src"];
                        file ["src"; "app.py"]];
     rglob_error := fun _ => None;
     stat_error := fun _ => None;
     open_read := fun _ _ => Text "x = 1";
     open_read_during_write := fun _ _ => Text "x = 1";
     open_write := fun _ => None;
     write_fault := fun _ => None;
     getsize_error := fun _ => None;
     upper_beyond := fun c => String c "";
     parse_args := fun _ => ArgparseExit 2 |}.

(** A tree with an empty file and a file that cannot be opened. *)
Definition unreadable_read (encoding : Encoding) (p : Path) : ReadResult :=
  if String.eqb (name p) "empty.py" then Text ""
  else OtherError "[Errno 13] Permission denied".

Definition env_unreadable : Env :=
  {| resolve := fun _ => ["home"; "proj"];
     path_exists := fun _ => true;
     rglob := fun _ => [file ["empty.py"]; file ["locked.py"]];
     rglob_error := fun _ => None;
     stat_error := fun _ => None;
     open_read := unreadable_read;
     open_read_during_write := unreadable_read;
     open_write := fun _ => None;
     write_fault := fun _ => None;
     getsize_error := fun _ => None;
     upper_beyond := fun c => String c "";
     parse_args := fun _ => ArgparseExit 2 |}.

(** A machine on which [/srv/missing] does not exist.  [parse_args] is
    what argparse makes of a lone positional argument. *)
Definition env_missing_root : Env :=
  {| resolve := fun _ => ["srv"; "missing"];
     path_exists := fun _ => false;
     rglob := fun _ => [];
     rglob_error := fun _ => None;
     stat_error := fun _ => None;
     open_read := fun _ _ => OtherError "[Errno 2] No such file or directory";
     open_read_during_write :=
       fun _ _ => OtherError "[Errno 2] No such file or directory";
     open_write := fun _ => None;
     write_fault := fun _ => None;
     getsize_error := fun _ => None;
     upper_beyond := fun c => String c "";
     parse_args := fun args =>
       Parsed {| arg_path := nth 0 args "."; arg_output := "code.txt";
                 arg_preview := false; arg_extensions := None |} |}.

(** A JavaScript text of four lines: a constructor function, which is a
    function and a class at once, a comment, a blank line and a statement. *)
Definition demo_js : string :=
  Str.join Str.nl ["function Foo(a) {"; "  // body"; "   "; "}"].

(** A shell script: [#] starts no comment for [.sh], the tables have no
    entry for it. *)
Definition demo_sh : string :=
  Str.join Str.nl ["# build"; ""; "function run() {"; "  make"; "}"].

(** ** Notions for the further properties *)

(** The parser without the entries of [ignore_dirs] that hold a
    separator. *)
Definition without_slash_dirs (self : CodebaseParser) : CodebaseParser :=
  {| root_path := root_path self;
     output_file := output_file self;
     code_extensions := code_extensions self;
     ignore_dirs :=
       filter (fun d => negb (Str.contains_char "/" d)) (ignore_dirs self);
     ignore_files := ignore_files self |}.

(** What [main] makes of one item of [--extensions]: trimmed, with a
    leading dot, in lower case. *)
Definition normalize_extension (piece : string) : string :=
  let ext := Str.strip piece in
  Str.lower (if negb (Str.startswith ext ".") then "." +++ ext else ext).

(** An extension that begins with a dot. *)
Definition dotted (ext : string) : Prop := exists r, ext = String "." r.

(** The files in the order in which the report goes through them: key
    after key in sorted order, and under a key in the order of the names. *)
Definition listed_files (self : CodebaseParser) (s : Structure) : list Path :=
  flat_map (sorted_files self s) (sorted_dirs s).

(** An entry of [file_stats] as an enhanced report records it: the key is
    the text of the relative path of a file whose content is not empty, the
    value the analysis of that content. *)
Definition recorded (env : Env) (self : CodebaseParser) (k : string)
    (v : option FileStats) : Prop :=
  exists f st,
    k = str_rel f /\ v = Some st
    /\ read_file_content env (abs_path self f) <> ""
    /\ analyze_file_complexity (read_file_content env (abs_path self f))
         (abs_path self f) = Some st.

(** The text that a successful run writes: the summary, a blank line and
    the detailed part. *)
Definition report_text (summary detail : string) : string :=
  summary +++ Str.nl +++ Str.nl +++ detail.

(** Every character of [s] is white space. *)
Fixpoint all_space (s : string) : bool :=
  match s with
  | EmptyString => true
  | String a r => Str.isspace a && all_space r
  end.

(** The line begins, after its leading white space, with [prefix]. *)
Definition begins_with (line prefix : string) : bool :=
  Str.startswith (Str.lstrip line) prefix.

(* ================================================================== *)
(** * Properties *)
(* ================================================================== *)

(** ** The order of strings *)

Section StringOrder.

Lemma compare_refl (s : string) : String.compare s s = Eq.
Proof.
  induction s as [|a s IH]; simpl; [reflexivity|].
  unfold Ascii.compare. now rewrite N.compare_refl.
Qed.

Lemma compare_lt_trans (s t u : string) :
  String.compare s t = Lt -> String.compare t u = Lt ->
  String.compare s u = Lt.
Proof.
  revert t u.
  induction s as [|a s IH]; intros [|b t] [|c u]; simpl; try discriminate;
    try reflexivity.
  unfold Ascii.compare.
  destruct (N.compare_spec (N_of_ascii a) (N_of_ascii b)) as [Hab|Hab|Hab];
    destruct (N.compare_spec (N_of_ascii b) (N_of_ascii c)) as [Hbc|Hbc|Hbc];
    try discriminate; intros H1 H2.
  - rewrite Hab, Hbc, N.compare_refl. eauto.
  - rewrite Hab. apply N.compare_lt_iff in Hbc. now rewrite Hbc.
  - rewrite <- Hbc. apply N.compare_lt_iff in Hab. now rewrite Hab.
  - assert (Hac : (N_of_ascii a < N_of_ascii c)%N) by lia.
    apply N.compare_lt_iff in Hac. now rewrite Hac.
Qed.

Lemma le_refl (s : string) : Str.le s s.
Proof. unfold Str.le, String.leb. now rewrite compare_refl. Qed.

Lemma le_trans (s t u : string) : Str.le s t -> Str.le t u -> Str.le s u.
Proof.
  unfold Str.le, String.leb. intros H1 H2.
  destruct (String.compare s t) eqn:Est; try discriminate;
    destruct (String.compare t u) eqn:Etu; try discriminate.
  - apply String.compare_eq_iff in Est, Etu. subst. now rewrite compare_refl.
  - apply String.compare_eq_iff in Est. subst. now rewrite Etu.
  - apply String.compare_eq_iff in Etu. subst. now rewrite Est.
  - now rewrite (compare_lt_trans s t u).
Qed.

Lemma le_antisym (s t : string) : Str.le s t -> Str.le t s -> s = t.
Proof. apply String.leb_antisym. Qed.

Lemma not_le_le (s t : string) : String.leb s t = false -> Str.le t s.
Proof.
  intros H. destruct (String.leb_total s t) as [H'|H']; [congruence|exact H'].
Qed.

End StringOrder.

(** ** [sorted] *)

Section PySortedFacts.
Context {A : Type}.
Variable key : A -> string.


Lemma insert_sorted_perm (x : A) (l : list A) :
  Permutation (x :: l) (insert_sorted key x l).
Proof.
  induction l as [|y r IH]; simpl; [reflexivity|].
  destruct (String.leb (key x) (key y)); [reflexivity|].
  rewrite perm_swap. now constructor.
Qed.

Lemma py_sorted_perm (l : list A) : Permutation l (py_sorted key l).
Proof.
  induction l as [|x r IH]; simpl; [constructor|].
  rewrite <- insert_sorted_perm. now constructor.
Qed.

Lemma insert_sorted_sorted (x : A) (l : list A) :
  StronglySorted (key_le key) l ->
  StronglySorted (key_le key) (insert_sorted key x l).
Proof.
  induction 1 as [|y r Hr IH Hy]; simpl.
  - repeat constructor.
  - destruct (String.leb (key x) (key y)) eqn:E.
    + constructor; [now constructor|].
      constructor; [exact E|].
      eapply Forall_impl; [|exact Hy].
      intros z Hz. unfold key_le in *. eapply le_trans; eauto.
    + constructor; [exact IH|].
      rewrite <- insert_sorted_perm. constructor; [|exact Hy].
      now apply not_le_le.
Qed.

Lemma py_sorted_sorted (l : list A) :
  StronglySorted (key_le key) (py_sorted key l).
Proof.
  induction l as [|x r IH]; simpl; [constructor|].
  now apply insert_sorted_sorted.
Qed.

Lemma py_sorted_In (x : A) (l : list A) : In x (py_sorted key l) <-> In x l.
Proof.
  split; apply Permutation_in;
    [symmetry|]; apply py_sorted_perm.
Qed.

Lemma py_sorted_length (l : list A) :
  List.length (py_sorted key l) = List.length l.
Proof. symmetry. apply Permutation_length, py_sorted_perm. Qed.

(** Two sorted lists with the same elements are equal, when equal keys
    mean equal elements. *)
Lemma sorted_perm_unique (l1 l2 : list A) :
  (forall x y, In x l1 -> In y l1 -> key x = key y -> x = y) ->
  StronglySorted (key_le key) l1 -> StronglySorted (key_le key) l2 ->
  Permutation l1 l2 -> l1 = l2.
Proof.
  revert l2. induction l1 as [|x r IH]; intros l2 Hinj S1 S2 P.
  - apply Permutation_nil in P. now subst.
  - destruct l2 as [|y r2].
    { symmetry in P. now apply Permutation_nil in P. }
    inversion S1 as [|? ? Sr Hx]; subst.
    inversion S2 as [|? ? Sr2 Hy]; subst.
    assert (Hxy : x = y).
    { assert (Hyin : In y (x :: r))
        by (eapply Permutation_in; [symmetry; exact P|now left]).
      assert (Hxin : In x (y :: r2))
        by (eapply Permutation_in; [exact P|now left]).
      destruct Hyin as [->|Hyin]; [reflexivity|].
      destruct Hxin as [->|Hxin]; [reflexivity|].
      apply Hinj; [now left|now right|].
      apply le_antisym.
      - rewrite Forall_forall in Hx. now apply Hx.
      - rewrite Forall_forall in Hy. now apply Hy. }
    subst y. f_equal.
    apply IH; auto.
    + intros a b Ha Hb. apply Hinj; now right.
    + now apply Permutation_cons_inv in P.
Qed.

(** [sorted] does not depend on the order of its input, when equal keys
    mean equal elements. *)
Lemma py_sorted_perm_eq (l1 l2 : list A) :
  (forall x y, In x l1 -> In y l1 -> key x = key y -> x = y) ->
  Permutation l1 l2 -> py_sorted key l1 = py_sorted key l2.
Proof.
  intros Hinj P.
  apply sorted_perm_unique; try apply py_sorted_sorted.
  - intros x y Hx Hy. apply Hinj; now apply py_sorted_In.
  - rewrite <- (py_sorted_perm l1), <- (py_sorted_perm l2). exact P.
Qed.

End PySortedFacts.

(** ** Lists *)

Section ListFacts.

Lemma In_removelast {A : Type} (x : A) (l : list A) :
  In x (removelast l) -> In x l.
Proof.
  induction l as [|a [|b l] IH]; simpl; [tauto|tauto|].
  intros [H|H]; [now left|right; now apply IH].
Qed.

Lemma filter_perm {A : Type} (p : A -> bool) (l l' : list A) :
  Permutation l l' -> Permutation (filter p l) (filter p l').
Proof.
  induction 1 as [|x l l' P IH|x y l|l l' l'' P IH P' IH']; simpl.
  - constructor.
  - destruct (p x); [now constructor|exact IH].
  - destruct (p x), (p y); try reflexivity. apply perm_swap.
  - now transitivity (filter p l').
Qed.

End ListFacts.

(** ** Dictionaries *)

Section DictFacts.
Context {V : Type}.

Lemma mem_In (x : string) (l : list string) : mem x l = true <-> In x l.
Proof.
  unfold mem. rewrite existsb_exists. split.
  - intros (y & Hy & E). apply String.eqb_eq in E. now subst.
  - intros H. exists x. split; [exact H|apply String.eqb_refl].
Qed.

Lemma mem_false (x : string) (l : list string) : mem x l = false <-> ~ In x l.
Proof.
  rewrite <- mem_In. destruct (mem x l); split; congruence.
Qed.

Lemma dict_get_None (d : dict V) (k : string) :
  dict_get d k = None <-> ~ In k (dict_keys d).
Proof.
  induction d as [|[k' v] r IH]; simpl; [tauto|].
  destruct (String.eqb_spec k k') as [->|N].
  - split; [discriminate|]. intros H. exfalso. apply H. now left.
  - rewrite IH. split; [intros H [E|H']; auto|tauto].
Qed.

Lemma dict_get_In (d : dict V) (k : string) (v : V) :
  dict_get d k = Some v -> In (k, v) d.
Proof.
  induction d as [|[k' v'] r IH]; simpl; [discriminate|].
  destruct (String.eqb_spec k k') as [->|N].
  - intros [= ->]. now left.
  - intros H. right. auto.
Qed.

Lemma In_dict_get (d : dict V) (k : string) (v : V) :
  NoDup (dict_keys d) -> In (k, v) d -> dict_get d k = Some v.
Proof.
  induction d as [|[k' v'] r IH]; simpl; [tauto|].
  intros ND [E|H].
  - injection E as -> ->. now rewrite String.eqb_refl.
  - inversion ND as [|? ? Hnot ND']; subst.
    destruct (String.eqb_spec k k') as [->|N]; [|auto].
    exfalso. apply Hnot. change (In (fst (k', v)) (map fst r)).
    now apply in_map.
Qed.

Lemma dict_get_set (d : dict V) (k k' : string) (v : V) :
  dict_get (dict_set d k v) k' =
  if String.eqb k' k then Some v else dict_get d k'.
Proof.
  induction d as [|[k0 v0] r IH]; simpl.
  - reflexivity.
  - destruct (String.eqb_spec k k0) as [->|N]; simpl.
    + now destruct (String.eqb_spec k' k0).
    + rewrite IH. destruct (String.eqb_spec k' k0) as [->|N'];
        [|reflexivity].
      destruct (String.eqb_spec k0 k); congruence.
Qed.

Lemma dict_keys_set (d : dict V) (k : string) (v : V) :
  dict_keys (dict_set d k v) =
  if mem k (dict_keys d) then dict_keys d else dict_keys d ++ [k].
Proof.
  induction d as [|[k0 v0] r IH]; simpl; [reflexivity|].
  destruct (String.eqb_spec k k0) as [->|N]; simpl; [reflexivity|].
  rewrite IH. now destruct (mem k (dict_keys r)).
Qed.

Lemma dict_keys_set_NoDup (d : dict V) (k : string) (v : V) :
  NoDup (dict_keys d) -> NoDup (dict_keys (dict_set d k v)).
Proof.
  intros ND. rewrite dict_keys_set.
  destruct (mem k (dict_keys d)) eqn:E; [exact ND|].
  apply mem_false in E.
  apply NoDup_rev in ND. rewrite <- (rev_involutive (_ ++ _)).
  apply NoDup_rev. rewrite rev_app_distr. simpl.
  constructor; [now rewrite <- in_rev|exact ND].
Qed.

Lemma dict_keys_set_In (d : dict V) (k k' : string) (v : V) :
  In k' (dict_keys (dict_set d k v)) <-> k' = k \/ In k' (dict_keys d).
Proof.
  rewrite dict_keys_set. destruct (mem k (dict_keys d)) eqn:E.
  - apply mem_In in E. split; [tauto|]. intros [->|H]; assumption.
  - rewrite in_app_iff. simpl. split; [intros [H|[H|[]]]; auto|].
    intros [H|H]; auto.
Qed.

End DictFacts.

(** ** Regular expressions *)

Section RegexFacts.

Lemma append_nil_r (s : string) : s +++ "" = s.
Proof. induction s as [|a s IH]; simpl; congruence. Qed.

Lemma append_eq_nil (u v : string) : u +++ v = "" -> u = "" /\ v = "".
Proof. destruct u; simpl; [auto|discriminate]. Qed.

Lemma lang_seq_inv (r s : regex) (w : string) :
  lang (Seq r s) w -> exists x y, w = x +++ y /\ lang r x /\ lang s y.
Proof. intros H. inversion H; subst. eauto. Qed.

Lemma lang_alt_inv (r s : regex) (w : string) :
  lang (Alt r s) w -> lang r w \/ lang s w.
Proof. intros H. inversion H; subst; auto. Qed.

Lemma nullable_lang (r : regex) : nullable r = true <-> lang r "".
Proof.
  induction r as [| | c | k | r IHr s IHs | r IHr s IHs | r IHr]; simpl.
  - split; [discriminate|]. intros H. inversion H.
  - split; [constructor|reflexivity].
  - split; [discriminate|]. intros H. inversion H.
  - split; [discriminate|]. intros H. inversion H.
  - rewrite andb_true_iff, IHr, IHs. split.
    + intros [H1 H2]. change "" with ("" +++ ""). now constructor.
    + intros H. apply lang_seq_inv in H. destruct H as (x & y & E & Hx & Hy).
      symmetry in E. apply append_eq_nil in E. destruct E; subst. auto.
  - rewrite orb_true_iff, IHr, IHs. split.
    + intros [H|H]; [now apply lang_alt_l|now apply lang_alt_r].
    + apply lang_alt_inv.
  - split; [constructor|reflexivity].
Qed.

Lemma lang_void (u : string) : ~ lang Void u.
Proof. intros H. inversion H. Qed.

Lemma seq'_lang (r s : regex) (u : string) :
  lang (seq' r s) u <-> lang (Seq r s) u.
Proof.
  assert (void_l : forall s u, lang (Seq Void s) u -> False).
  { intros s0 u0 H. inversion H; subst. eapply lang_void; eauto. }
  assert (void_r : forall r u, lang (Seq r Void) u -> False).
  { intros r0 u0 H. inversion H; subst. eapply lang_void; eauto. }
  assert (eps_l : forall s u, lang s u <-> lang (Seq Eps s) u).
  { intros s0 u0. split.
    - intros H. change u0 with ("" +++ u0). constructor; [constructor|exact H].
    - intros H. inversion H as [| | |? ? a b Ha Hb| | | |]; subst.
      inversion Ha; subst. exact Hb. }
  assert (void : forall r', (lang (Seq r' Void) u -> False) ->
                            lang Void u <-> lang (Seq r' Void) u).
  { intros r' F. split; [intros H; inversion H|intros H; now apply F in H]. }
  destruct r; simpl.
  - split; [intros H; inversion H|intros H; now apply void_l in H].
  - destruct s; simpl; apply eps_l.
  - destruct s; simpl; try tauto. apply void, void_r.
  - destruct s; simpl; try tauto. apply void, void_r.
  - destruct s; simpl; try tauto. apply void, void_r.
  - destruct s; simpl; try tauto. apply void, void_r.
  - destruct s; simpl; try tauto. apply void, void_r.
Qed.

Lemma alt'_lang (r s : regex) (u : string) :
  lang (alt' r s) u <-> lang (Alt r s) u.
Proof.
  assert (L : forall r, lang r u <-> lang (Alt Void r) u).
  { intros r0. split; [apply lang_alt_r|].
    intros H. inversion H; subst; [exfalso; eapply lang_void; eauto|auto]. }
  assert (R : forall r, lang r u <-> lang (Alt r Void) u).
  { intros r0. split; [apply lang_alt_l|].
    intros H. inversion H; subst; [auto|exfalso; eapply lang_void; eauto]. }
  destruct r; destruct s; simpl; try tauto; try apply L; try apply R.
Qed.

(** A non-empty match of [r*] starts with a non-empty match of [r]. *)
Lemma star_cons_inv (r : regex) (a : ascii) (u : string) :
  lang (Star r) (String a u) ->
  exists u1 u2, u = u1 +++ u2 /\ lang r (String a u1) /\ lang (Star r) u2.
Proof.
  intros H. remember (Star r) as sr eqn:Er. remember (String a u) as w eqn:Ew.
  revert a u Ew.
  induction H as [| | | | | | |r0 x y Hx _ Hy IHy]; try discriminate.
  injection Er as ->. intros a u Ew.
  destruct x as [|b x].
  - simpl in Ew. now apply IHy.
  - simpl in Ew. injection Ew as -> <-. eauto.
Qed.

Lemma deriv_lang (a : ascii) (r : regex) (u : string) :
  lang (deriv a r) u <-> lang r (String a u).
Proof.
  revert u.
  induction r as [| | c | k | r IHr s IHs | r IHr s IHs | r IHr]; intros u;
    simpl.
  - split; intros H; inversion H.
  - split; intros H; inversion H.
  - destruct (Ascii.eqb_spec a c) as [->|N]; split; intros H.
    + inversion H; subst. constructor.
    + inversion H; subst. constructor.
    + inversion H.
    + inversion H; subst. contradiction.
  - destruct (in_class k a) eqn:E; split; intros H.
    + inversion H; subst. now constructor.
    + inversion H; subst. constructor.
    + inversion H.
    + inversion H; subst. congruence.
  - rewrite alt'_lang. split.
    + intros H. apply lang_alt_inv in H. destruct H as [H|H].
      * apply seq'_lang, lang_seq_inv in H.
        destruct H as (x & y & -> & Hx & Hy).
        change (String a (x +++ y)) with (String a x +++ y).
        constructor; [now apply IHr|exact Hy].
      * destruct (nullable r) eqn:N; [|inversion H].
        change (String a u) with ("" +++ String a u).
        constructor; [now apply nullable_lang|now apply IHs].
    + intros H. apply lang_seq_inv in H. destruct H as (x & y & E & Hx & Hy).
      destruct x as [|b x]; simpl in E.
      * subst y. apply lang_alt_r.
        apply nullable_lang in Hx. rewrite Hx. now apply IHs.
      * injection E as -> ->. apply lang_alt_l. apply seq'_lang.
        constructor; [now apply IHr|exact Hy].
  - rewrite alt'_lang. split.
    + intros H. apply lang_alt_inv in H. destruct H as [H|H];
        [apply lang_alt_l; now apply IHr|apply lang_alt_r; now apply IHs].
    + intros H. apply lang_alt_inv in H. destruct H as [H|H];
        [apply lang_alt_l; now apply IHr|apply lang_alt_r; now apply IHs].
  - rewrite seq'_lang. split.
    + intros H. apply lang_seq_inv in H. destruct H as (x & y & -> & Hx & Hy).
      change (String a (x +++ y)) with (String a x +++ y).
      constructor; [now apply IHr|exact Hy].
    + intros H. apply star_cons_inv in H.
      destruct H as (u1 & u2 & -> & H1 & H2).
      constructor; [now apply IHr|exact H2].
Qed.

(** [matches r line] holds exactly when [r] matches a prefix of [line]. *)
Theorem matches_prefix (r : regex) (line : string) :
  matches r line = true <-> exists u v, line = u +++ v /\ lang r u.
Proof.
  revert r. induction line as [|a rest IH]; intros r; simpl.
  - rewrite orb_false_r, nullable_lang. split.
    + intros H. now exists "", "".
    + intros (u & v & E & H). symmetry in E. apply append_eq_nil in E.
      destruct E; now subst.
  - rewrite orb_true_iff, nullable_lang, IH. split.
    + intros [H|(u & v & -> & H)].
      * now exists "", (String a rest).
      * exists (String a u), v. split; [reflexivity|now apply deriv_lang].
    + intros (u & v & E & H). destruct u as [|b u]; simpl in E.
      * now left.
      * injection E as <- ->. right. exists u, v.
        split; [reflexivity|now apply deriv_lang].
Qed.

End RegexFacts.

(** ** The scan *)

Section ScanFacts.
Variable self : CodebaseParser.



Lemma scan_step_kept (s : Structure) (item : Item) :
  scan_step self s item =
  if kept self item then structure_add s (parent_dir (rel item)) (rel item)
  else s.
Proof.
  unfold scan_step, kept.
  destruct (should_ignore_path _ _ _); simpl; [reflexivity|].
  now destruct (is_file _ && _).
Qed.

Lemma files_of_add (s : Structure) (k k' : string) (v : Path) :
  files_of (structure_add s k v) k' =
  if String.eqb k' k then files_of s k ++ [v] else files_of s k'.
Proof.
  unfold files_of, structure_add, dict_get_default.
  destruct (dict_get s k) eqn:E; rewrite dict_get_set;
    destruct (String.eqb_spec k' k) as [->|N]; try reflexivity.
Qed.

Lemma keys_add_In (s : Structure) (k k' : string) (v : Path) :
  In k' (dict_keys (structure_add s k v)) <-> k' = k \/ In k' (dict_keys s).
Proof.
  unfold structure_add. destruct (dict_get s k); apply dict_keys_set_In.
Qed.

Lemma keys_add_NoDup (s : Structure) (k : string) (v : Path) :
  NoDup (dict_keys s) -> NoDup (dict_keys (structure_add s k v)).
Proof.
  unfold structure_add. destruct (dict_get s k); apply dict_keys_set_NoDup.
Qed.


Lemma well_grouped_nil : well_grouped [].
Proof.
  split; [constructor|]. intros k. simpl. unfold files_of. simpl. tauto.
Qed.

Lemma well_grouped_add (s : Structure) (k : string) (v : Path) :
  well_grouped s -> well_grouped (structure_add s k v).
Proof.
  intros [ND H]. split; [now apply keys_add_NoDup|].
  intros k'. rewrite keys_add_In, files_of_add.
  destruct (String.eqb_spec k' k) as [->|N].
  - split; [intros _|now left]. now destruct (files_of s k).
  - rewrite H. tauto.
Qed.

Lemma well_grouped_fold (items : list Item) (s : Structure) :
  well_grouped s -> well_grouped (fold_left (scan_step self) items s).
Proof.
  revert s. induction items as [|it r IH]; intros s H; simpl; [exact H|].
  apply IH. rewrite scan_step_kept.
  destruct (kept self it); [now apply well_grouped_add|exact H].
Qed.

Lemma scan_well_grouped (items : list Item) :
  well_grouped (scan_directory self items).
Proof. apply well_grouped_fold, well_grouped_nil. Qed.

Lemma files_of_fold (items : list Item) (s : Structure) (k : string) :
  files_of (fold_left (scan_step self) items s) k =
  files_of s k ++ map rel (filter (kept_under self k) items).
Proof.
  revert s. induction items as [|it r IH]; intros s; simpl.
  - now rewrite app_nil_r.
  - rewrite IH, scan_step_kept. unfold kept_under at 2.
    destruct (kept self it); simpl; [|reflexivity].
    rewrite files_of_add, (String.eqb_sym k).
    destruct (String.eqb_spec (parent_dir (rel it)) k) as [->|N]; simpl;
      [now rewrite <- app_assoc|reflexivity].
Qed.

(** The files of a key are the kept entries with that key, in the order
    of the enumeration. *)
Lemma scan_files_of (items : list Item) (k : string) :
  files_of (scan_directory self items) k =
  map rel (filter (kept_under self k) items).
Proof. unfold scan_directory. now rewrite files_of_fold. Qed.

Lemma scan_entry_files (items : list Item) (k : string) (files : list Path) :
  In (k, files) (scan_directory self items) ->
  files = files_of (scan_directory self items) k.
Proof.
  intros H. unfold files_of, dict_get_default.
  rewrite (In_dict_get _ k files); [reflexivity| |exact H].
  apply scan_well_grouped.
Qed.

(** What it takes for a file to be in the scan result. *)
Lemma scan_In (items : list Item) (k : string) (files : list Path)
    (f : Path) :
  In (k, files) (scan_directory self items) -> In f files ->
  exists item, In item items /\ rel item = f /\ kept self item = true
               /\ parent_dir f = k.
Proof.
  intros H Hf. rewrite (scan_entry_files _ _ _ H), scan_files_of in Hf.
  apply in_map_iff in Hf. destruct Hf as (item & <- & Hin).
  apply filter_In in Hin. destruct Hin as [Hin Hk].
  unfold kept_under in Hk. apply andb_true_iff in Hk. destruct Hk as [Hk E].
  apply String.eqb_eq in E. eauto.
Qed.

End ScanFacts.






Example demo_scan :
  scan_directory demo_parser demo_items =
  [(".", [["root.py"]]); ("sub", [["sub"; "b.js"]])].
Proof. reflexivity. Qed.

(** ** The ignore rules *)

Section IgnoreFacts.
Variable self : CodebaseParser.

Lemma parents_In (p : Path) (k : nat) :
  (k < List.length p)%nat -> In (firstn k p) (parents p).
Proof.
  intros H. unfold parents. apply in_map_iff. exists k. split; [reflexivity|].
  apply -> in_rev. apply in_seq. lia.
Qed.

(** Every component but the last is the name of a parent. *)
Lemma ancestor_is_parent (p : Path) (d : string) :
  In d (removelast p) -> exists q, In q (parents p) /\ name q = d.
Proof.
  intros H. apply in_split in H. destruct H as (l1 & l2 & E).
  assert (Hp : p <> []) by (intros ->; now destruct l1).
  rewrite (app_removelast_last "" Hp), E.
  exists (l1 ++ [d]). split.
  - replace (l1 ++ [d]) with
      (firstn (List.length l1 + 1) ((l1 ++ d :: l2) ++ [last p ""])).
    + apply parents_In. rewrite !length_app. simpl. lia.
    + rewrite <- app_assoc, firstn_app_2. reflexivity.
  - unfold name. apply last_last.
Qed.

Lemma ignored_ancestor (p : Path) (k : Kind) (d : string) :
  In d (removelast p) -> mem d (ignore_dirs self) = true ->
  should_ignore_path self p k = true.
Proof.
  intros H M. destruct (ancestor_is_parent p d H) as (q & Hq & <-).
  unfold should_ignore_path.
  replace (existsb _ (parents p)) with true; [reflexivity|].
  symmetry. apply existsb_exists. eauto.
Qed.

Lemma startswith_star (pattern : string) :
  Str.startswith pattern "*" = true -> Str.contains_char "*" pattern = true.
Proof.
  destruct pattern as [|a r]; [discriminate|].
  unfold Str.startswith.
  change (String.prefix "*" (String a r))
    with (if ascii_dec "*"%char a then String.prefix "" r else false).
  destruct (ascii_dec "*"%char a) as [<-|N]; [reflexivity|discriminate].
Qed.

Lemma not_ignored_file (p : Path) :
  should_ignore_path self p File = false ->
  (forall d, In d (removelast p) -> mem d (ignore_dirs self) = false)
  /\ mem (name p) (ignore_files self) = false
  /\ forall pattern, In pattern (ignore_files self) ->
       Str.startswith pattern "*" = true ->
       Str.endswith (name p) (Str.drop_first pattern) = false.
Proof.
  intros H. split; [|split].
  - intros d Hd. destruct (mem d (ignore_dirs self)) eqn:M; [|reflexivity].
    now rewrite (ignored_ancestor p File d Hd M) in H.
  - unfold should_ignore_path in H. simpl in H.
    apply orb_false_iff in H. destruct H as [_ H].
    apply orb_false_iff in H. tauto.
  - intros pattern Hin Hstar.
    unfold should_ignore_path in H. simpl in H.
    apply orb_false_iff in H. destruct H as [_ H].
    apply orb_false_iff in H. destruct H as [_ H].
    destruct (Str.endswith _ _) eqn:E; [|reflexivity].
    assert (X : existsb
                  (fun ignore_pattern =>
                     Str.contains_char "*" ignore_pattern
                     && Str.endswith (name p) (Str.drop_first ignore_pattern))
                  (ignore_files self) = true).
    { apply existsb_exists. exists pattern. split; [exact Hin|].
      now rewrite (startswith_star _ Hstar), E. }
    congruence.
Qed.

Lemma kept_is_file (item : Item) : kept self item = true -> kind item = File.
Proof.
  unfold kept. intros H. apply andb_true_iff in H. destruct H as [H _].
  apply andb_true_iff in H. destruct H as [_ H]. now destruct (kind item).
Qed.

Lemma kept_not_ignored (item : Item) :
  kept self item = true ->
  should_ignore_path self (abs_path self (rel item)) File = false.
Proof.
  intros H. rewrite <- (kept_is_file item H).
  unfold kept in H. apply andb_true_iff in H. destruct H as [H _].
  apply andb_true_iff in H. destruct H as [H _].
  now apply negb_true_iff in H.
Qed.

Lemma scan_nothing_kept (items : list Item) (s : Structure) :
  (forall item, In item items -> kept self item = false) ->
  fold_left (scan_step self) items s = s.
Proof.
  revert s. induction items as [|it r IH]; intros s H; simpl; [reflexivity|].
  rewrite scan_step_kept, (H it (or_introl eq_refl)).
  apply IH. intros item Hi. apply H. now right.
Qed.

End IgnoreFacts.

(** C3.  Whatever the ignore rules and the tree, a file that the scan
    result holds has no ancestor directory whose name is in the ignored
    directories (the ancestors above the scan root included), its name is
    not in the ignored files, and its name does not end with what follows
    the star of an ignored pattern that begins with a star. *)
Theorem C3_ignored_files_never_scanned (self : CodebaseParser)
    (items : list Item) (key : string) (files : list Path) (f : Path) :
  In (key, files) (scan_directory self items) -> In f files ->
  (forall d, In d (removelast (abs_path self f)) ->
             mem d (ignore_dirs self) = false)
  /\ mem (name (abs_path self f)) (ignore_files self) = false
  /\ forall pattern, In pattern (ignore_files self) ->
       Str.startswith pattern "*" = true ->
       Str.endswith (name (abs_path self f)) (Str.drop_first pattern) = false.
Proof.
  intros H Hf.
  destruct (scan_In self items key files f H Hf) as (item & _ & <- & K & _).
  apply not_ignored_file. now apply kept_not_ignored.
Qed.

Lemma C3_witness :
  (forall d, In d (removelast (abs_path demo_parser ["sub"; "b.js"])) ->
             mem d (ignore_dirs demo_parser) = false)
  /\ mem (name (abs_path demo_parser ["sub"; "b.js"]))
       (ignore_files demo_parser) = false
  /\ forall pattern, In pattern (ignore_files demo_parser) ->
       Str.startswith pattern "*" = true ->
       Str.endswith (name (abs_path demo_parser ["sub"; "b.js"]))
         (Str.drop_first pattern) = false.
Proof.
  apply (C3_ignored_files_never_scanned demo_parser demo_items "sub"
           [["sub"; "b.js"]] ["sub"; "b.js"]).
  - vm_compute. right. left. reflexivity.
  - simpl. left. reflexivity.
Defined.

(** The entries of [demo_items] that the rules exclude are not in the
    result; what is left is what [demo_scan] shows. *)
Example demo_ignored :
  map (fun item =>
         should_ignore_path demo_parser (abs_path demo_parser (rel item))
           (kind item))
    demo_items
  = [false; false; false; true; true; true; false].
Proof. reflexivity. Qed.

(** ** A root below an ignored directory *)

Section RootUnderIgnored.
Variable env : Env.
Variable self : CodebaseParser.

Lemma ancestor_of_root (d : string) (r : Path) :
  In d (removelast (root_path self)) -> In d (removelast (abs_path self r)).
Proof.
  intros H. unfold abs_path. destruct r as [|c r].
  - now rewrite app_nil_r.
  - rewrite removelast_app by discriminate.
    apply in_or_app. left. now apply In_removelast.
Qed.

Lemma ignored_under_root (d : string) (item : Item) :
  In d (removelast (root_path self)) -> mem d (ignore_dirs self) = true ->
  should_ignore_path self (abs_path self (rel item)) (kind item) = true.
Proof.
  intros H M. apply (ignored_ancestor self _ _ d); [|exact M].
  now apply ancestor_of_root.
Qed.

(** No [stat] is made for an entry below an ignored directory. *)
Lemma stat_raises_below_ignored (d : string) (item : Item) :
  In d (removelast (root_path self)) -> mem d (ignore_dirs self) = true ->
  stat_raises env self item = None.
Proof.
  intros H M. unfold stat_raises.
  destruct (ancestor_is_parent (abs_path self (rel item)) d
              (ancestor_of_root d (rel item) H)) as (q & Hq & <-).
  replace (existsb _ (parents (abs_path self (rel item)))) with true;
    [reflexivity|].
  symmetry. apply existsb_exists. eauto.
Qed.

(** When no entry raises, the loop goes through the whole enumeration. *)
Lemma processed_all (items : list Item) :
  (forall item, In item items -> stat_raises env self item = None) ->
  processed env self items = (items, rglob_error env (root_path self)).
Proof.
  induction items as [|item r IH]; intros H; simpl; [reflexivity|].
  rewrite (H item (or_introl eq_refl)), IH; [reflexivity|].
  intros x Hx. apply H. now right.
Qed.

Lemma scan_directory_io_written (w : World) :
  written (snd (scan_directory_io env self w)) = written w.
Proof.
  unfold scan_directory_io.
  destruct (processed env self (rglob env (root_path self)))
    as [items [[e|e]|]]; reflexivity.
Qed.

Lemma scan_directory_io_fst (w : World) :
  fst (scan_directory_io env self w) = scan_directory self (scanned env self).
Proof.
  unfold scan_directory_io, scanned.
  now destruct (processed env self (rglob env (root_path self))).
Qed.

Lemma scanned_all :
  (forall item, In item (rglob env (root_path self)) ->
                stat_raises env self item = None) ->
  scanned env self = rglob env (root_path self).
Proof. intros H. unfold scanned. now rewrite processed_all. Qed.

Lemma scan_empty_no_files (w : World) :
  path_exists env (root_path self) = true ->
  scan_directory self (scanned env self) = [] ->
  fst (parse_and_output env self w) = false
  /\ last (stdout (snd (parse_and_output env self w))) ""
     = "No code files found in the specified directory"
  /\ written (snd (parse_and_output env self w)) = written w.
Proof.
  intros E S. unfold parse_and_output. rewrite E. cbn [negb].
  pose proof (scan_directory_io_fst
                (print "Scanning directory structure..."
                   (print_banner self w))) as F.
  pose proof (scan_directory_io_written
                (print "Scanning directory structure..."
                   (print_banner self w))) as W.
  destruct (scan_directory_io env self _) as [structure w'].
  cbn [fst snd] in F, W. rewrite F, S. simpl.
  split; [reflexivity|]. split; [apply last_last|exact W].
Qed.

Lemma advanced_scan_empty_no_files (table : FileStatsTable) (w : World) :
  path_exists env (root_path self) = true ->
  scan_directory self (scanned env self) = [] ->
  let run := advanced_parse_and_output env
               {| base := self; file_stats := table |} w in
  fst (fst run) = false
  /\ last (stdout (snd run)) ""
     = "No code files found in the specified directory"
  /\ written (snd run) = written w.
Proof.
  intros E S. unfold advanced_parse_and_output. cbn [base]. rewrite E.
  cbn [negb].
  pose proof (scan_directory_io_fst
                (print "Scanning directory structure..."
                   (print_banner self w))) as F.
  pose proof (scan_directory_io_written
                (print "Scanning directory structure..."
                   (print_banner self w))) as W.
  destruct (scan_directory_io env self _) as [structure w'].
  cbn [fst snd] in F, W. rewrite F, S. simpl.
  split; [reflexivity|]. split; [apply last_last|exact W].
Qed.

End RootUnderIgnored.

(** C10.  When a directory above the resolved root has a name in the
    ignored directories, every entry that the enumeration yields is ignored,
    the scan result is the empty mapping, and the run, standard or enhanced,
    fails with the report that no code files were found. *)
Theorem C10_root_below_ignored_directory (env : Env) (self : CodebaseParser)
    (table : FileStatsTable) (w : World) (d : string) :
  path_exists env (root_path self) = true ->
  In d (removelast (root_path self)) ->
  mem d (ignore_dirs self) = true ->
  let items := rglob env (root_path self) in
  let run := parse_and_output env self w in
  let advanced_run :=
    advanced_parse_and_output env {| base := self; file_stats := table |} w in
  Forall (fun item =>
            should_ignore_path self (abs_path self (rel item)) (kind item)
            = true) items
  /\ scan_directory self items = []
  /\ fst run = false
  /\ last (stdout (snd run)) ""
     = "No code files found in the specified directory"
  /\ fst (fst advanced_run) = false
  /\ last (stdout (snd advanced_run)) ""
     = "No code files found in the specified directory".
Proof.
  intros E Hd M items run advanced_run.
  assert (Hign : forall item,
             should_ignore_path self (abs_path self (rel item)) (kind item)
             = true)
    by (intros item; now apply (ignored_under_root self d)).
  assert (S : scan_directory self items = []).
  { apply scan_nothing_kept. intros item _. unfold kept.
    now rewrite Hign. }
  split; [apply Forall_forall; auto|]. split; [exact S|].
  assert (S' : scan_directory self (scanned env self) = []).
  { rewrite scanned_all; [exact S|].
    intros item _. now apply (stat_raises_below_ignored env self d). }
  destruct (scan_empty_no_files env self w E S') as (H1 & H2 & _).
  destruct (advanced_scan_empty_no_files env self table w E S')
    as (H3 & H4 & _).
  auto.
Qed.



Lemma C10_witness :
  let self := init env_below_ignored "." "code.txt" in
  let items := rglob env_below_ignored (root_path self) in
  let run := parse_and_output env_below_ignored self empty_world in
  let advanced_run :=
    advanced_parse_and_output env_below_ignored
      {| base := self; file_stats := [] |} empty_world in
  Forall (fun item =>
            should_ignore_path self (abs_path self (rel item)) (kind item)
            = true) items
  /\ scan_directory self items = []
  /\ fst run = false
  /\ last (stdout (snd run)) ""
     = "No code files found in the specified directory"
  /\ fst (fst advanced_run) = false
  /\ last (stdout (snd advanced_run)) ""
     = "No code files found in the specified directory".
Proof.
  apply (C10_root_below_ignored_directory env_below_ignored
           (init env_below_ignored "." "code.txt") [] empty_world "env").
  - reflexivity.
  - simpl. right. left. reflexivity.
  - reflexivity.
Defined.

(** ** The order of the listings *)

Section Listings.
Variable self : CodebaseParser.

Lemma fold_append_map {A : Type} (g : A -> string) (l : list A)
    (result : list string) :
  fold_left (fun result x => result ++ [g x]) l result = result ++ map g l.
Proof.
  revert result. induction l as [|x r IH]; intros result; simpl.
  - now rewrite app_nil_r.
  - now rewrite IH, <- app_assoc.
Qed.

Lemma fold_append_flat_map {A : Type} (g : A -> list string) (l : list A)
    (result : list string) :
  fold_left (fun result x => result ++ g x) l result
  = result ++ flat_map g l.
Proof.
  revert result. induction l as [|x r IH]; intros result; simpl.
  - now rewrite app_nil_r.
  - now rewrite IH, <- app_assoc.
Qed.

Lemma fold_left_ext {A B : Type} (f g : A -> B -> A) (l : list B) (a : A) :
  (forall a b, f a b = g a b) -> fold_left f l a = fold_left g l a.
Proof.
  intros H. revert a. induction l as [|b r IH]; intros a; simpl;
    [reflexivity|]. now rewrite H, IH.
Qed.


Lemma tree_lines_blocks (structure : Structure) :
  tree_lines self structure
  = "Code Structure:"
    :: flat_map (tree_block self structure) (sorted_dirs structure).
Proof.
  unfold tree_lines.
  rewrite (fold_left_ext _
             (fun result d => result ++ tree_block self structure d)).
  - now rewrite fold_append_flat_map.
  - intros result d. unfold tree_block.
    now rewrite fold_append_map, app_assoc.
Qed.

Lemma sorted_dirs_sorted (structure : Structure) :
  StronglySorted Str.le (sorted_dirs structure).
Proof. apply (py_sorted_sorted (fun k : string => k)). Qed.

Lemma sorted_files_sorted (structure : Structure) (d : string) :
  StronglySorted Str.le
    (map (fun f => name (abs_path self f)) (sorted_files self structure d)).
Proof.
  unfold sorted_files.
  generalize (py_sorted_sorted (fun x => name (abs_path self x))
                (files_of structure d)).
  generalize (py_sorted (fun x => name (abs_path self x))
                (files_of structure d)).
  induction 1 as [|x r Hr IH Hx]; simpl; constructor; auto.
  now apply Forall_map.
Qed.

End Listings.


Lemma root_key_top (n : string) : parent_dir [n] = root_key.
Proof. reflexivity. Qed.



(** C1, counterexample.  The keys are listed in ascending order, and that
    order puts [(legacy)] in front of the key of the root: in the tree and
    in the directory table the files of the root come second. *)
Lemma C1_counterexample :
  tree_lines demo_parser (scan_directory demo_parser legacy_items)
  = ["Code Structure:"; "(legacy)"; "    old.py"; "."; "  main.py"]
  /\ directory_rows (scan_directory demo_parser legacy_items)
     = ["  (legacy): 1 files"; "  .: 1 files"]
  /\ ~ root_listed_first (scan_directory demo_parser legacy_items).
Proof.
  split; [reflexivity|]. split; [reflexivity|].
  intros [_ H]. specialize (H (or_introl eq_refl)). discriminate H.
Qed.

(** C1, amended.  For every structure, and so for every scan result, the
    tree is the header followed by one block per directory key, the keys
    taken in ascending order of code points; the directory table has one row
    per key in the same order; that order holds every key once for each
    time the mapping has it; and within a block the files of the key are
    listed in ascending order of their names.  Where the key of the root
    stands is decided by that order alone. *)
Theorem C1_listings_in_ascending_order (self : CodebaseParser)
    (structure : Structure) :
  tree_lines self structure
  = "Code Structure:"
    :: flat_map
         (fun directory =>
            directory_lines directory
            ++ map (file_line self) (sorted_files self structure directory))
         (sorted_dirs structure)
  /\ directory_rows structure
     = map (fun directory =>
              "  " +++ directory +++ ": "
              +++ Str.of_int
                    (Z.of_nat (List.length (files_of structure directory)))
              +++ " files")
         (sorted_dirs structure)
  /\ StronglySorted Str.le (sorted_dirs structure)
  /\ Permutation (dict_keys structure) (sorted_dirs structure)
  /\ forall directory,
       StronglySorted Str.le
         (map (fun f => name (abs_path self f))
            (sorted_files self structure directory))
       /\ Permutation (files_of structure directory)
            (sorted_files self structure directory).
Proof.
  split; [apply tree_lines_blocks|]. split; [reflexivity|].
  split; [apply sorted_dirs_sorted|].
  split; [apply py_sorted_perm|].
  intros directory. split; [apply sorted_files_sorted|apply py_sorted_perm].
Qed.

(** ** The line analyzer *)






Section AnalyzerFacts.
Variable ext : string.

Lemma count_cons (p : string -> bool) (line : string) (lines : list string) :
  count p (line :: lines) = ((if p line then 1 else 0) + count p lines)%Z.
Proof.
  unfold count. simpl. destruct (p line); simpl List.length; lia.
Qed.

(** One round of the loop, field by field, in terms of the class. *)
Lemma analyze_line_fields (st : FileStats) (line : string) :
  let st' := analyze_line ext st line in
  lines_total st' = lines_total st
  /\ lines_blank st'
     = (lines_blank st + if in_class_of ext Blank line then 1 else 0)%Z
  /\ lines_comment st'
     = (lines_comment st + if in_class_of ext Comment line then 1 else 0)%Z
  /\ lines_code st'
     = (lines_code st + if in_class_of ext Code line then 1 else 0)%Z
  /\ functions st'
     = (functions st
        + if in_class_of ext Code line
             && any_match (function_regexes ext) line then 1 else 0)%Z
  /\ classes st'
     = (classes st
        + if in_class_of ext Code line
             && any_match (class_regexes ext) line then 1 else 0)%Z.
Proof.
  unfold analyze_line, in_class_of, classify, truthy.
  destruct (String.eqb (Str.strip line) ""); simpl.
  - repeat split; lia.
  - destruct (any_match (comment_regexes ext) line); simpl.
    + repeat split; lia.
    + destruct (any_match (function_regexes ext) line);
        destruct (any_match (class_regexes ext) line); simpl;
        repeat split; lia.
Qed.

(** The loop, field by field. *)
Lemma analyze_fold_fields (lines : list string) (st : FileStats) :
  let st' := fold_left (analyze_line ext) lines st in
  lines_total st' = lines_total st
  /\ lines_blank st' = (lines_blank st + count (in_class_of ext Blank) lines)%Z
  /\ lines_comment st'
     = (lines_comment st + count (in_class_of ext Comment) lines)%Z
  /\ lines_code st' = (lines_code st + count (in_class_of ext Code) lines)%Z
  /\ functions st'
     = (functions st
        + count (fun line => in_class_of ext Code line
                             && any_match (function_regexes ext) line)
            lines)%Z
  /\ classes st'
     = (classes st
        + count (fun line => in_class_of ext Code line
                             && any_match (class_regexes ext) line)
            lines)%Z.
Proof.
  revert st. induction lines as [|line r IH]; intros st; simpl.
  - unfold count. simpl. repeat split; lia.
  - destruct (IH (analyze_line ext st line)) as (T & B & C & K & F & L).
    destruct (analyze_line_fields st line) as (T' & B' & C' & K' & F' & L').
    rewrite !count_cons.
    rewrite T, B, C, K, F, L, T', B', C', K', F', L'.
    repeat split; lia.
Qed.

(** Every line has exactly one class. *)
Lemma classes_partition (lines : list string) :
  (count (in_class_of ext Blank) lines
   + count (in_class_of ext Comment) lines
   + count (in_class_of ext Code) lines)%Z
  = Z.of_nat (List.length lines).
Proof.
  induction lines as [|line r IH].
  - reflexivity.
  - rewrite !count_cons. simpl List.length. unfold in_class_of at 1 3 5.
    destruct (classify ext line); cbn [LineClass_eqb]; lia.
Qed.

Lemma count_nonneg (p : string -> bool) (lines : list string) :
  (0 <= count p lines)%Z.
Proof. unfold count. lia. Qed.

End AnalyzerFacts.

Lemma analyze_some (content : string) (file_path : Path) :
  content <> "" ->
  analyze_file_complexity content file_path
  = Some (fold_left (analyze_line (Str.lower (suffix file_path)))
            (Str.splitlines content)
            {| lines_total := Z.of_nat (List.length (Str.splitlines content));
               lines_code := 0; lines_comment := 0; lines_blank := 0;
               functions := 0; classes := 0 |}).
Proof.
  intros H. unfold analyze_file_complexity, truthy.
  destruct (String.eqb_spec content "") as [E|_]; [contradiction|reflexivity].
Qed.

Lemma analyze_none (content : string) (file_path : Path) :
  analyze_file_complexity content file_path = None -> content = "".
Proof.
  unfold analyze_file_complexity, truthy.
  destruct (String.eqb_spec content "") as [E|_]; [auto|discriminate].
Qed.

(** C4.  For every text and every file path, the analyzer returns the
    empty dictionary only for the empty text, and the statistics it returns
    otherwise have [lines_total = lines_code + lines_comment + lines_blank]
    and no negative field. *)
Theorem C4_line_counts_add_up (content : string) (file_path : Path) :
  match analyze_file_complexity content file_path with
  | Some st =>
      lines_total st = (lines_code st + lines_comment st + lines_blank st)%Z
      /\ (0 <= lines_total st)%Z /\ (0 <= lines_code st)%Z
      /\ (0 <= lines_comment st)%Z /\ (0 <= lines_blank st)%Z
      /\ (0 <= functions st)%Z /\ (0 <= classes st)%Z
  | None => content = ""
  end.
Proof.
  destruct (analyze_file_complexity content file_path) as [st|] eqn:E;
    [|now apply analyze_none in E].
  destruct (String.eqb_spec content "") as [->|N]; [discriminate E|].
  rewrite (analyze_some content file_path N) in E. injection E as <-.
  set (ext := Str.lower (suffix file_path)).
  set (lines := Str.splitlines content).
  destruct (analyze_fold_fields ext lines
              {| lines_total := Z.of_nat (List.length lines);
                 lines_code := 0; lines_comment := 0; lines_blank := 0;
                 functions := 0; classes := 0 |})
    as (T & B & C & K & F & L).
  rewrite T, B, C, K, F, L. simpl.
  pose proof (classes_partition ext lines).
  pose proof (count_nonneg (in_class_of ext Blank) lines).
  pose proof (count_nonneg (in_class_of ext Comment) lines).
  pose proof (count_nonneg (in_class_of ext Code) lines).
  pose proof (count_nonneg
                (fun line => in_class_of ext Code line
                             && any_match (function_regexes ext) line) lines).
  pose proof (count_nonneg
                (fun line => in_class_of ext Code line
                             && any_match (class_regexes ext) line) lines).
  repeat split; lia.
Qed.

(** The counters are the numbers of lines of each class. *)
Lemma analyze_counts (content : string) (file_path : Path) (st : FileStats) :
  analyze_file_complexity content file_path = Some st ->
  let ext := Str.lower (suffix file_path) in
  let lines := Str.splitlines content in
  lines_blank st = count (in_class_of ext Blank) lines
  /\ lines_comment st = count (in_class_of ext Comment) lines
  /\ lines_code st = count (in_class_of ext Code) lines
  /\ functions st
     = count (fun line => in_class_of ext Code line
                          && any_match (function_regexes ext) line) lines
  /\ classes st
     = count (fun line => in_class_of ext Code line
                          && any_match (class_regexes ext) line) lines.
Proof.
  intros E ext lines.
  destruct (String.eqb_spec content "") as [->|N]; [discriminate E|].
  rewrite (analyze_some content file_path N) in E. injection E as <-.
  destruct (analyze_fold_fields ext lines
              {| lines_total := Z.of_nat (List.length lines);
                 lines_code := 0; lines_comment := 0; lines_blank := 0;
                 functions := 0; classes := 0 |})
    as (_ & B & C & K & F & L).
  fold ext lines. rewrite B, C, K, F, L. simpl. auto.
Qed.

(** C5.  For every text for which the analyzer returns statistics, the
    blank, comment and code counters are the numbers of lines that the
    classification by priority (blank, else comment, else code) puts in each
    class; the function and class counters are the numbers of code lines
    that match a function pattern and a class pattern; and a code line that
    matches both kinds of pattern adds one to each of the two counters. *)
Theorem C5_lines_classified_by_priority (content : string)
    (file_path : Path) (st : FileStats) :
  analyze_file_complexity content file_path = Some st ->
  let ext := Str.lower (suffix file_path) in
  let lines := Str.splitlines content in
  lines_blank st = count (in_class_of ext Blank) lines
  /\ lines_comment st = count (in_class_of ext Comment) lines
  /\ lines_code st = count (in_class_of ext Code) lines
  /\ functions st
     = count (fun line => in_class_of ext Code line
                          && any_match (function_regexes ext) line) lines
  /\ classes st
     = count (fun line => in_class_of ext Code line
                          && any_match (class_regexes ext) line) lines
  /\ forall (stats : FileStats) (line : string),
       classify ext line = Code ->
       any_match (function_regexes ext) line = true ->
       any_match (class_regexes ext) line = true ->
       lines_code (analyze_line ext stats line) = (lines_code stats + 1)%Z
       /\ functions (analyze_line ext stats line) = (functions stats + 1)%Z
       /\ classes (analyze_line ext stats line) = (classes stats + 1)%Z.
Proof.
  intros E ext lines.
  destruct (analyze_counts content file_path st E) as (B & C & K & F & L).
  repeat (split; [assumption|]).
  intros stats line Hcode Hfun Hclass.
  destruct (analyze_line_fields ext stats line) as (_ & _ & _ & K' & F' & L').
  rewrite K', F', L'. unfold in_class_of. rewrite Hcode, Hfun, Hclass.
  auto.
Qed.


Lemma C5_witness :
  let st := {| lines_total := 4; lines_code := 2; lines_comment := 1;
               lines_blank := 1; functions := 1; classes := 1 |} in
  let ext := ".js" in
  let lines := ["function Foo(a) {"; "  // body"; "   "; "}"] in
  lines_blank st = count (in_class_of ext Blank) lines
  /\ lines_comment st = count (in_class_of ext Comment) lines
  /\ lines_code st = count (in_class_of ext Code) lines
  /\ functions st
     = count (fun line => in_class_of ext Code line
                          && any_match (function_regexes ext) line) lines
  /\ classes st
     = count (fun line => in_class_of ext Code line
                          && any_match (class_regexes ext) line) lines
  /\ forall (stats : FileStats) (line : string),
       classify ext line = Code ->
       any_match (function_regexes ext) line = true ->
       any_match (class_regexes ext) line = true ->
       lines_code (analyze_line ext stats line) = (lines_code stats + 1)%Z
       /\ functions (analyze_line ext stats line) = (functions stats + 1)%Z
       /\ classes (analyze_line ext stats line) = (classes stats + 1)%Z.
Proof.
  apply (C5_lines_classified_by_priority demo_js ["src"; "Foo.JS"]).
  vm_compute. reflexivity.
Defined.

(** The first line of [demo_js] is a code line that both tables match. *)
Example demo_js_both :
  classify ".js" "function Foo(a) {" = Code
  /\ any_match (function_regexes ".js") "function Foo(a) {" = true
  /\ any_match (class_regexes ".js") "function Foo(a) {" = true.
Proof. vm_compute. auto. Qed.


Lemma count_ext (p q : string -> bool) (lines : list string) :
  (forall line, p line = q line) -> count p lines = count q lines.
Proof.
  intros H. unfold count. now rewrite (filter_ext p q H).
Qed.

Lemma count_false (lines : list string) : count (fun _ => false) lines = 0%Z.
Proof. unfold count. induction lines; simpl; auto. Qed.

(** C6.  For every text and every file whose lower-cased extension has no
    entry in the pattern tables, the analyzer returns the empty dictionary
    only for the empty text; otherwise every line that is not blank is
    classified as code, the code counter is the number of those lines, and
    the comment, function and class counters are 0. *)
Theorem C6_unregistered_extension (content : string) (file_path : Path) :
  let ext := Str.lower (suffix file_path) in
  let lines := Str.splitlines content in
  unregistered ext ->
  (forall line, Str.strip line <> "" -> classify ext line = Code)
  /\ match analyze_file_complexity content file_path with
     | Some st =>
         lines_code st
         = count (fun line => negb (String.eqb (Str.strip line) "")) lines
         /\ lines_blank st
            = count (fun line => String.eqb (Str.strip line) "") lines
         /\ lines_comment st = 0%Z
         /\ functions st = 0%Z
         /\ classes st = 0%Z
     | None => content = ""
     end.
Proof.
  intros ext lines (Hc & Hf & Hk).
  assert (Cl : forall line,
             classify ext line
             = if String.eqb (Str.strip line) "" then Blank else Code).
  { intros line. unfold classify, comment_regexes, dict_get_default.
    rewrite Hc. reflexivity. }
  split.
  - intros line H. rewrite Cl.
    destruct (String.eqb_spec (Str.strip line) ""); [contradiction|reflexivity].
  - destruct (analyze_file_complexity content file_path) as [st|] eqn:E;
      [|now apply analyze_none in E].
    destruct (analyze_counts content file_path st E) as (B & C & K & F & L).
    fold ext lines in B, C, K, F, L.
    rewrite B, C, K, F, L. repeat split.
    + apply count_ext. intros line. unfold in_class_of. rewrite Cl.
      now destruct (String.eqb (Str.strip line) "").
    + apply count_ext. intros line. unfold in_class_of. rewrite Cl.
      now destruct (String.eqb (Str.strip line) "").
    + rewrite <- (count_false lines). apply count_ext. intros line.
      unfold in_class_of. rewrite Cl.
      now destruct (String.eqb (Str.strip line) "").
    + rewrite <- (count_false lines). apply count_ext. intros line.
      unfold function_regexes, dict_get_default. rewrite Hf. simpl.
      apply andb_false_r.
    + rewrite <- (count_false lines). apply count_ext. intros line.
      unfold class_regexes, dict_get_default. rewrite Hk. simpl.
      apply andb_false_r.
Qed.


Lemma C6_witness :
  (forall line, Str.strip line <> "" -> classify ".sh" line = Code)
  /\ match analyze_file_complexity demo_sh ["build.SH"] with
     | Some st =>
         lines_code st
         = count (fun line => negb (String.eqb (Str.strip line) ""))
             (Str.splitlines demo_sh)
         /\ lines_blank st
            = count (fun line => String.eqb (Str.strip line) "")
                (Str.splitlines demo_sh)
         /\ lines_comment st = 0%Z
         /\ functions st = 0%Z
         /\ classes st = 0%Z
     | None => demo_sh = ""
     end.
Proof.
  apply (C6_unregistered_extension demo_sh ["build.SH"]).
  repeat split; reflexivity.
Defined.

Example demo_sh_stats :
  analyze_file_complexity demo_sh ["build.SH"]
  = Some {| lines_total := 5; lines_code := 4; lines_comment := 0;
            lines_blank := 1; functions := 0; classes := 0 |}.
Proof. vm_compute. reflexivity. Qed.

(** The Python file of the scenario of the specification: five lines, one
    blank, one comment, three of code with one [def]. *)
Example scenario_root_py :
  analyze_file_complexity
    (Str.join Str.nl ["# hi"; "def f():"; "    x = 1"; ""; "    return x"])
    ["root.py"]
  = Some {| lines_total := 5; lines_code := 3; lines_comment := 1;
            lines_blank := 1; functions := 1; classes := 0 |}.
Proof. vm_compute. reflexivity. Qed.

(** ** Empty files and failed reads in the report *)



Lemma reads_empty_content (env : Env) (p : Path) :
  reads_empty env p -> read_file_content env p = "".
Proof.
  unfold read_file_content. intros [H|[[e0 H0] H]].
  - now rewrite H.
  - now rewrite H0, H.
Qed.

Lemma read_fails_content (env : Env) (p : Path) (e : string) :
  read_fails env p e -> read_file_content env p = "Error reading file: " +++ e.
Proof.
  unfold read_file_content. intros [H|[[e0 H0] [H|H]]].
  - now rewrite H.
  - now rewrite H0, H.
  - now rewrite H0, H.
Qed.

(** C9.  For every file whose decoded content is the empty string, the
    section of the file, in the standard and in the enhanced report, has the
    line [// Unable to read file content] in the place of the content, and
    the enhanced run records no statistics for it.  For every file whose
    read fails with an error [e], the message [Error reading file: e] stands
    in the place of the content, and the enhanced run analyzes it as if it
    were the text of the file. *)
Theorem C9_empty_file_shown_as_unreadable (env : Env) (self : CodebaseParser)
    (directory : string) (table : FileStatsTable) (file_path : Path) :
  let p := abs_path self file_path in
  let header :=
    generate_separator
      (if String.eqb directory "root" then stem p
       else directory +++ "/" +++ stem p) in
  let enhanced_header :=
    [generate_separator (stem p);
     "File: " +++ str_rel file_path;
     "Language: " +++ get_language_from_extension (suffix p)] in
  (reads_empty env p ->
   code_section env self directory file_path
   = [header; "File: " +++ str_rel file_path; Str.repeat_str "-" 100;
      "// Unable to read file content"; rule_block]
   /\ enhanced_section env self table file_path
      = (enhanced_header
         ++ [Str.repeat_str "-" 100; "// Unable to read file content";
             rule_block],
         table))
  /\ (forall e, read_fails env p e ->
      let message := "Error reading file: " +++ e in
      code_section env self directory file_path
      = [header; "File: " +++ str_rel file_path; Str.repeat_str "-" 100;
         message; rule_block]
      /\ exists st,
           analyze_file_complexity message p = Some st
           /\ enhanced_section env self table file_path
              = (enhanced_header ++ stats_lines st
                 ++ [Str.repeat_str "-" 100; message; rule_block],
                 dict_set table (str_rel file_path) (Some st))).
Proof.
  intros p header enhanced_header. split.
  - intros H. apply reads_empty_content in H.
    unfold code_section, enhanced_section. fold p. rewrite H. simpl.
    split; reflexivity.
  - intros e H message. apply read_fails_content in H. fold message in H.
    unfold code_section, enhanced_section. fold p. rewrite H.
    assert (T : truthy message = true) by reflexivity.
    rewrite T. split; [reflexivity|].
    destruct (analyze_file_complexity message p) as [st|] eqn:E.
    + exists st. split; reflexivity.
    + apply analyze_none in E. discriminate E.
Qed.


Lemma C9_witness :
  (code_section env_unreadable demo_parser "." ["empty.py"]
   = [generate_separator "./empty"; "File: empty.py";
      Str.repeat_str "-" 100; "// Unable to read file content"; rule_block]
   /\ enhanced_section env_unreadable demo_parser [] ["empty.py"]
      = ([generate_separator "empty"; "File: empty.py"; "Language: Python";
          Str.repeat_str "-" 100; "// Unable to read file content";
          rule_block], []))
  /\ code_section env_unreadable demo_parser "." ["locked.py"]
     = [generate_separator "./locked"; "File: locked.py";
        Str.repeat_str "-" 100;
        "Error reading file: [Errno 13] Permission denied"; rule_block].
Proof.
  split.
  - apply (C9_empty_file_shown_as_unreadable env_unreadable demo_parser "."
             [] ["empty.py"]).
    left. reflexivity.
  - apply (C9_empty_file_shown_as_unreadable env_unreadable demo_parser "."
             [] ["locked.py"]).
    left. reflexivity.
Defined.

(** ** Exit status *)

Section ExitStatus.
Variable env : Env.

(** When [parse_and_output] fails and when it succeeds. *)
Lemma write_report_result (self : CodebaseParser) (summary detail : string)
    (w : World) :
  open_write env (output_file self) = None ->
  fst (write_report env self summary detail w)
  = writes_ok env (output_file self).
Proof.
  intros O. unfold write_report, writes_ok. rewrite O.
  destruct (write_fault env (output_file self)); [reflexivity|].
  now destruct (getsize_error env (output_file self)).
Qed.

Lemma parse_and_output_result (self : CodebaseParser) (w : World) :
  fst (parse_and_output env self w)
  = path_exists env (root_path self)
    && nonempty (scan_directory self (scanned env self))
    && writes_ok env (output_file self).
Proof.
  unfold parse_and_output.
  destruct (path_exists env (root_path self)); cbn [negb andb];
    [|reflexivity].
  pose proof (scan_directory_io_fst env self
                (print "Scanning directory structure..."
                   (print_banner self w))) as F.
  destruct (scan_directory_io env self _) as [structure w'].
  cbn [fst] in F. rewrite <- F.
  destruct (nonempty structure); cbn [negb andb]; [|reflexivity].
  destruct (open_write env (output_file self)) eqn:O.
  - unfold writes_ok. now rewrite O.
  - now apply write_report_result.
Qed.

Lemma advanced_parse_and_output_result (self : AdvancedCodebaseParser)
    (w : World) :
  fst (fst (advanced_parse_and_output env self w))
  = path_exists env (root_path (base self))
    && nonempty (scan_directory (base self) (scanned env (base self)))
    && writes_ok env (output_file (base self)).
Proof.
  unfold advanced_parse_and_output.
  destruct (path_exists env (root_path (base self))); cbn [negb andb];
    [|reflexivity].
  pose proof (scan_directory_io_fst env (base self)
                (print "Scanning directory structure..."
                   (print_banner (base self) w))) as F.
  destruct (scan_directory_io env (base self) _) as [structure w'].
  cbn [fst] in F. rewrite <- F.
  destruct (nonempty structure); cbn [negb andb]; [|reflexivity].
  destruct (open_write env (output_file (base self))) eqn:O.
  - unfold writes_ok. now rewrite O.
  - destruct (generate_enhanced_output (during_write env) self structure)
      as [detail analyzed].
    rewrite <- (write_report_result (base self)
                  (generate_summary (base self) structure
                     (get_project_stats env (base self) structure))
                  detail
                  (print "Analyzing code and generating output..."
                     (print_found
                        (get_project_stats env (base self) structure) w')))
      by exact O.
    now destruct (write_report env (base self) _ detail _) as [[|] w''].
Qed.

(** The standard run without [--preview]: status 1 exactly when
    [parse_and_output] fails. *)
Lemma main_exit_status (argv : list string) (w : World) (args : Args) :
  parse_args env (tl argv) = Parsed args ->
  arg_preview args = false ->
  let self :=
    fst (add_custom_extensions
           (init env (arg_path args) (arg_output args))
           (arg_extensions args) w) in
  fst (main env argv w)
  = if path_exists env (root_path self)
       && nonempty (scan_directory self (scanned env self))
       && writes_ok env (output_file self)
    then 0%Z else 1%Z.
Proof.
  intros P V self. unfold main. rewrite P. subst self.
  destruct (add_custom_extensions _ _ w) as [self w'] eqn:E. rewrite V.
  simpl fst. rewrite <- (parse_and_output_result self w').
  destruct (parse_and_output env self w') as [[|] w'']; reflexivity.
Qed.

(** With [--preview] the status is 0, whatever the tree. *)
Lemma preview_exit_status (argv : list string) (w : World) (args : Args) :
  parse_args env (tl argv) = Parsed args ->
  arg_preview args = true ->
  fst (main env argv w) = 0%Z.
Proof.
  intros P V. unfold main. rewrite P.
  destruct (add_custom_extensions _ _ w) as [self w']. now rewrite V.
Qed.

(** In enhanced mode the result of [parse_and_output] is dropped: the
    status is 0, whatever the result. *)
Lemma enhanced_exit_status (argv : list string) (w : World) :
  ((1 <? List.length argv)%nat
   && mem (nth 1 argv "") ["--help"; "-h"; "help"]) = false ->
  mem "--enhanced" argv = true ->
  fst (script env argv w) = 0%Z.
Proof.
  intros H E. unfold script. rewrite H, E.
  now destruct (advanced_parse_and_output env _ w) as [[? ?] ?].
Qed.

Lemma help_exit_status (argv : list string) (w : World) :
  ((1 <? List.length argv)%nat
   && mem (nth 1 argv "") ["--help"; "-h"; "help"]) = true ->
  script env argv w = (0%Z, print examples w).
Proof. intros H. unfold script. now rewrite H. Qed.

End ExitStatus.

(** ** The output file when the root does not exist *)

Section MissingRoot.
Variable env : Env.

Lemma print_written (line : string) (w : World) :
  written (print line w) = written w.
Proof. reflexivity. Qed.

Lemma missing_root_run (self : CodebaseParser) (w : World) :
  path_exists env (root_path self) = false ->
  parse_and_output env self w
  = (false,
     print ("Error: Directory " +++ str_abs (root_path self)
            +++ " does not exist") (print_banner self w)).
Proof. intros H. unfold parse_and_output. now rewrite H. Qed.

Lemma advanced_missing_root_run (self : AdvancedCodebaseParser) (w : World) :
  path_exists env (root_path (base self)) = false ->
  advanced_parse_and_output env self w
  = (false, self,
     print ("Error: Directory " +++ str_abs (root_path (base self))
            +++ " does not exist") (print_banner (base self) w)).
Proof. intros H. unfold advanced_parse_and_output. now rewrite H. Qed.

Lemma add_custom_extensions_written (self : CodebaseParser)
    (extensions : option string) (w : World) :
  written (snd (add_custom_extensions self extensions w)) = written w.
Proof.
  unfold add_custom_extensions. destruct extensions as [text|];
    [|reflexivity]. now destruct (truthy text).
Qed.

Lemma preview_written (self : CodebaseParser) (w : World) :
  written (preview_structure env self w) = written w.
Proof.
  unfold preview_structure.
  pose proof (scan_directory_io_written env self
                (print ("Previewing structure for: "
                        +++ str_abs (root_path self) +++ Str.nl) w)) as H.
  destruct (scan_directory_io env self _) as [structure w'].
  simpl in H. now destruct (nonempty structure).
Qed.

(** Whatever the command line, a run that finds no path leaves every file
    as it was. *)
Lemma missing_root_writes_nothing (argv : list string) (w : World) :
  (forall p, path_exists env p = false) ->
  written (snd (script env argv w)) = written w.
Proof.
  intros H. unfold script.
  destruct (_ && mem (nth 1 argv "") _); [reflexivity|].
  destruct (mem "--enhanced" argv).
  - now rewrite advanced_missing_root_run by apply H.
  - unfold main. destruct (parse_args env (tl argv)) as [args|status];
      [|reflexivity].
    pose proof (add_custom_extensions_written
                  (init env (arg_path args) (arg_output args))
                  (arg_extensions args) w) as X.
    destruct (add_custom_extensions _ _ w) as [self w']. simpl in X.
    destruct (arg_preview args).
    + simpl. now rewrite preview_written.
    + rewrite missing_root_run by apply H. simpl. exact X.
Qed.

End MissingRoot.


(** C2, at the failing input.  With [--enhanced] and a root that does not
    exist, [parse_and_output] returns [False] and the process exits with
    status 0; the same root without [--enhanced] gives status 1. *)
Theorem C2_enhanced_failure_exits_zero :
  let argv := ["main.py"; "--enhanced"; "/srv/missing"] in
  let parser := advanced_init env_missing_root "/srv/missing" "code.txt" in
  fst (fst (advanced_parse_and_output env_missing_root parser empty_world))
  = false
  /\ fst (script env_missing_root argv empty_world) = 0%Z
  /\ fst (script env_missing_root ["main.py"; "/srv/missing"] empty_world)
     = 1%Z.
Proof. repeat split; reflexivity. Qed.

(** C7, at the failing input.  With [--enhanced] and a root that does not
    exist, the error is printed and no file is written, and the process
    exits with status 0. *)
Theorem C7_enhanced_missing_root_exits_zero :
  let argv := ["main.py"; "--enhanced"; "/srv/missing"] in
  let run := script env_missing_root argv empty_world in
  stdout (snd run)
  = ["Parsing codebase in: /srv/missing"; "Output file: code.txt";
     "Error: Directory /srv/missing does not exist"]
  /\ written (snd run) = written empty_world
  /\ fst run = 0%Z.
Proof. repeat split; reflexivity. Qed.

(** ** Keys and names of well-formed paths *)



Section PathKeys.

Lemma contains_char_append (c : ascii) (s t : string) :
  Str.contains_char c (s +++ t)
  = Str.contains_char c s || Str.contains_char c t.
Proof.
  induction s as [|a s IH]; simpl; [reflexivity|].
  now rewrite IH, orb_assoc.
Qed.

Lemma join_cons (sep x y : string) (l : list string) :
  Str.join sep (x :: y :: l) = x +++ sep +++ Str.join sep (y :: l).
Proof. reflexivity. Qed.

(** Up to the first separator, two joined texts agree. *)
Lemma slash_split (a b r r' : string) :
  Str.contains_char "/" a = false -> Str.contains_char "/" b = false ->
  a +++ "/" +++ r = b +++ "/" +++ r' -> a = b /\ r = r'.
Proof.
  revert b. induction a as [|c a IH]; intros [|c' b]; simpl; intros Ha Hb E.
  - injection E as E. auto.
  - injection E as E1 E2. subst c'. discriminate Hb.
  - injection E as E1 E2. subst c. discriminate Ha.
  - injection E as E1 E2. subst c'.
    apply orb_false_iff in Ha, Hb.
    destruct (IH b (proj2 Ha) (proj2 Hb) E2) as [-> ->]. auto.
Qed.

Lemma join_injective (l1 l2 : list string) :
  l1 <> [] -> l2 <> [] ->
  Forall component_ok l1 -> Forall component_ok l2 ->
  Str.join "/" l1 = Str.join "/" l2 -> l1 = l2.
Proof.
  revert l2. induction l1 as [|a [|a' l1] IH]; intros l2 N1 N2 F1 F2 E;
    [contradiction| |].
  - destruct l2 as [|b [|b' l2]]; [contradiction| |].
    + simpl in E. now subst.
    + rewrite join_cons in E. simpl in E.
      inversion F1 as [|? ? [_ Ha] _]; subst.
      rewrite contains_char_append in Ha. simpl in Ha.
      apply orb_false_iff in Ha. destruct Ha as [_ Ha]. discriminate Ha.
  - destruct l2 as [|b [|b' l2]]; [contradiction| |].
    + rewrite join_cons in E. simpl in E.
      inversion F2 as [|? ? [_ Hb] _]; subst.
      rewrite contains_char_append in Hb. simpl in Hb.
      apply orb_false_iff in Hb. destruct Hb as [_ Hb]. discriminate Hb.
    + rewrite !join_cons in E.
      inversion F1 as [|? ? [_ Ha] F1']; subst.
      inversion F2 as [|? ? [_ Hb] F2']; subst.
      destruct (slash_split _ _ _ _ Ha Hb E) as [-> E'].
      f_equal. apply IH; auto; discriminate.
Qed.

Lemma str_rel_injective (p q : Path) :
  Forall component_ok p -> Forall component_ok q ->
  str_rel p = str_rel q -> p = q.
Proof.
  assert (dot : forall l, l <> [] -> Forall component_ok l ->
                          Str.join "/" l <> ".").
  { intros [|a [|a' l]] N F E; [contradiction| |].
    - inversion F as [|? ? [Ha _] _]; subst. now apply Ha.
    - rewrite join_cons in E.
      assert (X : Str.contains_char "/" (a +++ "/" +++ Str.join "/" (a' :: l))
                  = true).
      { rewrite contains_char_append. simpl. apply orb_true_r. }
      rewrite E in X. discriminate X. }
  intros Fp Fq E. destruct p as [|a p], q as [|b q]; [reflexivity| | |].
  - exfalso. apply (dot (b :: q)); [discriminate|assumption|now symmetry].
  - exfalso. apply (dot (a :: p)); [discriminate|assumption|assumption].
  - apply join_injective; auto; discriminate.
Qed.

Lemma Forall_removelast {A : Type} (P : A -> Prop) (l : list A) :
  Forall P l -> Forall P (removelast l).
Proof.
  intros H. apply Forall_forall. intros x Hx.
  rewrite Forall_forall in H. now apply H, In_removelast.
Qed.

Lemma last_In_or_default {A : Type} (l : list A) (d : A) :
  last l d = d \/ In (last l d) l.
Proof.
  induction l as [|a [|b l] IH]; [now left|right; now left|].
  destruct IH as [IH|IH]; [left; exact IH|right; right; exact IH].
Qed.

(** For a well-formed path the key is the text of the parent. *)
Lemma parent_dir_ok (r : Path) :
  Forall component_ok r -> parent_dir r = str_rel (parent r).
Proof.
  intros F. unfold parent_dir.
  destruct (String.eqb_spec (name (parent r)) ".") as [E|N]; [|reflexivity].
  exfalso. unfold name in E.
  destruct (last_In_or_default (parent r) "") as [H|H].
  - rewrite H in E. discriminate E.
  - apply Forall_removelast in F. rewrite Forall_forall in F.
    destruct (F _ H) as [X _]. now apply X.
Qed.

Lemma name_abs_path (self : CodebaseParser) (r : Path) :
  r <> [] -> name (abs_path self r) = last r "".
Proof.
  intros N. unfold name, abs_path.
  rewrite (app_removelast_last "" N) at 1.
  now rewrite app_assoc, last_last.
Qed.

(** Two entries with the same key and the same name are one entry. *)
Lemma same_key_same_name (self : CodebaseParser) (r1 r2 : Path) :
  entry_ok r1 -> entry_ok r2 ->
  parent_dir r1 = parent_dir r2 ->
  name (abs_path self r1) = name (abs_path self r2) ->
  r1 = r2.
Proof.
  intros [N1 F1] [N2 F2] K E.
  rewrite !name_abs_path in E by assumption.
  rewrite !parent_dir_ok in K by assumption.
  apply str_rel_injective in K; try now apply Forall_removelast.
  rewrite (app_removelast_last "" N1), (app_removelast_last "" N2).
  unfold parent in K. now rewrite K, E.
Qed.

End PathKeys.

(** ** The scan and the order of the enumeration *)

Section ScanOrder.
Variable self : CodebaseParser.
Variables items1 items2 : list Item.
Hypothesis same_entries : Permutation items1 items2.
Hypothesis entries_ok : Forall (fun item => entry_ok (rel item)) items1.

Local Abbreviation s1 := (scan_directory self items1).
Local Abbreviation s2 := (scan_directory self items2).

Lemma files_of_perm (k : string) : Permutation (files_of s1 k) (files_of s2 k).
Proof.
  rewrite !scan_files_of.
  apply Permutation_map, filter_perm, same_entries.
Qed.

Lemma files_of_nil_iff (k : string) : files_of s1 k = [] <-> files_of s2 k = [].
Proof.
  pose proof (files_of_perm k) as P. split; intros H; rewrite H in P.
  - now apply Permutation_nil in P.
  - symmetry in P. now apply Permutation_nil in P.
Qed.

Lemma keys_perm : Permutation (dict_keys s1) (dict_keys s2).
Proof.
  destruct (scan_well_grouped self items1) as [ND1 K1].
  destruct (scan_well_grouped self items2) as [ND2 K2].
  apply NoDup_Permutation; [exact ND1|exact ND2|].
  intros k. rewrite K1, K2, files_of_nil_iff. tauto.
Qed.

Lemma sorted_dirs_eq : sorted_dirs s1 = sorted_dirs s2.
Proof.
  apply py_sorted_perm_eq; [auto|apply keys_perm].
Qed.

Lemma files_of_entries (k : string) (f : Path) :
  In f (files_of s1 k) -> entry_ok f /\ parent_dir f = k.
Proof.
  rewrite scan_files_of. intros H.
  apply in_map_iff in H. destruct H as (item & <- & H).
  apply filter_In in H. destruct H as [Hin Hk].
  rewrite Forall_forall in entries_ok. split; [now apply entries_ok|].
  unfold kept_under in Hk. apply andb_true_iff in Hk.
  now apply String.eqb_eq.
Qed.

Lemma sorted_files_eq (k : string) :
  sorted_files self s1 k = sorted_files self s2 k.
Proof.
  apply py_sorted_perm_eq; [|apply files_of_perm].
  intros x y Hx Hy E.
  destruct (files_of_entries k x Hx) as [Ox Kx].
  destruct (files_of_entries k y Hy) as [Oy Ky].
  apply (same_key_same_name self); congruence.
Qed.

Lemma files_of_length (k : string) :
  List.length (files_of s1 k) = List.length (files_of s2 k).
Proof. apply Permutation_length, files_of_perm. Qed.

Lemma nonempty_eq : nonempty s1 = nonempty s2.
Proof.
  pose proof keys_perm as P. unfold dict_keys in P. revert P.
  destruct s1 as [|e1 r1], s2 as [|e2 r2]; intros P; try reflexivity;
    simpl in P.
  - now apply Permutation_nil in P.
  - symmetry in P. now apply Permutation_nil in P.
Qed.

Lemma structure_length : List.length s1 = List.length s2.
Proof.
  rewrite <- (length_map fst s1), <- (length_map fst s2).
  apply Permutation_length, keys_perm.
Qed.

(** The listings do not depend on the order of the enumeration. *)
Lemma tree_lines_eq : tree_lines self s1 = tree_lines self s2.
Proof.
  rewrite !tree_lines_blocks, sorted_dirs_eq. f_equal.
  apply flat_map_ext. intros k. unfold tree_block.
  now rewrite sorted_files_eq.
Qed.

Lemma directory_rows_eq : directory_rows s1 = directory_rows s2.
Proof.
  unfold directory_rows. rewrite sorted_dirs_eq.
  apply map_ext. intros k. now rewrite files_of_length.
Qed.

Lemma code_output_lines_eq (env : Env) :
  code_output_lines env self s1 = code_output_lines env self s2.
Proof.
  unfold code_output_lines, format_directory_structure.
  rewrite tree_lines_eq, sorted_dirs_eq.
  apply fold_left_ext. intros result k. now rewrite sorted_files_eq.
Qed.

Lemma enhanced_output_lines_eq (env : Env) (table : FileStatsTable) :
  enhanced_output_lines env {| base := self; file_stats := table |} s1
  = enhanced_output_lines env {| base := self; file_stats := table |} s2.
Proof.
  unfold enhanced_output_lines, format_directory_structure. simpl.
  rewrite tree_lines_eq, sorted_dirs_eq.
  apply fold_left_ext. intros state k. now rewrite sorted_files_eq.
Qed.

End ScanOrder.

(** ** The project statistics *)

Section StatsFacts.
Variable env : Env.
Variable self : CodebaseParser.






Lemma Zsum_app (l l' : list Z) : Zsum (l ++ l') = (Zsum l + Zsum l')%Z.
Proof. induction l as [|x l IH]; simpl; lia. Qed.

Lemma Zsum_perm (l l' : list Z) : Permutation l l' -> Zsum l = Zsum l'.
Proof. induction 1; simpl; lia. Qed.

Lemma stats_files_fold (files : list Path) (st : ProjectStats) :
  let st' := fold_left (stats_file_step env self) files st in
  total_files st' = total_files st
  /\ total_directories st' = total_directories st
  /\ total_lines st'
     = (total_lines st + Zsum (map (line_count env self) files))%Z
  /\ languages st'
     = fold_left bump (map (language_of self) files) (languages st).
Proof.
  revert st. induction files as [|f r IH]; intros st; simpl.
  - repeat split. lia.
  - destruct (IH (stats_file_step env self st f)) as (F & D & L & G).
    rewrite F, D, L, G. unfold stats_file_step at 1 2 3 4. simpl.
    unfold line_count at 2.
    destruct (truthy (read_file_content env (abs_path self f)));
      repeat split; lia.
Qed.

Lemma stats_dirs_fold (s : Structure) (st : ProjectStats) :
  let st' := fold_left (stats_dir_step env self) s st in
  total_files st'
  = (total_files st + Z.of_nat (List.length (all_files s)))%Z
  /\ total_directories st' = total_directories st
  /\ total_lines st'
     = (total_lines st + Zsum (map (line_count env self) (all_files s)))%Z
  /\ languages st'
     = fold_left bump (map (language_of self) (all_files s)) (languages st).
Proof.
  revert st. induction s as [|[k files] r IH]; intros st; simpl.
  - repeat split; lia.
  - destruct (IH (stats_dir_step env self st (k, files))) as (F & D & L & G).
    rewrite F, D, L, G. unfold stats_dir_step. simpl.
    match goal with
    | |- context [fold_left (stats_file_step env self) files ?x] =>
        destruct (stats_files_fold files x) as (F' & D' & L' & G')
    end.
    rewrite F', D', L', G'. simpl.
    rewrite length_app, !map_app, Zsum_app, fold_left_app.
    repeat split; lia.
Qed.

Lemma project_stats_fields (s : Structure) :
  let st := get_project_stats env self s in
  total_files st = Z.of_nat (List.length (all_files s))
  /\ total_directories st = Z.of_nat (List.length s)
  /\ total_lines st = Zsum (map (line_count env self) (all_files s))
  /\ languages st = fold_left bump (map (language_of self) (all_files s)) [].
Proof.
  unfold get_project_stats.
  match goal with
  | |- context [fold_left (stats_dir_step env self) s ?x] =>
      destruct (stats_dirs_fold s x) as (F & D & L & G)
  end.
  simpl in *. rewrite F, D, L, G. repeat split.
Qed.

(** *** The language table *)


Lemma occurrences_absent (k : string) (l : list string) :
  mem k l = false -> occurrences k l = 0%Z.
Proof.
  induction l as [|x r IH]; simpl; [reflexivity|].
  destruct (String.eqb k x); simpl; [discriminate|]. intros H.
  now rewrite IH.
Qed.

Lemma bump_fold_get (langs : list string) (d : dict Z) (k : string) :
  dict_get (fold_left bump langs d) k
  = if mem k langs
    then Some (dict_get_default d k 0 + occurrences k langs)%Z
    else dict_get d k.
Proof.
  revert d. induction langs as [|x r IH]; intros d; [reflexivity|].
  change (fold_left bump (x :: r) d) with (fold_left bump r (bump d x)).
  change (mem k (x :: r)) with (String.eqb k x || mem k r).
  change (occurrences k (x :: r))
    with ((if String.eqb k x then 1 else 0) + occurrences k r)%Z.
  rewrite IH. unfold bump, dict_get_default. rewrite !dict_get_set.
  destruct (String.eqb_spec k x) as [->|N]; cbn [orb].
  - destruct (mem x r) eqn:M.
    + f_equal. lia.
    + now rewrite (occurrences_absent x r M), Z.add_0_r.
  - destruct (mem k r); [f_equal; lia|reflexivity].
Qed.

Lemma bump_fold_NoDup (langs : list string) (d : dict Z) :
  NoDup (dict_keys d) -> NoDup (dict_keys (fold_left bump langs d)).
Proof.
  revert d. induction langs as [|x r IH]; intros d H; simpl; [exact H|].
  apply IH. now apply dict_keys_set_NoDup.
Qed.

Lemma mem_perm (k : string) (l l' : list string) :
  Permutation l l' -> mem k l = mem k l'.
Proof.
  intros P. destruct (mem k l') eqn:E.
  - apply mem_In. apply mem_In in E.
    now apply (Permutation_in _ (Permutation_sym P)).
  - apply mem_false. apply mem_false in E. intros H. apply E.
    now apply (Permutation_in _ P).
Qed.

Lemma occurrences_perm (k : string) (l l' : list string) :
  Permutation l l' -> occurrences k l = occurrences k l'.
Proof. induction 1; simpl; lia. Qed.

(** Two dictionaries with the same content list the same pairs. *)
Lemma dict_perm {V : Type} (d1 d2 : dict V) :
  NoDup (dict_keys d1) -> NoDup (dict_keys d2) ->
  (forall k, dict_get d1 k = dict_get d2 k) ->
  Permutation d1 d2.
Proof.
  intros N1 N2 H.
  apply NoDup_Permutation.
  - now apply (NoDup_map_inv fst).
  - now apply (NoDup_map_inv fst).
  - intros [k v]. split; intros Hin.
    + apply dict_get_In. rewrite <- H. now apply In_dict_get.
    + apply dict_get_In. rewrite H. now apply In_dict_get.
Qed.

Lemma fst_injective_NoDup {V : Type} (d : dict V) (x y : string * V) :
  NoDup (dict_keys d) -> In x d -> In y d -> fst x = fst y -> x = y.
Proof.
  intros N Hx Hy E. destruct x as [k v], y as [k' v']. simpl in E. subst k'.
  apply (In_dict_get _ _ _ N) in Hx, Hy. congruence.
Qed.

(** The sorted language table depends on the files, not on their order. *)
Lemma language_table_perm (langs langs' : list string) :
  Permutation langs langs' ->
  py_sorted fst (fold_left bump langs [])
  = py_sorted fst (fold_left bump langs' []).
Proof.
  intros P.
  assert (N : forall l, NoDup (dict_keys (fold_left bump l [])))
    by (intros l; apply bump_fold_NoDup; constructor).
  apply py_sorted_perm_eq.
  - intros x y. now apply fst_injective_NoDup.
  - apply dict_perm; auto. intros k.
    now rewrite !bump_fold_get, (mem_perm k _ _ P), (occurrences_perm k _ _ P).
Qed.

(** *** The files of a scan *)

Lemma dict_set_new {V : Type} (d : dict V) (k : string) (v : V) :
  dict_get d k = None -> dict_set d k v = d ++ [(k, v)].
Proof.
  induction d as [|[k' v'] r IH]; simpl; [reflexivity|].
  destruct (String.eqb_spec k k'); [discriminate|].
  intros H. now rewrite IH.
Qed.

Lemma all_files_add (s : Structure) (k : string) (v : Path) :
  Permutation (all_files (structure_add s k v)) (all_files s ++ [v]).
Proof.
  unfold structure_add, all_files.
  destruct (dict_get s k) as [files|] eqn:E.
  - revert E. induction s as [|[k' v'] r IH]; simpl; [discriminate|].
    destruct (String.eqb_spec k k') as [->|N]; simpl.
    + intros [= ->]. rewrite <- !app_assoc.
      apply Permutation_app_head, Permutation_app_comm.
    + intros E. rewrite <- app_assoc. apply Permutation_app_head. auto.
  - rewrite dict_set_new by exact E.
    rewrite flat_map_app. simpl. reflexivity.
Qed.

Lemma all_files_fold (items : list Item) (s : Structure) :
  Permutation (all_files (fold_left (scan_step self) items s))
    (all_files s ++ map rel (filter (kept self) items)).
Proof.
  revert s. induction items as [|it r IH]; intros s; simpl.
  - now rewrite app_nil_r.
  - rewrite IH, scan_step_kept. destruct (kept self it); [|reflexivity].
    rewrite all_files_add. simpl. now rewrite <- app_assoc.
Qed.

(** The files of a scan result are the kept entries. *)
Lemma scan_all_files (items : list Item) :
  Permutation (all_files (scan_directory self items))
    (map rel (filter (kept self) items)).
Proof. apply (all_files_fold items []). Qed.

End StatsFacts.

(** ** The report and the order of the enumeration *)


Section Determinism.
Variable env : Env.
Variable self : CodebaseParser.
Variables items1 items2 : list Item.
Hypothesis same_entries : Permutation items1 items2.
Hypothesis entries_ok : Forall (fun item => entry_ok (rel item)) items1.

Local Abbreviation s1 := (scan_directory self items1).
Local Abbreviation s2 := (scan_directory self items2).

Lemma all_files_perm : Permutation (all_files s1) (all_files s2).
Proof.
  rewrite !scan_all_files.
  apply Permutation_map, filter_perm, same_entries.
Qed.

Lemma project_stats_eq :
  let st1 := get_project_stats env self s1 in
  let st2 := get_project_stats env self s2 in
  total_files st1 = total_files st2
  /\ total_directories st1 = total_directories st2
  /\ total_lines st1 = total_lines st2
  /\ language_rows st1 = language_rows st2.
Proof.
  destruct (project_stats_fields env self s1) as (F1 & D1 & L1 & G1).
  destruct (project_stats_fields env self s2) as (F2 & D2 & L2 & G2).
  simpl. unfold language_rows. rewrite F1, F2, D1, D2, L1, L2, G1, G2.
  pose proof all_files_perm as P.
  repeat split.
  - now rewrite (Permutation_length P).
  - now rewrite (structure_length self items1 items2 same_entries).
  - apply Zsum_perm. now apply Permutation_map.
  - f_equal. apply language_table_perm. now apply Permutation_map.
Qed.

Lemma generate_summary_eq :
  generate_summary self s1 (get_project_stats env self s1)
  = generate_summary self s2 (get_project_stats env self s2).
Proof.
  destruct project_stats_eq as (F & D & L & G).
  unfold generate_summary, summary_lines. rewrite F, D, L, G.
  now rewrite (directory_rows_eq self items1 items2 same_entries).
Qed.

Lemma print_found_eq (w : World) :
  print_found (get_project_stats env self s1) w
  = print_found (get_project_stats env self s2) w.
Proof.
  destruct project_stats_eq as (F & D & _). unfold print_found.
  now rewrite F, D.
Qed.

Lemma generate_code_output_eq :
  generate_code_output env self s1 = generate_code_output env self s2.
Proof.
  unfold generate_code_output.
  now rewrite (code_output_lines_eq self items1 items2 same_entries
                 entries_ok env).
Qed.

Lemma format_directory_structure_eq :
  format_directory_structure self s1 = format_directory_structure self s2.
Proof.
  unfold format_directory_structure.
  now rewrite (tree_lines_eq self items1 items2 same_entries entries_ok).
Qed.

Lemma count_files_eq : count_files s1 = count_files s2.
Proof.
  assert (H : forall (s : Structure) n,
             fold_left (fun n entry =>
                          (n + Z.of_nat (List.length (snd entry)))%Z) s n
             = (n + Z.of_nat (List.length (all_files s)))%Z).
  { induction s as [|[k files] r IH]; intros n; simpl; [lia|].
    rewrite IH, length_app. lia. }
  unfold count_files. rewrite !H.
  now rewrite (Permutation_length all_files_perm).
Qed.

End Determinism.

Section SameReport.
Variable env : Env.
Variable self : CodebaseParser.
Variables items1 items2 : list Item.
Hypothesis same_entries : Permutation items1 items2.
Hypothesis entries_ok : Forall (fun item => entry_ok (rel item)) items1.
Hypothesis none_raises :
  Forall (fun item => stat_raises env self item = None) items1.

(** When no entry raises, the scan goes through the enumeration given. *)
Lemma scan_directory_io_with_rglob (items : list Item) (w : World) :
  Forall (fun item => stat_raises env self item = None) items ->
  scan_directory_io (with_rglob env items) self w
  = (scan_directory self items,
     match rglob_error env (root_path self) with
     | None => w
     | Some (PermissionError e) =>
         print ("Permission denied accessing: " +++ e) w
     | Some (ScanException e) => print ("Error scanning directory: " +++ e) w
     end).
Proof.
  intros H. unfold scan_directory_io. cbn [with_rglob rglob].
  rewrite (processed_all (with_rglob env items) self items); [reflexivity|].
  intros item Hin. exact (proj1 (Forall_forall _ _) H item Hin).
Qed.

Lemma none_raises_2 :
  Forall (fun item => stat_raises env self item = None) items2.
Proof.
  apply Forall_forall. intros item Hin.
  apply (proj1 (Forall_forall _ _) none_raises).
  now apply (Permutation_in item (Permutation_sym same_entries)).
Qed.

Lemma with_rglob_write_report (items : list Item) (summary detail : string)
    (w : World) :
  write_report (with_rglob env items) self summary detail w
  = write_report env self summary detail w.
Proof. reflexivity. Qed.

(** Reading a file does not look at the enumeration. *)
Lemma with_rglob_stats (items : list Item) (s : Structure) :
  get_project_stats (with_rglob env items) self s
  = get_project_stats env self s.
Proof. reflexivity. Qed.

Lemma with_rglob_code_output (items : list Item) (s : Structure) :
  generate_code_output (during_write (with_rglob env items)) self s
  = generate_code_output (during_write env) self s.
Proof. reflexivity. Qed.

Lemma with_rglob_enhanced_output (items : list Item)
    (adv : AdvancedCodebaseParser) (s : Structure) :
  generate_enhanced_output (during_write (with_rglob env items)) adv s
  = generate_enhanced_output (during_write env) adv s.
Proof. reflexivity. Qed.

Lemma parse_and_output_same (w : World) :
  parse_and_output (with_rglob env items1) self w
  = parse_and_output (with_rglob env items2) self w.
Proof.
  unfold parse_and_output.
  rewrite !scan_directory_io_with_rglob
    by (exact none_raises || exact none_raises_2).
  rewrite !with_rglob_stats, !with_rglob_code_output,
    !with_rglob_write_report.
  cbn [with_rglob rglob path_exists rglob_error open_write].
  rewrite (nonempty_eq self items1 items2 same_entries).
  rewrite (print_found_eq env self items1 items2 same_entries).
  rewrite (generate_summary_eq env self items1 items2 same_entries).
  rewrite (generate_code_output_eq (during_write env) self items1 items2
             same_entries entries_ok).
  reflexivity.
Qed.

Lemma advanced_parse_and_output_same (table : FileStatsTable) (w : World) :
  advanced_parse_and_output (with_rglob env items1)
    {| base := self; file_stats := table |} w
  = advanced_parse_and_output (with_rglob env items2)
      {| base := self; file_stats := table |} w.
Proof.
  unfold advanced_parse_and_output. cbn [base].
  rewrite !scan_directory_io_with_rglob
    by (exact none_raises || exact none_raises_2).
  rewrite !with_rglob_stats, !with_rglob_enhanced_output.
  cbn [with_rglob rglob path_exists rglob_error open_write write_fault].
  rewrite (nonempty_eq self items1 items2 same_entries).
  rewrite (print_found_eq env self items1 items2 same_entries).
  unfold generate_enhanced_output.
  rewrite (enhanced_output_lines_eq self items1 items2 same_entries
             entries_ok (during_write env) table).
  destruct (enhanced_output_lines (during_write env) _
              (scan_directory self items2)) as [result table'].
  cbn [base file_stats].
  rewrite !with_rglob_write_report.
  rewrite (generate_summary_eq env self items1 items2 same_entries).
  reflexivity.
Qed.

Lemma preview_structure_same (w : World) :
  preview_structure (with_rglob env items1) self w
  = preview_structure (with_rglob env items2) self w.
Proof.
  unfold preview_structure.
  rewrite !scan_directory_io_with_rglob
    by (exact none_raises || exact none_raises_2).
  rewrite (nonempty_eq self items1 items2 same_entries).
  rewrite (format_directory_structure_eq self items1 items2 same_entries
             entries_ok).
  rewrite (count_files_eq self items1 items2 same_entries).
  reflexivity.
Qed.

End SameReport.

(** C8, counterexample.  In a tree with a directory that cannot be
    searched the scan ends at the first entry of that directory, and what it
    has filed by then depends on the order of the enumeration: when [app]
    comes first the run writes a report on [app/main.py] and returns [True];
    when [vault] comes first the same tree gives no code file, no report and
    [False]. *)
Lemma C8_counterexample :
  let run1 :=
    parse_and_output (with_rglob env_vault vault_last) demo_parser
      empty_world in
  let run2 :=
    parse_and_output (with_rglob env_vault vault_first) demo_parser
      empty_world in
  Permutation vault_last vault_first
  /\ Forall (fun item => entry_ok (rel item)) vault_last
  /\ scanned (with_rglob env_vault vault_last) demo_parser
     = [directory ["app"]; directory ["vault"]; file ["app"; "main.py"]]
  /\ scanned (with_rglob env_vault vault_first) demo_parser
     = [directory ["vault"]; directory ["app"]]
  /\ fst run1 = true
  /\ fst run2 = false
  /\ last (stdout (snd run2)) ""
     = "No code files found in the specified directory"
  /\ written (snd run2) "code.txt" = None
  /\ written (snd run1) "code.txt" <> written (snd run2) "code.txt".
Proof.
  intros run1 run2. split.
  { apply perm_trans with
      [directory ["vault"]; directory ["app"];
       file ["app"; "main.py"]; file ["vault"; "key.py"]].
    - apply perm_swap.
    - do 2 apply perm_skip. apply perm_swap. }
  split.
  { repeat constructor; discriminate. }
  split; [reflexivity|]. split; [reflexivity|].
  split; [reflexivity|]. split; [reflexivity|].
  split; [reflexivity|]. split; [reflexivity|].
  vm_compute. discriminate.
Qed.

(** C8, as it holds.  For every tree whose scan raises no exception (the
    enumeration does not raise, and [is_dir()] and [is_file()] raise for no
    entry that has no ignored parent), every configuration and every two
    enumerations of the entries of the tree, a run on the one and a run on
    the other give the same result, print the same lines and leave the same
    bytes in the output file; so do two enhanced runs and two previews.  The
    entries are paths below the root as [pathlib] builds them. *)
Theorem C8_report_independent_of_enumeration (env : Env)
    (self : CodebaseParser) (table : FileStatsTable) (w : World)
    (items1 items2 : list Item) :
  Permutation items1 items2 ->
  Forall (fun item => entry_ok (rel item)) items1 ->
  rglob_error env (root_path self) = None ->
  Forall (fun item => stat_raises env self item = None) items1 ->
  parse_and_output (with_rglob env items1) self w
  = parse_and_output (with_rglob env items2) self w
  /\ advanced_parse_and_output (with_rglob env items1)
       {| base := self; file_stats := table |} w
     = advanced_parse_and_output (with_rglob env items2)
         {| base := self; file_stats := table |} w
  /\ preview_structure (with_rglob env items1) self w
     = preview_structure (with_rglob env items2) self w.
Proof.
  intros P O _ R. split; [|split].
  - now apply parse_and_output_same.
  - now apply advanced_parse_and_output_same.
  - now apply preview_structure_same.
Qed.


Lemma demo_items_ok : Forall (fun item => entry_ok (rel item)) demo_items.
Proof.
  repeat constructor; try discriminate; reflexivity.
Qed.

Lemma C8_witness :
  parse_and_output (with_rglob demo_env demo_items) demo_parser empty_world
  = parse_and_output (with_rglob demo_env (rev demo_items)) demo_parser
      empty_world
  /\ advanced_parse_and_output (with_rglob demo_env demo_items)
       {| base := demo_parser; file_stats := [] |} empty_world
     = advanced_parse_and_output (with_rglob demo_env (rev demo_items))
         {| base := demo_parser; file_stats := [] |} empty_world
  /\ preview_structure (with_rglob demo_env demo_items) demo_parser
       empty_world
     = preview_structure (with_rglob demo_env (rev demo_items)) demo_parser
         empty_world.
Proof.
  apply (C8_report_independent_of_enumeration demo_env demo_parser []
           empty_world demo_items (rev demo_items)).
  - apply Permutation_rev.
  - exact demo_items_ok.
  - reflexivity.
  - repeat constructor.
Defined.

(** The scenario of the specification in full: two files in two
    directories, one per language, and the tree [.], [root.py], [sub],
    [b.js]. *)
Example scenario_report :
  let structure := scan_directory demo_parser (rglob demo_env []) in
  let stats := get_project_stats demo_env demo_parser structure in
  total_files stats = 2%Z
  /\ total_directories stats = 2%Z
  /\ total_lines stats = 5%Z
  /\ language_rows stats = ["  JavaScript: 1 files"; "  Python: 1 files"]
  /\ tree_lines demo_parser structure
     = ["Code Structure:"; "."; "  root.py"; "sub"; "    b.js"].
Proof. vm_compute. repeat split. Qed.

(* ================================================================== *)
(** * Further properties of the program *)
(* ================================================================== *)

(** ** What the scan holds *)

Section ScanContent.
Variable self : CodebaseParser.

Lemma scan_kept_only (items : list Item) (s : Structure) :
  fold_left (scan_step self) items s
  = fold_left (scan_step self) (filter (kept self) items) s.
Proof.
  revert s. induction items as [|it r IH]; intros s; simpl; [reflexivity|].
  rewrite scan_step_kept. destruct (kept self it) eqn:K; simpl.
  - now rewrite scan_step_kept, K.
  - apply IH.
Qed.

Lemma scan_files_In (items : list Item) (k : string) (f : Path) :
  In f (files_of (scan_directory self items) k)
  <-> exists item, In item items /\ rel item = f /\ kept self item = true
                   /\ parent_dir f = k.
Proof.
  rewrite scan_files_of, in_map_iff. unfold kept_under. split.
  - intros (item & <- & H). apply filter_In in H. destruct H as [Hin H].
    apply andb_true_iff in H. destruct H as [K E].
    apply String.eqb_eq in E. eauto.
  - intros (item & Hin & <- & K & E). exists item. split; [reflexivity|].
    apply filter_In. split; [exact Hin|].
    rewrite K. simpl. now apply String.eqb_eq.
Qed.

Lemma scan_empty_iff (items : list Item) :
  scan_directory self items = []
  <-> forall item, In item items -> kept self item = false.
Proof.
  split.
  - intros E item Hin. destruct (kept self item) eqn:K; [|reflexivity].
    assert (H : In (rel item)
                  (files_of (scan_directory self items)
                     (parent_dir (rel item))))
      by (apply scan_files_In; eauto).
    rewrite E in H. destruct H.
  - intros H. now apply scan_nothing_kept.
Qed.

End ScanContent.

(** X1.  Under a key the scan result holds the kept entries of that key
    (not ignored, regular file, code extension), in the order of the
    enumeration; so a path is in the list of a key exactly when it is a kept
    entry whose parent gives that key, and the entries that are not kept
    leave no trace in the result. *)
Theorem X1_scan_holds_the_kept_entries (self : CodebaseParser)
    (items : list Item) (k : string) :
  files_of (scan_directory self items) k
  = map rel (filter (kept_under self k) items)
  /\ (forall f,
        In f (files_of (scan_directory self items) k)
        <-> exists item, In item items /\ rel item = f
                         /\ kept self item = true /\ parent_dir f = k)
  /\ (forall files,
        In (k, files) (scan_directory self items) ->
        files = files_of (scan_directory self items) k)
  /\ scan_directory self items
     = scan_directory self (filter (kept self) items).
Proof.
  split; [apply scan_files_of|]. split; [apply scan_files_In|].
  split; [apply scan_entry_files|apply scan_kept_only].
Qed.

(** X2.  A scan result has no key twice and no empty list, and it is the
    empty mapping exactly when no entry of the tree is kept. *)
Theorem X2_scan_groups_are_distinct_and_not_empty (self : CodebaseParser)
    (items : list Item) :
  NoDup (dict_keys (scan_directory self items))
  /\ (forall k files, In (k, files) (scan_directory self items) ->
                      files <> [])
  /\ (scan_directory self items = []
      <-> forall item, In item items -> kept self item = false).
Proof.
  destruct (scan_well_grouped self items) as [ND G].
  split; [exact ND|]. split; [|apply scan_empty_iff].
  intros k files H. rewrite (scan_entry_files self items k files H).
  apply G. change k with (fst (k, files)). now apply in_map.
Qed.

(** X3.  For a path whose components are as [pathlib] builds them, the key
    is the text of the parent: the ['root'] branch of the scan is not taken.
    A file directly under the root gets the key ['.'], and the key is
    ['root'] only below a directory of that name. *)
Theorem X3_key_is_the_text_of_the_parent (r : Path) :
  Forall component_ok r ->
  parent_dir r = str_rel (parent r)
  /\ (parent r = [] -> parent_dir r = ".")
  /\ (parent_dir r = "root" <-> parent r = ["root"]).
Proof.
  intros F. rewrite (parent_dir_ok r F). split; [reflexivity|].
  split; [now intros ->|]. split.
  - intros E. apply str_rel_injective.
    + now apply Forall_removelast.
    + repeat constructor; discriminate.
    + exact E.
  - now intros ->.
Qed.

Lemma X3_witness :
  parent_dir ["root.py"] = str_rel (parent ["root.py"])
  /\ (parent ["root.py"] = [] -> parent_dir ["root.py"] = ".")
  /\ (parent_dir ["root.py"] = "root" <-> parent ["root.py"] = ["root"]).
Proof.
  apply (X3_key_is_the_text_of_the_parent ["root.py"]).
  repeat constructor; discriminate.
Defined.

(** ** Entries of the ignore list that cannot match *)

Section DeadIgnoreEntries.
Variable self : CodebaseParser.

Lemma mem_filter (p : string -> bool) (x : string) (l : list string) :
  p x = true -> mem x (filter p l) = mem x l.
Proof.
  intros H. induction l as [|y l IH]; simpl; [reflexivity|].
  destruct (p y) eqn:E; simpl.
  - now rewrite IH.
  - rewrite IH. destruct (String.eqb_spec x y) as [->|N]; [congruence|].
    reflexivity.
Qed.

Lemma name_no_slash (p : Path) :
  Forall component_ok p -> Str.contains_char "/" (name p) = false.
Proof.
  intros F. unfold name. destruct (last_In_or_default p "") as [->|H].
  - reflexivity.
  - rewrite Forall_forall in F. now destruct (F _ H).
Qed.

Lemma In_firstn {A : Type} (x : A) (n : nat) (l : list A) :
  In x (firstn n l) -> In x l.
Proof.
  revert l. induction n as [|n IH]; intros [|a l]; simpl; try tauto.
  intros [H|H]; [now left|right; now apply IH].
Qed.

Lemma existsb_ext_in {A : Type} (f g : A -> bool) (l : list A) :
  (forall x, In x l -> f x = g x) -> existsb f l = existsb g l.
Proof.
  induction l as [|a l IH]; intros H; simpl; [reflexivity|].
  rewrite (H a (or_introl eq_refl)), IH; [reflexivity|].
  intros x Hx. apply H. now right.
Qed.

End DeadIgnoreEntries.

(** X4.  An entry of [ignore_dirs] that holds a separator, as
    ['public/build'] does, never takes effect: for every path with
    components as [pathlib] builds them, the answer of [should_ignore_path]
    is the same without these entries, since only names of single
    components are looked up. *)
Theorem X4_ignored_dirs_with_separator_are_dead (self : CodebaseParser)
    (path : Path) (k : Kind) :
  Forall component_ok path ->
  should_ignore_path self path k
  = should_ignore_path (without_slash_dirs self) path k.
Proof.
  intros F. unfold should_ignore_path, without_slash_dirs. simpl.
  assert (M : forall q, Forall component_ok q ->
                mem (name q)
                  (filter (fun d => negb (Str.contains_char "/" d))
                     (ignore_dirs self))
                = mem (name q) (ignore_dirs self)).
  { intros q Fq. apply mem_filter. now rewrite (name_no_slash q Fq). }
  rewrite (M path F). f_equal. f_equal.
  apply existsb_ext_in. intros q Hq. symmetry. apply M.
  unfold parents in Hq. apply in_map_iff in Hq. destruct Hq as (n & <- & _).
  apply Forall_forall. intros x Hx. rewrite Forall_forall in F.
  apply F. now apply In_firstn in Hx.
Qed.

Lemma X4_witness :
  should_ignore_path demo_parser ["home"; "proj"; "public"; "build"; "a.js"]
    File
  = should_ignore_path (without_slash_dirs demo_parser)
      ["home"; "proj"; "public"; "build"; "a.js"] File.
Proof.
  apply X4_ignored_dirs_with_separator_are_dead.
  repeat constructor; try discriminate.
Defined.

(** ** The recognized extensions *)

Section Extensions.

Lemma startswith_dot (s : string) :
  Str.startswith s "." = true <-> dotted s.
Proof.
  unfold dotted. destruct s as [|a r].
  - split; [discriminate|]. intros [r E]. discriminate E.
  - unfold Str.startswith.
    change (String.prefix "." (String a r))
      with (if ascii_dec "."%char a then String.prefix "" r else false).
    destruct (ascii_dec "."%char a) as [<-|N].
    + split; [eauto|]. intros _. now destruct r.
    + split; [discriminate|]. intros [r' E]. injection E as E _.
      now symmetry in E.
Qed.

Lemma normalize_extension_dotted (piece : string) :
  dotted (normalize_extension piece).
Proof.
  unfold normalize_extension.
  destruct (Str.startswith (Str.strip piece) ".") eqn:E; simpl.
  - apply startswith_dot in E. destruct E as [r ->]. now exists (Str.lower r).
  - now exists (Str.lower (Str.strip piece)).
Qed.

Lemma add_extension_In (self : CodebaseParser) (ext e : string) :
  In e (code_extensions (add_extension self ext))
  <-> In e (code_extensions self) \/ e = ext.
Proof.
  unfold add_extension. simpl.
  destruct (mem ext (code_extensions self)) eqn:M.
  - apply mem_In in M. split; [tauto|]. intros [H| ->]; assumption.
  - rewrite in_app_iff. simpl. split; [intros [H|[H|[]]]; auto|].
    intros [H|H]; auto.
Qed.

Lemma add_extensions_fold (g : string -> string) (l : list string)
    (self : CodebaseParser) :
  let self' :=
    fold_left (fun self ext => add_extension self (g ext)) l self in
  (forall e, In e (code_extensions self')
             <-> In e (code_extensions self) \/ In e (map g l))
  /\ root_path self' = root_path self
  /\ output_file self' = output_file self
  /\ ignore_dirs self' = ignore_dirs self
  /\ ignore_files self' = ignore_files self.
Proof.
  revert self. induction l as [|x l IH]; intros self; simpl.
  - repeat split; tauto.
  - destruct (IH (add_extension self (g x))) as (M & R & O & D & F).
    repeat split; try assumption.
    + intros H. apply M in H. rewrite add_extension_In in H.
      destruct H as [[H|H]|H]; auto.
    + intros H. apply M. rewrite add_extension_In.
      destruct H as [H|[H|H]]; auto.
Qed.

Lemma add_custom_extensions_parser (self : CodebaseParser) (text : string)
    (w : World) :
  text <> "" ->
  fst (add_custom_extensions self (Some text) w)
  = fold_left
      (fun self ext =>
         add_extension self
           (Str.lower (if negb (Str.startswith ext ".") then "." +++ ext
                       else ext)))
      (map Str.strip (Str.split_char "," text)) self.
Proof.
  intros N. unfold add_custom_extensions, truthy.
  destruct (String.eqb_spec text "") as [E|_]; [contradiction|reflexivity].
Qed.

End Extensions.

(** X5.  [--extensions] with a text that is not empty adds to the
    recognized extensions every item of the comma-separated list, trimmed,
    with a leading dot put in front when it has none, and in lower case; it
    adds nothing else, removes nothing, and leaves the root, the output file
    and the ignore rules as they were. *)
Theorem X5_custom_extensions_are_added_normalized (self : CodebaseParser)
    (text : string) (w : World) :
  text <> "" ->
  let self' := fst (add_custom_extensions self (Some text) w) in
  (forall e,
     In e (code_extensions self')
     <-> In e (code_extensions self)
         \/ exists piece, In piece (Str.split_char "," text)
                          /\ e = normalize_extension piece)
  /\ root_path self' = root_path self
  /\ output_file self' = output_file self
  /\ ignore_dirs self' = ignore_dirs self
  /\ ignore_files self' = ignore_files self.
Proof.
  intros N self'. unfold self'.
  rewrite (add_custom_extensions_parser self text w N).
  destruct (add_extensions_fold
              (fun ext =>
                 Str.lower (if negb (Str.startswith ext ".") then "." +++ ext
                            else ext))
              (map Str.strip (Str.split_char "," text)) self)
    as (M & R & O & D & F).
  repeat split; try assumption.
  - intros H. apply M in H. destruct H as [H|H]; [now left|right].
    rewrite map_map in H. apply in_map_iff in H.
    destruct H as (piece & <- & Hin). now exists piece.
  - intros [H|(piece & Hin & ->)]; apply M; [now left|right].
    rewrite map_map. apply in_map_iff. now exists piece.
Qed.

Lemma X5_witness :
  let self' :=
    fst (add_custom_extensions demo_parser (Some "vue, .Svelte") empty_world)
  in
  (forall e,
     In e (code_extensions self')
     <-> In e (code_extensions demo_parser)
         \/ exists piece, In piece (Str.split_char "," "vue, .Svelte")
                          /\ e = normalize_extension piece)
  /\ root_path self' = root_path demo_parser
  /\ output_file self' = output_file demo_parser
  /\ ignore_dirs self' = ignore_dirs demo_parser
  /\ ignore_files self' = ignore_files demo_parser.
Proof.
  apply (X5_custom_extensions_are_added_normalized demo_parser
           "vue, .Svelte" empty_world).
  discriminate.
Defined.

(** The scenario of the specification: with [--extensions vue] a [.vue]
    file is a code file, and its language is [Unknown]. *)
Example scenario_vue :
  let self :=
    fst (add_custom_extensions demo_parser (Some "vue") empty_world) in
  is_code_file demo_parser ["home"; "proj"; "App.vue"] = false
  /\ is_code_file self ["home"; "proj"; "App.vue"] = true
  /\ get_language_from_extension (suffix ["home"; "proj"; "App.vue"])
     = "Unknown".
Proof. vm_compute. auto. Qed.

(** X6.  Whatever [--extensions] holds, every recognized extension of the
    parser that [main] builds begins with a dot; so a file whose name has no
    suffix (no dot, a dot only in front, or a dot at the end) is never a code
    file and never in a scan result. *)
Theorem X6_files_without_suffix_are_never_code (env : Env)
    (root output : string) (extensions : option string) (w : World)
    (r : Path) (k : Kind) :
  let self :=
    fst (add_custom_extensions (init env root output) extensions w) in
  Forall dotted (code_extensions self)
  /\ (suffix (abs_path self r) = "" ->
      is_code_file self (abs_path self r) = false
      /\ kept self {| rel := r; kind := k |} = false).
Proof.
  intros self.
  assert (D : Forall dotted (code_extensions self)).
  { assert (D0 : Forall dotted default_code_extensions)
      by (repeat constructor; eexists; reflexivity).
    unfold self, add_custom_extensions.
    destruct extensions as [text|]; [|exact D0].
    destruct (truthy text); [|exact D0]. simpl.
    destruct (add_extensions_fold
                (fun ext =>
                   Str.lower (if negb (Str.startswith ext ".")
                              then "." +++ ext else ext))
                (map Str.strip (Str.split_char "," text))
                (init env root output))
      as (M & _).
    apply Forall_forall. intros e He. apply M in He.
    destruct He as [He|He].
    - rewrite Forall_forall in D0. now apply D0.
    - apply in_map_iff in He. destruct He as (x & <- & _).
      destruct (Str.startswith x ".") eqn:E; simpl.
      + apply startswith_dot in E. destruct E as [t ->].
        now exists (Str.lower t).
      + now exists (Str.lower x). }
  split; [exact D|]. intros E.
  assert (C : is_code_file self (abs_path self r) = false).
  { unfold is_code_file. rewrite E. simpl. apply mem_false. intros H.
    rewrite Forall_forall in D. destruct (D _ H) as [t Ht]. discriminate Ht. }
  split; [exact C|]. unfold kept. simpl. rewrite C. apply andb_false_r.
Qed.

Lemma X6_witness :
  let self :=
    fst (add_custom_extensions (init demo_env "." "code.txt")
           (Some ",txt") empty_world) in
  is_code_file self (abs_path self ["Makefile"]) = false
  /\ kept self {| rel := ["Makefile"]; kind := File |} = false.
Proof.
  apply (X6_files_without_suffix_are_never_code demo_env "." "code.txt"
           (Some ",txt") empty_world ["Makefile"] File).
  reflexivity.
Defined.

(** X7.  With the default extensions every code file has a language name:
    each recognized extension has an entry in the language table, so
    [Unknown] is the language of custom extensions only. *)
Theorem X7_default_extensions_have_a_language (root : Path)
    (output : string) (file_path : Path) :
  is_code_file (parser_at root output) file_path = true ->
  get_language_from_extension (suffix file_path) <> "Unknown".
Proof.
  unfold is_code_file, get_language_from_extension.
  cbn [parser_at code_extensions].
  intros H. apply mem_In in H.
  unfold default_code_extensions in H. cbn [In] in H.
  repeat (destruct H as [H|H]; [rewrite <- H; discriminate|]).
  destruct H.
Qed.

Lemma X7_witness :
  get_language_from_extension (suffix ["home"; "proj"; "Main.JAVA"])
  <> "Unknown".
Proof.
  apply (X7_default_extensions_have_a_language ["home"; "proj"] "code.txt").
  reflexivity.
Defined.

(** ** The numbers of the summary *)

Section SummaryNumbers.
Variable env : Env.
Variable self : CodebaseParser.

Lemma count_files_all (s : Structure) :
  count_files s = Z.of_nat (List.length (all_files s)).
Proof.
  assert (H : forall (t : Structure) n,
             fold_left (fun n entry =>
                          (n + Z.of_nat (List.length (snd entry)))%Z) t n
             = (n + Z.of_nat (List.length (all_files t)))%Z).
  { induction t as [|[k files] r IH]; intros n; simpl; [lia|].
    rewrite IH, length_app. lia. }
  unfold count_files. now rewrite H.
Qed.

Lemma dict_set_sum (d : dict Z) (k : string) (v : Z) :
  Zsum (map snd (dict_set d k v))
  = (Zsum (map snd d) - dict_get_default d k 0 + v)%Z.
Proof.
  unfold dict_get_default.
  induction d as [|[k' v'] r IH]; cbn [dict_set dict_get map snd Zsum
                                        fold_right].
  - lia.
  - destruct (String.eqb k k'); cbn [map snd fold_right].
    + fold (Zsum (map snd r)). lia.
    + fold (Zsum (map snd (dict_set r k v))) (Zsum (map snd r)).
      rewrite IH. lia.
Qed.

Lemma bump_fold_sum (langs : list string) (d : dict Z) :
  Zsum (map snd (fold_left bump langs d))
  = (Zsum (map snd d) + Z.of_nat (List.length langs))%Z.
Proof.
  revert d. induction langs as [|x r IH]; intros d.
  - simpl. lia.
  - change (fold_left bump (x :: r) d) with (fold_left bump r (bump d x)).
    rewrite IH. unfold bump. rewrite dict_set_sum.
    change (List.length (x :: r)) with (S (List.length r)). lia.
Qed.

Lemma occurrences_present (k : string) (l : list string) :
  mem k l = true -> (1 <= occurrences k l)%Z.
Proof.
  assert (N : forall l', (0 <= occurrences k l')%Z).
  { induction l' as [|x r IH]; cbn [occurrences]; [lia|].
    destruct (String.eqb k x); lia. }
  induction l as [|x r IH]; [discriminate|].
  change (mem k (x :: r)) with (String.eqb k x || mem k r).
  cbn [occurrences]. specialize (N r).
  destruct (String.eqb k x); cbn [orb]; [lia|].
  intros H. specialize (IH H). lia.
Qed.

Lemma language_table_entries (langs : list string) (l : string) (n : Z) :
  In (l, n) (fold_left bump langs []) ->
  n = occurrences l langs /\ (1 <= n)%Z.
Proof.
  intros H.
  assert (ND : NoDup (dict_keys (fold_left bump langs [])))
    by (apply bump_fold_NoDup; constructor).
  apply (In_dict_get _ _ _ ND) in H. rewrite bump_fold_get in H.
  destruct (mem l langs) eqn:M; [|discriminate H].
  injection H as <-. unfold dict_get_default. simpl.
  split; [reflexivity|]. now apply occurrences_present.
Qed.

Lemma splitlines_from_nonempty (cur : list ascii) (s : string) :
  cur <> [] -> Str.splitlines_from cur s <> [].
Proof.
  revert cur. induction s as [|a r IH]; intros cur N; simpl.
  - destruct cur; [contradiction|discriminate].
  - destruct (Str.is_linebreak a); [discriminate|].
    apply IH. discriminate.
Qed.

Lemma splitlines_nonempty (s : string) : s <> "" -> Str.splitlines s <> [].
Proof.
  destruct s as [|a r]; [contradiction|]. intros _.
  unfold Str.splitlines. simpl.
  destruct (Str.is_linebreak a); [discriminate|].
  apply splitlines_from_nonempty. discriminate.
Qed.

End SummaryNumbers.

(** X8.  For every scan result the statistics are those of the kept
    entries: [total_files] is their number, which is also the sum of the
    sizes of the groups that the preview prints; [total_directories] is the
    number of keys; the language table has no language twice, gives each
    language the number of its files, at least 1, and its counts add up to
    [total_files]. *)
Theorem X8_statistics_count_the_kept_entries (env : Env)
    (self : CodebaseParser) (items : list Item) :
  let s := scan_directory self items in
  let st := get_project_stats env self s in
  total_files st = Z.of_nat (List.length (filter (kept self) items))
  /\ total_files st = count_files s
  /\ total_directories st = Z.of_nat (List.length (dict_keys s))
  /\ total_lines st = Zsum (map (line_count env self) (all_files s))
  /\ NoDup (dict_keys (languages st))
  /\ (forall l n,
        In (l, n) (languages st) ->
        n = occurrences l (map (language_of self) (all_files s))
        /\ (1 <= n)%Z)
  /\ Zsum (map snd (languages st)) = total_files st.
Proof.
  intros s st.
  destruct (project_stats_fields env self s) as (F & D & L & G).
  fold st in F, D, L, G. rewrite F, D, L, G.
  repeat split.
  - unfold s. rewrite (Permutation_length (scan_all_files self items)).
    now rewrite length_map.
  - now rewrite count_files_all.
  - unfold dict_keys. now rewrite length_map.
  - apply bump_fold_NoDup. constructor.
  - now apply language_table_entries in H.
  - now apply language_table_entries in H.
  - rewrite bump_fold_sum, length_map. simpl. lia.
Qed.

(** X9.  What a file adds to [total_lines]: nothing when its decoded
    content is empty; at least one line when the read fails, the lines of
    the error message; and for a content that is not empty exactly the
    [lines_total] of its analysis. *)
Theorem X9_lines_counted_for_a_file (env : Env) (self : CodebaseParser)
    (f : Path) :
  let p := abs_path self f in
  (0 <= line_count env self f)%Z
  /\ (reads_empty env p -> line_count env self f = 0%Z)
  /\ (forall e, read_fails env p e -> (1 <= line_count env self f)%Z)
  /\ (forall st,
        analyze_file_complexity (read_file_content env p) p = Some st ->
        line_count env self f = lines_total st
        /\ (1 <= lines_total st)%Z).
Proof.
  intros p. unfold line_count. fold p.
  assert (P : forall content, content <> "" ->
                (1 <= Z.of_nat (List.length (Str.splitlines content)))%Z).
  { intros content N. pose proof (splitlines_nonempty content N) as H.
    destruct (Str.splitlines content); [contradiction|].
    simpl List.length. lia. }
  split; [destruct (truthy _); lia|]. split; [|split].
  - intros H. now rewrite (reads_empty_content env p H).
  - intros e H. rewrite (read_fails_content env p e H).
    assert (T : truthy ("Error reading file: " +++ e) = true) by reflexivity.
    rewrite T. apply P. discriminate.
  - intros st H.
    destruct (String.eqb_spec (read_file_content env p) "") as [E|N].
    + rewrite E in H. discriminate H.
    + rewrite (analyze_some _ p N) in H. injection H as <-.
      match goal with
      | |- context [fold_left (analyze_line ?e) ?l ?x] =>
          destruct (analyze_fold_fields e l x) as (T & _)
      end.
      rewrite T. simpl. unfold truthy.
      destruct (String.eqb_spec (read_file_content env p) "");
        [contradiction|]. simpl. split; [reflexivity|now apply P].
Qed.

Lemma X9_witness :
  line_count env_unreadable demo_parser ["empty.py"] = 0%Z
  /\ (1 <= line_count env_unreadable demo_parser ["locked.py"])%Z.
Proof.
  split.
  - apply (X9_lines_counted_for_a_file env_unreadable demo_parser
             ["empty.py"]).
    left. reflexivity.
  - apply (X9_lines_counted_for_a_file env_unreadable demo_parser
             ["locked.py"]) with (e := "[Errno 13] Permission denied").
    left. reflexivity.
Defined.

(** ** The lines of the tree *)

Section TreeLines.

Lemma split_char_no_sep (sep : ascii) (s : string) :
  Str.contains_char sep s = false -> Str.split_char sep s = [s].
Proof.
  induction s as [|a r IH]; simpl; [reflexivity|].
  intros H. apply orb_false_iff in H. destruct H as [Ha Hr].
  rewrite Ha, (IH Hr). reflexivity.
Qed.

Lemma split_char_append (sep : ascii) (s r : string) :
  Str.contains_char sep s = false ->
  Str.split_char sep (s +++ String sep r) = s :: Str.split_char sep r.
Proof.
  induction s as [|a s IH]; simpl.
  - intros _. now rewrite Ascii.eqb_refl.
  - intros H. apply orb_false_iff in H. destruct H as [Ha Hs].
    rewrite Ha, (IH Hs). reflexivity.
Qed.

(** [split] undoes [join] when no component holds the separator. *)
Lemma split_char_join (l : list string) :
  l <> [] -> Forall component_ok l ->
  Str.split_char "/" (Str.join "/" l) = l.
Proof.
  induction l as [|a [|b l] IH]; intros N F; [contradiction| |].
  - inversion F as [|? ? [_ Ha] _]; subst. simpl.
    now apply split_char_no_sep.
  - inversion F as [|? ? [_ Ha] F']; subst.
    rewrite join_cons.
    change ("/" +++ Str.join "/" (b :: l))
      with (String "/" (Str.join "/" (b :: l))).
    rewrite (split_char_append "/" a _ Ha). f_equal.
    apply IH; [discriminate|exact F'].
Qed.

Lemma part_lines_last (parts : list string) (i : nat) :
  parts <> [] ->
  last (part_lines i parts) ""
  = Str.repeat_str "  " (i + List.length parts - 1) +++ last parts "".
Proof.
  revert i. induction parts as [|a [|b l] IH]; intros i N; [contradiction| |].
  - simpl. now replace (i + 1 - 1)%nat with i by lia.
  - change (part_lines i (a :: b :: l))
      with ((Str.repeat_str "  " i +++ a) :: part_lines (S i) (b :: l)).
    change (last (a :: b :: l) "") with (last (b :: l) "").
    assert (E : last ((Str.repeat_str "  " i +++ a)
                        :: part_lines (S i) (b :: l)) ""
                = last (part_lines (S i) (b :: l)) "")
      by reflexivity.
    rewrite E, IH by discriminate.
    f_equal. f_equal. simpl List.length. lia.
Qed.

End TreeLines.

(** X10.  In the tree, for an entry with components as [pathlib] builds
    them: a file directly under the root follows the line [.] with one
    indent; the components of any other parent are printed one per line with
    indents 0, 1, 2, ... (the key splits back into them), and the file has
    one indent more than it has parent components, two more than the last
    line of its directory.  A directory named [root] directly under the root
    is printed as [.]. *)
Theorem X10_tree_indentation (self : CodebaseParser) (f : Path) :
  entry_ok f ->
  let n := List.length (parent f) in
  file_line self f = Str.repeat_str "  " (n + 1) +++ last f ""
  /\ (parent f = [] -> directory_lines (parent_dir f) = ["."])
  /\ (parent f = ["root"] -> directory_lines (parent_dir f) = ["."])
  /\ (parent f <> [] -> parent f <> ["root"] ->
      directory_lines (parent_dir f) = part_lines 0 (parent f)
      /\ last (directory_lines (parent_dir f)) ""
         = Str.repeat_str "  " (n - 1) +++ last (parent f) "").
Proof.
  intros [N F] n.
  assert (L : List.length f = (n + 1)%nat).
  { unfold n, parent. rewrite (app_removelast_last "" N) at 1.
    rewrite length_app. simpl. lia. }
  pose proof (parent_dir_ok f F) as K.
  split; [|split; [|split]].
  - unfold file_line. rewrite name_abs_path by exact N. f_equal. f_equal.
    rewrite L. lia.
  - intros E. rewrite K, E. reflexivity.
  - intros E. rewrite K, E. reflexivity.
  - intros NE NR. rewrite K.
    assert (D : directory_lines (str_rel (parent f))
                = part_lines 0 (parent f)).
    { unfold directory_lines.
      destruct (String.eqb_spec (str_rel (parent f)) "root") as [E|_].
      - exfalso. apply NR. apply str_rel_injective.
        + now apply Forall_removelast.
        + repeat constructor; discriminate.
        + exact E.
      - unfold str_rel. destruct (parent f) as [|c l] eqn:P;
          [contradiction|].
        rewrite split_char_join; [reflexivity|discriminate|].
        rewrite <- P. now apply Forall_removelast. }
    split; [exact D|]. rewrite D, part_lines_last by exact NE.
    reflexivity.
Qed.

Lemma X10_witness :
  file_line demo_parser ["src"; "util"; "io.py"]
  = Str.repeat_str "  " 3 +++ "io.py"
  /\ directory_lines (parent_dir ["src"; "util"; "io.py"])
     = ["src"; "  util"].
Proof.
  destruct (X10_tree_indentation demo_parser ["src"; "util"; "io.py"])
    as (H1 & _ & _ & H2).
  - split; [discriminate|repeat constructor; discriminate].
  - split; [exact H1|]. apply H2; discriminate.
Defined.

(** ** The sections of the report *)

Section Sections.
Variable env : Env.
Variable self : CodebaseParser.

Lemma code_output_lines_sections (s : Structure) :
  code_output_lines env self s
  = [format_directory_structure self s; rule_block]
    ++ flat_map
         (fun d => flat_map (code_section env self d) (sorted_files self s d))
         (sorted_dirs s).
Proof.
  unfold code_output_lines.
  rewrite (fold_left_ext _
             (fun result d =>
                result ++ flat_map (code_section env self d)
                            (sorted_files self s d))).
  - apply fold_append_flat_map.
  - intros result d. apply fold_append_flat_map.
Qed.

Lemma flat_map_keyed {A B : Type} (g : string -> A -> list B)
    (F : string -> list A) (key : A -> string) (dirs : list string) :
  (forall d x, In d dirs -> In x (F d) -> key x = d) ->
  flat_map (fun d => flat_map (g d) (F d)) dirs
  = flat_map (fun x => g (key x) x) (flat_map F dirs).
Proof.
  induction dirs as [|d r IH]; intros H; simpl; [reflexivity|].
  rewrite flat_map_app, IH by (intros d' x Hd; apply H; now right).
  f_equal.
  assert (H0 : forall x, In x (F d) -> key x = d)
    by (intros x; apply H; now left).
  induction (F d) as [|x l IHl]; simpl; [reflexivity|].
  rewrite (H0 x (or_introl eq_refl)), IHl; [reflexivity|].
  intros y Hy. apply H0. now right.
Qed.

Lemma flat_map_perm_pointwise {A B : Type} (f g : A -> list B)
    (l : list A) :
  (forall x, Permutation (f x) (g x)) ->
  Permutation (flat_map f l) (flat_map g l).
Proof.
  intros H. induction l as [|x l IH]; simpl; [constructor|].
  now apply Permutation_app.
Qed.

Lemma flat_map_same_on {A B : Type} (f g : A -> list B) (l : list A) :
  (forall x, In x l -> f x = g x) -> flat_map f l = flat_map g l.
Proof.
  induction l as [|x l IH]; intros H; simpl; [reflexivity|].
  rewrite (H x (or_introl eq_refl)), IH; [reflexivity|].
  intros y Hy. apply H. now right.
Qed.

Lemma files_by_key (s : Structure) :
  NoDup (dict_keys s) -> flat_map (files_of s) (dict_keys s) = all_files s.
Proof.
  induction s as [|[k v] r IH]; intros ND; simpl; [reflexivity|].
  inversion ND as [|? ? Hnot ND']; subst.
  unfold files_of at 1, dict_get_default. simpl. rewrite String.eqb_refl.
  f_equal. rewrite <- (IH ND').
  apply flat_map_same_on. intros k' Hk.
  unfold files_of, dict_get_default. simpl.
  destruct (String.eqb_spec k' k) as [->|_]; [contradiction|reflexivity].
Qed.

Lemma listed_files_perm (s : Structure) :
  NoDup (dict_keys s) -> Permutation (listed_files self s) (all_files s).
Proof.
  intros ND. unfold listed_files, sorted_dirs.
  rewrite <- (py_sorted_perm (fun k => k) (dict_keys s)).
  rewrite <- (files_by_key s ND).
  apply flat_map_perm_pointwise. intros d. symmetry. apply py_sorted_perm.
Qed.

Lemma flat_map_sections_length {A : Type} (g : A -> list string)
    (l : list A) (n : nat) :
  (forall x, List.length (g x) = n) ->
  List.length (flat_map g l) = (n * List.length l)%nat.
Proof.
  intros H. induction l as [|x l IH]; simpl; [lia|].
  rewrite length_app, H, IH. lia.
Qed.

End Sections.

(** X11.  The standard report of a scan result is the tree, the rule, and
    then one section of five entries for every kept entry of the tree and for
    no other path, each headed by the key of its own parent, in the order of
    the sorted keys and names. *)
Theorem X11_one_section_per_kept_entry (env : Env) (self : CodebaseParser)
    (items : list Item) :
  let s := scan_directory self items in
  code_output_lines env self s
  = [format_directory_structure self s; rule_block]
    ++ flat_map (fun f => code_section env self (parent_dir f) f)
         (listed_files self s)
  /\ Permutation (listed_files self s) (map rel (filter (kept self) items))
  /\ List.length (code_output_lines env self s)
     = (2 + 5 * List.length (filter (kept self) items))%nat.
Proof.
  intros s.
  assert (P : Permutation (listed_files self s)
                (map rel (filter (kept self) items))).
  { rewrite listed_files_perm by apply scan_well_grouped.
    apply scan_all_files. }
  assert (E : code_output_lines env self s
              = [format_directory_structure self s; rule_block]
                ++ flat_map (fun f => code_section env self (parent_dir f) f)
                     (listed_files self s)).
  { rewrite code_output_lines_sections. f_equal. unfold listed_files.
    apply flat_map_keyed. intros d f _ Hf.
    apply py_sorted_In in Hf. unfold s in Hf.
    apply scan_files_In in Hf. destruct Hf as (item & _ & _ & _ & K).
    exact K. }
  split; [exact E|]. split; [exact P|].
  rewrite E, length_app.
  rewrite (flat_map_sections_length _ _ 5) by reflexivity.
  rewrite (Permutation_length P), length_map. reflexivity.
Qed.

(** ** The statistics that the enhanced report records *)

Section RecordedStats.
Variable env : Env.
Variable self : CodebaseParser.

Lemma In_dict_set {V : Type} (d : dict V) (k k0 : string) (v v0 : V) :
  In (k, v) (dict_set d k0 v0) -> (k = k0 /\ v = v0) \/ In (k, v) d.
Proof.
  induction d as [|[k' v'] r IH]; simpl.
  - intros [[= <- <-]|[]]. now left.
  - destruct (String.eqb_spec k0 k') as [->|N]; simpl.
    + intros [[= <- <-]|H]; [now left|right; now right].
    + intros [H|H]; [right; now left|].
      destruct (IH H) as [H'|H']; [now left|right; now right].
Qed.

Lemma enhanced_section_table (table : FileStatsTable) (f : Path) (k : string)
    (v : option FileStats) :
  In (k, v) (snd (enhanced_section env self table f)) ->
  In (k, v) table \/ recorded env self k v.
Proof.
  unfold enhanced_section. simpl.
  destruct (String.eqb_spec (read_file_content env (abs_path self f)) "")
    as [E|N].
  - rewrite E. simpl. now left.
  - assert (T : truthy (read_file_content env (abs_path self f)) = true)
      by (unfold truthy;
          destruct (String.eqb_spec
                      (read_file_content env (abs_path self f)) "");
          [contradiction|reflexivity]).
    rewrite T. intros H. apply In_dict_set in H.
    destruct H as [[-> ->]|H]; [right|now left].
    exists f. rewrite (analyze_some _ (abs_path self f) N).
    eexists. repeat split. exact N.
Qed.

Lemma enhanced_files_table (files : list Path)
    (state : list string * FileStatsTable) (k : string)
    (v : option FileStats) :
  In (k, v)
    (snd (fold_left
            (fun state file_path =>
               let (lines, table) :=
                 enhanced_section env self (snd state) file_path in
               (fst state ++ lines, table))
            files state)) ->
  In (k, v) (snd state) \/ recorded env self k v.
Proof.
  revert state. induction files as [|f r IH]; intros state; simpl;
    [now left|].
  intros H. apply IH in H. destruct H as [H|H]; [|now right].
  apply (enhanced_section_table (snd state) f). exact H.
Qed.

Lemma enhanced_output_table (adv : AdvancedCodebaseParser) (s : Structure)
    (k : string) (v : option FileStats) :
  base adv = self ->
  In (k, v) (snd (enhanced_output_lines env adv s)) ->
  In (k, v) (file_stats adv) \/ recorded env self k v.
Proof.
  intros B. unfold enhanced_output_lines. rewrite B.
  assert (G : forall dirs (state : list string * FileStatsTable),
             In (k, v)
               (snd (fold_left
                       (fun state directory =>
                          fold_left
                            (fun state file_path =>
                               let (lines, table) :=
                                 enhanced_section env self (snd state)
                                   file_path in
                               (fst state ++ lines, table))
                            (sorted_files self s directory)
                            (fst state
                             ++ [generate_separator
                                   (Str.upper (upper_beyond env) directory);
                                 ""],
                             snd state))
                       dirs state)) ->
             In (k, v) (snd state) \/ recorded env self k v).
  { induction dirs as [|d r IH]; intros state; simpl; [now left|].
    intros H. apply IH in H. destruct H as [H|H]; [|now right].
    apply enhanced_files_table in H. exact H. }
  intros H. apply G in H. exact H.
Qed.

End RecordedStats.

(** X12.  Every entry of [file_stats] after an enhanced report was there
    before or is the analysis of a file with a content that is not empty,
    under the text of its relative path: the report records no empty
    dictionary, and the attributes of the base class are not touched. *)
Theorem X12_recorded_statistics_are_analyses (env : Env)
    (adv : AdvancedCodebaseParser) (s : Structure) (k : string)
    (v : option FileStats) :
  let adv' := snd (generate_enhanced_output env adv s) in
  base adv' = base adv
  /\ (In (k, v) (file_stats adv') ->
      In (k, v) (file_stats adv) \/ recorded env (base adv) k v).
Proof.
  unfold generate_enhanced_output.
  pose proof (enhanced_output_table env (base adv) adv s k v eq_refl) as H.
  destruct (enhanced_output_lines env adv s) as [result table].
  simpl in *. split; [reflexivity|exact H].
Qed.

Lemma X12_witness :
  In ("root.py",
      Some {| lines_total := 5; lines_code := 3; lines_comment := 1;
              lines_blank := 1; functions := 1; classes := 0 |})
    [] \/
  recorded demo_env demo_parser "root.py"
    (Some {| lines_total := 5; lines_code := 3; lines_comment := 1;
             lines_blank := 1; functions := 1; classes := 0 |}).
Proof.
  apply (X12_recorded_statistics_are_analyses demo_env
           {| base := demo_parser; file_stats := [] |}
           (scan_directory demo_parser demo_items)).
  vm_compute. left. reflexivity.
Defined.

(** The header of a directory is its key in upper case: a sharp s becomes
    two letters. *)
Example upper_sharp_s :
  Str.upper (fun c => String c "")
    ("stra" +++ String (ascii_of_nat 223) "e/src")
  = "STRASSE/SRC".
Proof. reflexivity. Qed.

(** ** What a run writes *)

Section Writes.
Variable env : Env.

Lemma write_report_written (self : CodebaseParser) (summary detail : string)
    (w : World) (f : string) :
  f <> output_file self ->
  written (snd (write_report env self summary detail w)) f = written w f.
Proof.
  intros N. unfold write_report.
  destruct (write_fault env (output_file self)) as [fault|];
    [|destruct (getsize_error env (output_file self))];
    simpl; (destruct (String.eqb_spec f (output_file self));
            [contradiction|reflexivity]).
Qed.

Lemma write_report_success (self : CodebaseParser) (summary detail : string)
    (w : World) :
  fst (write_report env self summary detail w) = true ->
  written (snd (write_report env self summary detail w)) (output_file self)
  = Some (report_text summary detail).
Proof.
  unfold write_report.
  destruct (write_fault env (output_file self)) as [fault|];
    [discriminate|].
  destruct (getsize_error env (output_file self)); [discriminate|].
  intros _. simpl. now rewrite String.eqb_refl.
Qed.

Lemma write_report_touches (self : CodebaseParser) (summary detail : string)
    (w : World) :
  exists text,
    written (snd (write_report env self summary detail w)) (output_file self)
    = Some text.
Proof.
  unfold write_report.
  destruct (write_fault env (output_file self)) as [fault|];
    [|destruct (getsize_error env (output_file self))];
    simpl; rewrite String.eqb_refl; eauto.
Qed.

Lemma parse_and_output_writes (self : CodebaseParser) (w : World) :
  let s := scan_directory self (scanned env self) in
  let run := parse_and_output env self w in
  (forall f, f <> output_file self -> written (snd run) f = written w f)
  /\ (path_exists env (root_path self) = false \/ s = []
      \/ open_write env (output_file self) <> None ->
      written (snd run) = written w)
  /\ (fst run = true ->
      written (snd run) (output_file self)
      = Some (report_text
                (generate_summary self s (get_project_stats env self s))
                (generate_code_output (during_write env) self s)))
  /\ (path_exists env (root_path self) = true -> s <> [] ->
      open_write env (output_file self) = None ->
      exists text, written (snd run) (output_file self) = Some text).
Proof.
  intros s run. unfold run, parse_and_output.
  destruct (path_exists env (root_path self)); cbn [negb];
    [|repeat split; try discriminate; congruence].
  pose proof (scan_directory_io_fst env self
                (print "Scanning directory structure..."
                   (print_banner self w))) as F.
  pose proof (scan_directory_io_written env self
                (print "Scanning directory structure..."
                   (print_banner self w))) as W.
  destruct (scan_directory_io env self _) as [structure w'].
  cbn [fst snd] in F, W. fold s in F. subst structure.
  destruct s as [|entry r] eqn:S; cbn [nonempty negb].
  - repeat split; try discriminate; try congruence.
    + intros f _. simpl. now rewrite W.
    + intros _. simpl. exact W.
  - destruct (open_write env (output_file self)) eqn:O.
    + repeat split; try discriminate.
      * intros f _. simpl. now rewrite W.
      * intros _. simpl. exact W.
    + split; [|split; [|split]].
      * intros f N. rewrite write_report_written by exact N.
        simpl. now rewrite W.
      * intros [H|[H|H]]; [discriminate H|discriminate H|now elim H].
      * apply write_report_success.
      * intros _ _ _. apply write_report_touches.
Qed.

Lemma advanced_parse_and_output_writes (self : AdvancedCodebaseParser)
    (w : World) :
  let s := scan_directory (base self) (scanned env (base self)) in
  let run := advanced_parse_and_output env self w in
  (forall f, f <> output_file (base self) ->
             written (snd run) f = written w f)
  /\ (path_exists env (root_path (base self)) = false \/ s = []
      \/ open_write env (output_file (base self)) <> None ->
      written (snd run) = written w).
Proof.
  intros s run. unfold run, advanced_parse_and_output.
  destruct (path_exists env (root_path (base self))); cbn [negb];
    [|repeat split; try discriminate; congruence].
  pose proof (scan_directory_io_fst env (base self)
                (print "Scanning directory structure..."
                   (print_banner (base self) w))) as F.
  pose proof (scan_directory_io_written env (base self)
                (print "Scanning directory structure..."
                   (print_banner (base self) w))) as W.
  destruct (scan_directory_io env (base self) _) as [structure w'].
  cbn [fst snd] in F, W. fold s in F. subst structure.
  destruct s as [|entry r] eqn:S; cbn [nonempty negb].
  - split.
    + intros f _. simpl. now rewrite W.
    + intros _. simpl. exact W.
  - destruct (open_write env (output_file (base self))) eqn:O.
    + split.
      * intros f _. simpl. now rewrite W.
      * intros _. simpl. exact W.
    + destruct (generate_enhanced_output (during_write env) self
                  (entry :: r)) as [detail analyzed].
      pose proof (fun f => write_report_written (base self)
                    (generate_summary (base self) (entry :: r)
                       (get_project_stats env (base self) (entry :: r)))
                    detail
                    (print "Analyzing code and generating output..."
                       (print_found
                          (get_project_stats env (base self) (entry :: r))
                          w')) f) as X.
      destruct (write_report env (base self) _ detail _) as [[|] w''];
        cbn [fst snd] in X |- *.
      * split.
        -- intros f N.
           destruct (nonempty (file_stats analyzed)); cbn [snd];
             rewrite ?print_written, (X f N); simpl; now rewrite W.
        -- intros [H|[H|H]]; [discriminate H|discriminate H|now elim H].
      * split.
        -- intros f N. rewrite (X f N). simpl. now rewrite W.
        -- intros [H|[H|H]]; [discriminate H|discriminate H|now elim H].
Qed.

End Writes.

(** X13.  A run of [parse_and_output], standard or enhanced, changes no
    file but the output file, and none at all when it ends before the [try]
    block has the file open: the root does not exist, the scan keeps nothing,
    or the file cannot be opened.  Once a standard run has the file open,
    the file is created or emptied, whether the run then succeeds or not;
    when the run returns [True], the file holds the summary, a blank line and
    the detailed output, whose sections are read while the file is open. *)
Theorem X13_a_run_writes_the_output_file_only (env : Env)
    (self : AdvancedCodebaseParser) (w : World) :
  let s := scan_directory (base self) (scanned env (base self)) in
  let summary :=
    generate_summary (base self) s (get_project_stats env (base self) s) in
  let run := parse_and_output env (base self) w in
  let advanced_run := advanced_parse_and_output env self w in
  (forall f, f <> output_file (base self) ->
             written (snd run) f = written w f)
  /\ (forall f, f <> output_file (base self) ->
                written (snd advanced_run) f = written w f)
  /\ (path_exists env (root_path (base self)) = false \/ s = []
      \/ open_write env (output_file (base self)) <> None ->
      written (snd run) = written w)
  /\ (path_exists env (root_path (base self)) = false \/ s = []
      \/ open_write env (output_file (base self)) <> None ->
      written (snd advanced_run) = written w)
  /\ (path_exists env (root_path (base self)) = true -> s <> [] ->
      open_write env (output_file (base self)) = None ->
      exists text, written (snd run) (output_file (base self)) = Some text)
  /\ (fst run = true ->
      written (snd run) (output_file (base self))
      = Some (report_text summary
                (generate_code_output (during_write env) (base self) s))).
Proof.
  intros s summary run advanced_run.
  destruct (parse_and_output_writes env (base self) w) as (A & B & C & D).
  destruct (advanced_parse_and_output_writes env self w) as (E & F).
  repeat split; assumption.
Qed.

(** A root that does not exist, and a device without space left. *)
Lemma X13_witness :
  written (snd (parse_and_output env_missing_root demo_parser empty_world))
  = written empty_world
  /\ exists text,
       written (snd (parse_and_output (demo_cli (Some no_space)) demo_parser
                       empty_world)) "code.txt"
       = Some text.
Proof.
  split.
  - apply (X13_a_run_writes_the_output_file_only env_missing_root
             {| base := demo_parser; file_stats := [] |} empty_world).
    left. reflexivity.
  - apply (X13_a_run_writes_the_output_file_only (demo_cli (Some no_space))
             {| base := demo_parser; file_stats := [] |} empty_world).
    + reflexivity.
    + discriminate.
    + reflexivity.
Defined.

(** ** The exit status and the command line *)

Section CommandLine.
Variable env : Env.

Lemma nonempty_scan (self : CodebaseParser) (items : list Item) :
  nonempty (scan_directory self items) = true
  <-> exists item, In item items /\ kept self item = true.
Proof.
  split.
  - intros H.
    destruct (existsb (kept self) items) eqn:E.
    + apply existsb_exists in E. exact E.
    + assert (S : scan_directory self items = []).
      { apply scan_empty_iff. intros item Hin.
        destruct (kept self item) eqn:K; [|reflexivity].
        assert (X : existsb (kept self) items = true)
          by (apply existsb_exists; eauto).
        congruence. }
      rewrite S in H. discriminate H.
  - intros (item & Hin & K).
    destruct (scan_directory self items) as [|e r] eqn:S; [|reflexivity].
    pose proof (proj1 (scan_empty_iff self items) S item Hin) as K'.
    rewrite K' in K. discriminate K.
Qed.

Lemma main_preview_written (argv : list string) (w : World) (args : Args) :
  parse_args env (tl argv) = Parsed args ->
  arg_preview args = true ->
  written (snd (main env argv w)) = written w.
Proof.
  intros P V. unfold main. rewrite P.
  pose proof (add_custom_extensions_written
                (init env (arg_path args) (arg_output args))
                (arg_extensions args) w) as X.
  destruct (add_custom_extensions _ _ w) as [self w']. simpl in X.
  rewrite V. simpl. now rewrite preview_written.
Qed.

End CommandLine.

(** X14.  A standard run without [--preview] exits with status 0 or 1,
    and with 0 exactly when the root exists, some entry that the scan goes
    through is kept (not ignored, a regular file, with a recognized
    extension, those of [--extensions] included), and the [try] block that
    writes the report raises nothing: not when it opens the output file, not
    when it writes or closes it, not in [os.path.getsize]. *)
Theorem X14_standard_exit_status (env : Env) (argv : list string)
    (w : World) (args : Args) :
  parse_args env (tl argv) = Parsed args ->
  arg_preview args = false ->
  let self :=
    fst (add_custom_extensions
           (init env (arg_path args) (arg_output args))
           (arg_extensions args) w) in
  (fst (main env argv w) = 0%Z \/ fst (main env argv w) = 1%Z)
  /\ (fst (main env argv w) = 0%Z
      <-> path_exists env (root_path self) = true
          /\ (exists item, In item (scanned env self)
                           /\ kept self item = true)
          /\ open_write env (output_file self) = None
          /\ write_fault env (output_file self) = None
          /\ getsize_error env (output_file self) = None).
Proof.
  intros P V self.
  rewrite (main_exit_status env argv w args P V). fold self.
  rewrite <- nonempty_scan. unfold writes_ok.
  destruct (path_exists env (root_path self)); simpl.
  - destruct (nonempty (scan_directory self _)); simpl.
    + destruct (open_write env (output_file self)); simpl.
      * split; [now right|]. split; [discriminate|].
        intros (_ & _ & H & _). discriminate H.
      * destruct (write_fault env (output_file self)); simpl.
        -- split; [now right|]. split; [discriminate|].
           intros (_ & _ & _ & H & _). discriminate H.
        -- destruct (getsize_error env (output_file self)); simpl.
           ++ split; [now right|]. split; [discriminate|].
              intros (_ & _ & _ & _ & H). discriminate H.
           ++ split; [now left|]. tauto.
    + split; [now right|]. split; [discriminate|].
      intros (_ & H & _). discriminate H.
  - split; [now right|]. split; [discriminate|].
    intros (H & _). discriminate H.
Qed.

(** The scenario of the specification exits with 0; on a device without
    space left the same tree exits with 1. *)
Lemma X14_witness :
  fst (main (demo_cli None) ["main.py"] empty_world) = 0%Z
  /\ fst (main (demo_cli (Some no_space)) ["main.py"] empty_world) = 1%Z.
Proof.
  split.
  - apply (X14_standard_exit_status (demo_cli None) ["main.py"] empty_world
             {| arg_path := "."; arg_output := "code.txt";
                arg_preview := false; arg_extensions := None |});
      [reflexivity|reflexivity|].
    split; [reflexivity|]. split.
    + exists (file ["root.py"]). split; [left|]; reflexivity.
    + repeat split.
  - destruct (X14_standard_exit_status (demo_cli (Some no_space))
                ["main.py"] empty_world
                {| arg_path := "."; arg_output := "code.txt";
                   arg_preview := false; arg_extensions := None |}
                eq_refl eq_refl) as ([Z|O] & I); [|exact O].
    destruct (proj1 I Z) as (_ & _ & _ & F & _). discriminate F.
Defined.

(** X15.  With [--preview] the process exits with status 0 and writes no
    file, whatever the tree: a root that does not exist or holds no code file
    is not an error of the preview. *)
Theorem X15_preview_exits_zero_and_writes_nothing (env : Env)
    (argv : list string) (w : World) (args : Args) :
  parse_args env (tl argv) = Parsed args ->
  arg_preview args = true ->
  fst (main env argv w) = 0%Z
  /\ written (snd (main env argv w)) = written w.
Proof.
  intros P V. split.
  - now apply (preview_exit_status env argv w args).
  - now apply (main_preview_written env argv w args).
Qed.

(** The arguments [-p /srv/missing] as argparse reads them. *)
Lemma X15_witness :
  let env :=
    with_rglob
      {| resolve := resolve env_missing_root;
         path_exists := path_exists env_missing_root;
         rglob := rglob env_missing_root;
         rglob_error := rglob_error env_missing_root;
         stat_error := stat_error env_missing_root;
         open_read := open_read env_missing_root;
         open_read_during_write := open_read_during_write env_missing_root;
         open_write := open_write env_missing_root;
         write_fault := write_fault env_missing_root;
         getsize_error := getsize_error env_missing_root;
         upper_beyond := upper_beyond env_missing_root;
         parse_args := fun _ =>
           Parsed {| arg_path := "/srv/missing"; arg_output := "code.txt";
                     arg_preview := true; arg_extensions := None |} |} [] in
  fst (main env ["main.py"; "-p"; "/srv/missing"] empty_world) = 0%Z
  /\ written (snd (main env ["main.py"; "-p"; "/srv/missing"] empty_world))
     = written empty_world.
Proof.
  intros env.
  apply (X15_preview_exits_zero_and_writes_nothing env
           ["main.py"; "-p"; "/srv/missing"] empty_world
           {| arg_path := "/srv/missing"; arg_output := "code.txt";
              arg_preview := true; arg_extensions := None |});
    reflexivity.
Defined.

(** X16.  When [--enhanced] is on the command line and the first argument
    is not a request for help, the process exits with status 0 whatever
    [parse_and_output] returns, and the only file it can change is
    [code.txt]: the other options are not read. *)
Theorem X16_enhanced_run_ignores_result_and_options (env : Env)
    (argv : list string) (w : World) :
  ((1 <? List.length argv)%nat
   && mem (nth 1 argv "") ["--help"; "-h"; "help"]) = false ->
  mem "--enhanced" argv = true ->
  fst (script env argv w) = 0%Z
  /\ forall f, f <> "code.txt" ->
               written (snd (script env argv w)) f = written w f.
Proof.
  intros H E. split; [now apply enhanced_exit_status|].
  intros f N. unfold script. rewrite H, E.
  match goal with
  | |- context [advanced_parse_and_output env ?p w] =>
      destruct (advanced_parse_and_output_writes env p w) as (W & _);
      assert (O : output_file (base p) = "code.txt")
        by (now destruct
                  (1 <? List.length (list_remove "--enhanced" argv))%nat);
      specialize (W f); rewrite O in W; specialize (W N);
      destruct (advanced_parse_and_output env p w) as [[b a] w']
  end.
  exact W.
Qed.

Lemma X16_witness :
  fst (script demo_env ["main.py"; "--enhanced"; "-o"; "out.txt"]
         empty_world) = 0%Z
  /\ forall f, f <> "code.txt" ->
               written
                 (snd (script demo_env
                         ["main.py"; "--enhanced"; "-o"; "out.txt"]
                         empty_world)) f
               = written empty_world f.
Proof.
  apply (X16_enhanced_run_ignores_result_and_options demo_env
           ["main.py"; "--enhanced"; "-o"; "out.txt"] empty_world);
    reflexivity.
Defined.

(** With [--enhanced -o out.txt] the report is in [code.txt], and the root
    is what [-o] resolves to. *)
Example enhanced_ignores_output_option :
  let run :=
    script demo_env ["main.py"; "--enhanced"; "-o"; "out.txt"] empty_world in
  written (snd run) "out.txt" = None
  /\ written (snd run) "code.txt" <> None.
Proof. vm_compute. split; [reflexivity|discriminate]. Qed.

(** ** Bounds on the counters of the analyzer *)

Section AnalyzerBounds.

Lemma count_and_le (p q : string -> bool) (lines : list string) :
  (count (fun line => p line && q line) lines <= count p lines)%Z.
Proof.
  induction lines as [|x r IH].
  - unfold count. simpl. lia.
  - rewrite !count_cons. destruct (p x), (q x); cbn [andb]; lia.
Qed.

Lemma count_le_length (p : string -> bool) (lines : list string) :
  (count p lines <= Z.of_nat (List.length lines))%Z.
Proof.
  induction lines as [|x r IH].
  - unfold count. simpl. lia.
  - rewrite count_cons. simpl List.length. destruct (p x); lia.
Qed.

Lemma analyze_total (content : string) (file_path : Path) (st : FileStats) :
  analyze_file_complexity content file_path = Some st ->
  content <> ""
  /\ lines_total st = Z.of_nat (List.length (Str.splitlines content)).
Proof.
  intros E. destruct (String.eqb_spec content "") as [->|N];
    [discriminate E|].
  split; [exact N|].
  rewrite (analyze_some content file_path N) in E. injection E as <-.
  match goal with
  | |- context [fold_left (analyze_line ?e) ?l ?x] =>
      destruct (analyze_fold_fields e l x) as (T & _)
  end.
  now rewrite T.
Qed.

End AnalyzerBounds.

(** X17.  In the statistics of a file the function counter and the class
    counter never exceed the code counter, since only code lines are tested
    against the function and class patterns, and [lines_total] is at least
    1. *)
Theorem X17_functions_and_classes_are_code_lines (content : string)
    (file_path : Path) (st : FileStats) :
  analyze_file_complexity content file_path = Some st ->
  (functions st <= lines_code st)%Z
  /\ (classes st <= lines_code st)%Z
  /\ (lines_code st <= lines_total st)%Z
  /\ (1 <= lines_total st)%Z.
Proof.
  intros E.
  destruct (analyze_counts content file_path st E) as (B & C & K & F & L).
  destruct (analyze_total content file_path st E) as [N T].
  rewrite K, F, L, T. split; [apply count_and_le|].
  split; [apply count_and_le|]. split; [apply count_le_length|].
  pose proof (splitlines_nonempty content N) as H.
  destruct (Str.splitlines content); [contradiction|].
  simpl List.length. lia.
Qed.

Lemma X17_witness :
  let st := {| lines_total := 4; lines_code := 2; lines_comment := 1;
               lines_blank := 1; functions := 1; classes := 1 |} in
  (functions st <= lines_code st)%Z
  /\ (classes st <= lines_code st)%Z
  /\ (lines_code st <= lines_total st)%Z
  /\ (1 <= lines_total st)%Z.
Proof.
  apply (X17_functions_and_classes_are_code_lines demo_js ["src"; "Foo.js"]).
  vm_compute. reflexivity.
Defined.

(** ** The comment patterns *)

Section CommentPatterns.

Lemma append_assoc (a b c : string) : (a +++ b) +++ c = a +++ b +++ c.
Proof. induction a as [|x a IH]; simpl; congruence. Qed.

Lemma prefix_append (p s : string) :
  String.prefix p s = true <-> exists v, s = p +++ v.
Proof.
  revert s. induction p as [|a p IH]; intros s.
  - split; [intros _; now exists s|intros _; now destruct s].
  - destruct s as [|b s].
    + split; [discriminate|]. intros [v E]. discriminate E.
    + change (String.prefix (String a p) (String b s))
        with (if ascii_dec a b then String.prefix p s else false).
      destruct (ascii_dec a b) as [<-|N].
      * rewrite IH. split; intros [v E]; exists v.
        -- simpl. now rewrite E.
        -- simpl in E. now injection E.
      * split; [discriminate|]. intros [v E]. simpl in E.
        injection E as E _. now symmetry in E.
Qed.

Lemma lang_star_space (a : string) :
  lang (Star ws) a <-> all_space a = true.
Proof.
  split.
  - intros H. remember (Star ws) as r eqn:Er.
    induction H as [| | | | | | |r0 u v Hu _ Hv IHv]; try discriminate.
    + reflexivity.
    + injection Er as ->. specialize (IHv eq_refl).
      inversion Hu as [| |k c Hc| | | | |]; subst. simpl in *.
      now rewrite Hc.
  - induction a as [|c a IH]; simpl; intros H; [constructor|].
    apply andb_true_iff in H. destruct H as [Hc Ha].
    change (String c a) with (String c "" +++ a).
    constructor; [now constructor|auto].
Qed.

Lemma lstrip_space (a r : string) :
  all_space a = true -> Str.lstrip (a +++ r) = Str.lstrip r.
Proof.
  induction a as [|c a IH]; simpl; [reflexivity|].
  intros H. apply andb_true_iff in H. destruct H as [Hc Ha].
  now rewrite Hc, IH.
Qed.

Lemma lstrip_split (line : string) :
  exists a, all_space a = true /\ line = a +++ Str.lstrip line.
Proof.
  induction line as [|c r (a & Ha & E)]; simpl.
  - now exists "".
  - destruct (Str.isspace c) eqn:Hc.
    + exists (String c a). simpl. rewrite Hc, Ha. split; [reflexivity|].
      now rewrite <- E.
    + now exists "".
Qed.

Lemma lang_word (s u : string) : lang (word s) u <-> u = s.
Proof.
  revert u. induction s as [|c s IH]; intros u; simpl.
  - split; [intros H; now inversion H|intros ->; constructor].
  - split.
    + intros H. apply lang_seq_inv in H. destruct H as (x & y & -> & Hx & Hy).
      inversion Hx; subst. apply IH in Hy. now subst.
    + intros ->. change (String c s) with (String c "" +++ s).
      constructor; [constructor|now apply IH].
Qed.

Lemma lang_word_eps (s u : string) : lang (Seq (word s) Eps) u <-> u = s.
Proof.
  split.
  - intros H. apply lang_seq_inv in H. destruct H as (x & y & -> & Hx & Hy).
    apply lang_word in Hx. inversion Hy; subst. apply append_nil_r.
  - intros ->. rewrite <- (append_nil_r s) at 2.
    constructor; [now apply lang_word|constructor].
Qed.

(** A pattern [\s*] followed by a literal text that does not begin with
    white space matches the lines that begin with that text after their
    leading white space. *)
Lemma matches_space_then (r : regex) (c : ascii) (t line : string) :
  Str.isspace c = false ->
  (forall u, lang r u <-> u = String c t) ->
  matches (Seq (Star ws) r) line = true
  <-> begins_with line (String c t) = true.
Proof.
  intros Hc Hr. unfold begins_with, Str.startswith.
  rewrite matches_prefix, prefix_append. split.
  - intros (u & v & -> & H). apply lang_seq_inv in H.
    destruct H as (a & b & -> & Ha & Hb).
    apply lang_star_space in Ha. apply Hr in Hb. subst b.
    exists v. rewrite append_assoc, (lstrip_space a _ Ha). simpl.
    now rewrite Hc.
  - intros (v & E). destruct (lstrip_split line) as (a & Ha & L).
    exists (a +++ String c t), v. split.
    + rewrite L at 1. now rewrite E, append_assoc.
    + constructor; [now apply lang_star_space|now apply Hr].
Qed.

Lemma begins_with_not_blank (line : string) (c : ascii) (t : string) :
  Str.isspace c = false ->
  begins_with line (String c t) = true -> Str.strip line <> "".
Proof.
  intros Hc H. unfold begins_with, Str.startswith in H.
  apply prefix_append in H. destruct H as [v E].
  unfold Str.strip. rewrite E. simpl.
  destruct (Str.rstrip (t +++ v)); [now rewrite Hc|discriminate].
Qed.

Lemma classify_comment (ext line : string) :
  classify ext line = Comment
  <-> Str.strip line <> "" /\ any_match (comment_regexes ext) line = true.
Proof.
  unfold classify.
  destruct (String.eqb_spec (Str.strip line) "") as [E|N].
  - split; [discriminate|]. intros [H _]. contradiction.
  - destruct (any_match (comment_regexes ext) line).
    + split; auto.
    + split; [discriminate|]. intros [_ H]. discriminate H.
Qed.

End CommentPatterns.

(** X18.  For [.js], [.ts], [.java], [.cpp] and [.c] a line is classified
    as a comment exactly when, after its leading white space, it begins with
    [//], with [/*] or with [*]; so every line that begins with a star, a
    multiplication or a dereference included, counts as a comment, and the
    inner lines of a block comment that do not begin with a star do not. *)
Theorem X18_c_family_comment_lines (ext line : string) :
  In ext [".js"; ".ts"; ".java"; ".cpp"; ".c"] ->
  let begins :=
    begins_with line "//" || begins_with line "/*" || begins_with line "*" in
  (any_match (comment_regexes ext) line = true <-> begins = true)
  /\ (classify ext line = Comment <-> begins = true).
Proof.
  intros Hext begins.
  assert (R : comment_regexes ext = c_comments).
  { simpl in Hext.
    repeat (destruct Hext as [<-|Hext]; [reflexivity|]). destruct Hext. }
  assert (M : any_match (comment_regexes ext) line = begins).
  { rewrite R. unfold c_comments, any_match, begins. cbn [existsb].
    rewrite orb_false_r, orb_assoc.
    assert (E1 : matches (seqs [Star ws; word "//"]) line
                 = begins_with line "//").
    { apply eq_true_iff_eq. apply matches_space_then; [reflexivity|].
      apply lang_word_eps. }
    assert (E2 : matches (seqs [Star ws; word "/*"]) line
                 = begins_with line "/*").
    { apply eq_true_iff_eq. apply matches_space_then; [reflexivity|].
      apply lang_word_eps. }
    assert (E3 : matches (seqs [Star ws; Lit "*"]) line
                 = begins_with line "*").
    { apply eq_true_iff_eq. apply matches_space_then; [reflexivity|].
      apply (lang_word "*"). }
    now rewrite E1, E2, E3. }
  split; [now rewrite M|].
  rewrite classify_comment, M. split; [tauto|]. intros H. split; [|exact H].
  unfold begins in H. apply orb_true_iff in H. destruct H as [H|H].
  - apply orb_true_iff in H. destruct H as [H|H];
      now apply (begins_with_not_blank line "/" _) in H.
  - now apply (begins_with_not_blank line "*" _) in H.
Qed.

Lemma X18_witness :
  classify ".c" "  *p = x * y;" = Comment
  <-> begins_with "  *p = x * y;" "//" || begins_with "  *p = x * y;" "/*"
      || begins_with "  *p = x * y;" "*" = true.
Proof.
  apply (X18_c_family_comment_lines ".c" "  *p = x * y;").
  simpl. auto 10.
Defined.

(** X19.  For [.py] a line is classified as a comment exactly when, after
    its leading white space, it begins with [#], with three double quotes or
    with three single quotes; the lines inside a docstring that do not begin
    so are not comments. *)
Theorem X19_python_comment_lines (line : string) :
  let triple := String dquote (String dquote (String dquote "")) in
  let begins :=
    begins_with line "#" || begins_with line triple
    || begins_with line "'''" in
  (any_match (comment_regexes ".py") line = true <-> begins = true)
  /\ (classify ".py" line = Comment <-> begins = true).
Proof.
  intros triple begins.
  assert (M : any_match (comment_regexes ".py") line = begins).
  { change (comment_regexes ".py") with py_comments.
    unfold py_comments, any_match, begins. cbn [existsb].
    rewrite orb_false_r, orb_assoc.
    assert (E1 : matches (seqs [Star ws; Lit "#"]) line
                 = begins_with line "#").
    { apply eq_true_iff_eq. apply matches_space_then; [reflexivity|].
      apply (lang_word "#"). }
    assert (E2 : matches (seqs [Star ws; Lit dquote; Lit dquote; Lit dquote])
                   line
                 = begins_with line triple).
    { apply eq_true_iff_eq. apply matches_space_then; [reflexivity|].
      apply (lang_word triple). }
    assert (E3 : matches (seqs [Star ws; word "'''"]) line
                 = begins_with line "'''").
    { apply eq_true_iff_eq. apply matches_space_then; [reflexivity|].
      apply lang_word_eps. }
    now rewrite E1, E2, E3. }
  split; [now rewrite M|].
  rewrite classify_comment, M. split; [tauto|]. intros H. split; [|exact H].
  unfold begins in H. apply orb_true_iff in H. destruct H as [H|H].
  - apply orb_true_iff in H. destruct H as [H|H].
    + now apply (begins_with_not_blank line "#" _) in H.
    + now apply (begins_with_not_blank line dquote _) in H.
  - now apply (begins_with_not_blank line "'" _) in H.
Qed.

(** X20.  The matcher behind the pattern tables: [matches r line] holds
    exactly when the pattern matches some prefix of the line, as [re.match]
    does, whatever follows the match. *)
Theorem X20_match_is_a_prefix_match (r : regex) (line : string) :
  matches r line = true <-> exists u v, line = u +++ v /\ lang r u.
Proof. apply matches_prefix. Qed.
